(** * DNSSEC validation layer of the resolver (lib/layer/validate.c)

    A shallow embedding of the response-validation layer and the properties
    of its state machine.

    Conventions of the embedding.
    - C [int]s are mathematical integers ([Z]); flag words are [Z] bit masks.
    - A pointer that may be NULL is an [option]; a structure reached through
      a pointer and mutated in place is passed in and returned.
    - Behaviour the C code leaves undefined (comparing a NULL name, a loop
      counter that starts below zero) is the result [None].
    - Arena allocation ([mm_alloc], [knot_rrset_copy], [knot_dname_copy],
      [knot_rdataset_merge]) is taken to succeed: the out-of-memory returns
      of the C code are outside the model.
    - The cryptographic routines of lib/dnssec.c, lib/dnssec/nsec.c and
      lib/dnssec/nsec3.c are an interface ([Dnssec]) every statement is
      quantified over. *)

From Stdlib Require Import ZArith List String Ascii Bool Lia.
From Stdlib Require Import OrderedTypeEx.
From Stdlib Require Import Permutation.
Import ListNotations.

Local Open Scope Z_scope.

(** ** Constants *)

(** errno values and the error convention of lib/defines.h. *)
Definition ENOENT : Z := 2.
Definition EBADF : Z := 9.
Definition EAGAIN : Z := 11.
Definition ENOMEM : Z := 12.
Definition EINVAL : Z := 22.
Definition EBADMSG : Z := 74.
(** libdnssec's "not found" code (dnssec/error.h); only that it is not
    zero matters below. *)
Definition DNSSEC_NOT_FOUND : Z := -1496.

Definition kr_ok : Z := 0.
Definition kr_error (x : Z) : Z := - Z.abs x.

(** RR types (IANA), response codes and packet sections. *)
Definition KNOT_RRTYPE_NS : Z := 2.
Definition KNOT_RRTYPE_DS : Z := 43.
Definition KNOT_RRTYPE_RRSIG : Z := 46.
Definition KNOT_RRTYPE_DNSKEY : Z := 48.
Definition KNOT_RRTYPE_NSEC3 : Z := 50.

Definition KNOT_RCODE_NOERROR : Z := 0.
Definition KNOT_RCODE_NXDOMAIN : Z := 3.

Definition KNOT_ANSWER : Z := 0.
Definition KNOT_AUTHORITY : Z := 1.
Definition KNOT_ADDITIONAL : Z := 2.

(** Layer states: bit values as in libknot's processing/layer.h, extended
    with YIELD by lib/layer.h.  Only that the values differ, and which bits
    FAIL and CONSUME are, is used. *)
Definition KNOT_STATE_NOOP : Z := 0.
Definition KNOT_STATE_CONSUME : Z := Z.shiftl 1 0.
Definition KNOT_STATE_PRODUCE : Z := Z.shiftl 1 1.
Definition KNOT_STATE_DONE : Z := Z.shiftl 1 2.
Definition KNOT_STATE_FAIL : Z := Z.shiftl 1 3.
Definition KNOT_STATE_YIELD : Z := Z.shiftl 1 4.

(** Query flags: one bit each, as in lib/rplan.h.  Only that the bits
    differ is used. *)
Definition QUERY_AWAIT_CUT : Z := Z.shiftl 1 8.
Definition QUERY_CACHED : Z := Z.shiftl 1 10.
Definition QUERY_DNSSEC_WANT : Z := Z.shiftl 1 14.
Definition QUERY_DNSSEC_BOGUS : Z := Z.shiftl 1 15.
Definition QUERY_DNSSEC_INSECURE : Z := Z.shiftl 1 16.
Definition QUERY_STUB : Z := Z.shiftl 1 17.
Definition QUERY_DNSSEC_WEXPAND : Z := Z.shiftl 1 19.

(** Validation flags (lib/dnssec.h). *)
Definition KR_DNSSEC_VFLG_WEXPAND : Z := 1.

(** [flags & mask] as a C condition, [flags |= mask], [flags &= ~mask]. *)
Definition has_flag (flags mask : Z) : bool := negb (Z.land flags mask =? 0).
Definition set_flag (flags mask : Z) : Z := Z.lor flags mask.
Definition clear_flag (flags mask : Z) : Z := Z.land flags (Z.lnot mask).

(** ** Domain names (libknot)

    A name is the list of its labels, leftmost first; the root is [[]].
    Labels are compared byte for byte, as libknot's [label_is_equal]. *)
Module Dname.

Definition knot_dname : Type := list string.

Definition label_is_equal (l1 l2 : string) : bool := String.eqb l1 l2.

Fixpoint knot_dname_is_equal (d1 d2 : knot_dname) : bool :=
  match d1, d2 with
  | [], [] => true
  | l1 :: t1, l2 :: t2 => label_is_equal l1 l2 && knot_dname_is_equal t1 t2
  | _, _ => false
  end.

Definition knot_dname_labels (d : knot_dname) : Z := Z.of_nat (List.length d).

(** The label after [lp]; NULL after the root label and on NULL. *)
Definition knot_wire_next_label (lp : option knot_dname) : option knot_dname :=
  match lp with
  | Some (_ :: t) => Some t
  | _ => None
  end.

(** Drop leading labels of the longer name until both have as many. *)
Definition knot_dname_align (d1 d2 : knot_dname) : knot_dname * knot_dname :=
  (skipn (List.length d1 - List.length d2) d1,
   skipn (List.length d2 - List.length d1) d2).

(** Longest chain of equal labels leading to the root. *)
Fixpoint matched_chain (d1 d2 : knot_dname) (matched : Z) : Z :=
  match d1, d2 with
  | l1 :: t1, l2 :: t2 =>
      matched_chain t1 t2 (if label_is_equal l1 l2 then matched + 1 else 0)
  | _, _ => matched
  end.

Definition knot_dname_matched_labels (d1 d2 : knot_dname) : Z :=
  let '(a1, a2) := knot_dname_align d1 d2 in matched_chain a1 a2 0.

(** [sub] is a strict subdomain of [domain]. *)
Definition knot_dname_is_sub (sub domain : knot_dname) : bool :=
  if (List.length sub <=? List.length domain)%nat then false
  else let '(a1, a2) := knot_dname_align sub domain in knot_dname_is_equal a1 a2.

(** [sub] is [domain] or below it. *)
Definition knot_dname_in (domain sub : knot_dname) : bool :=
  knot_dname_is_equal domain sub || knot_dname_is_sub sub domain.

End Dname.
Export Dname.

(** ** Record data (libknot)

    One rdata is its wire bytes; an rdataset keeps its rdata sorted and
    without duplicates, which is what [knot_rdataset_add] maintains. *)
Definition knot_rdata : Type := string.
Definition knot_rdataset : Type := list knot_rdata.

Definition knot_rdata_cmp (a b : knot_rdata) : comparison := String.compare a b.

(** Insert at the first position holding a larger rdata; an equal rdata is
    a duplicate and nothing is added. *)
Fixpoint knot_rdataset_add (rrs : knot_rdataset) (rr : knot_rdata) : knot_rdataset :=
  match rrs with
  | [] => [rr]
  | x :: rest =>
      match knot_rdata_cmp x rr with
      | Eq => rrs
      | Gt => rr :: rrs
      | Lt => x :: knot_rdataset_add rest rr
      end
  end.

Definition knot_rdataset_merge (rrs1 rrs2 : knot_rdataset) : knot_rdataset :=
  fold_left knot_rdataset_add rrs2 rrs1.

Record knot_rrset := mk_rrset {
  rr_owner : knot_dname;
  rr_type : Z;
  rr_rrs : knot_rdataset
}.

(** With allocation succeeding, a copy is the record set itself. *)
Definition knot_rrset_copy (rr : knot_rrset) : knot_rrset := rr.

(** *** RRSIG signer name

    The signer name starts at offset 18 of an RRSIG rdata, in wire format:
    length-prefixed labels closed by the zero-length root label. *)
Fixpoint drop_bytes (n : nat) (s : string) : string :=
  match n, s with
  | S n', String _ s' => drop_bytes n' s'
  | _, _ => s
  end.

Fixpoint take_bytes (n : nat) (s : string) : string :=
  match n, s with
  | S n', String c s' => String c (take_bytes n' s')
  | _, _ => EmptyString
  end.

Fixpoint dname_of_wire (fuel : nat) (s : string) : knot_dname :=
  match fuel, s with
  | S fuel', String c s' =>
      let n := nat_of_ascii c in
      if (n =? 0)%nat then []
      else take_bytes n s' :: dname_of_wire fuel' (drop_bytes n s')
  | _, _ => []
  end.

Fixpoint wire_of_dname (d : knot_dname) : string :=
  match d with
  | [] => String zero EmptyString
  | l :: t => String (ascii_of_nat (String.length l)) (l ++ wire_of_dname t)%string
  end.

Definition knot_rrsig_signer_name (rrs : knot_rdataset) (pos : nat) : knot_dname :=
  let rd := nth pos rrs EmptyString in
  let w := drop_bytes 18 rd in
  dname_of_wire (String.length w) w.

(** An RRSIG rdata with the given signer (fixed fields zeroed, then the
    signer name, then the signature bytes). *)
Fixpoint zero_bytes (n : nat) : string :=
  match n with
  | O => EmptyString
  | S n' => String zero (zero_bytes n')
  end.

Definition rrsig_rdata (signer : knot_dname) (sig : string) : knot_rdata :=
  (zero_bytes 18 ++ wire_of_dname signer ++ sig)%string.

(** ** Data model *)

(** Validation rank of a selected record (lib/utils.h). *)
Inductive kr_vldrank :=
  | KR_VLDRANK_INITIAL
  | KR_VLDRANK_INSECURE
  | KR_VLDRANK_BAD
  | KR_VLDRANK_MISMATCH
  | KR_VLDRANK_UNKNOWN
  | KR_VLDRANK_SECURE.

Definition rank_eqb (a b : kr_vldrank) : bool :=
  match a, b with
  | KR_VLDRANK_INITIAL, KR_VLDRANK_INITIAL
  | KR_VLDRANK_INSECURE, KR_VLDRANK_INSECURE
  | KR_VLDRANK_BAD, KR_VLDRANK_BAD
  | KR_VLDRANK_MISMATCH, KR_VLDRANK_MISMATCH
  | KR_VLDRANK_UNKNOWN, KR_VLDRANK_UNKNOWN
  | KR_VLDRANK_SECURE, KR_VLDRANK_SECURE => true
  | _, _ => false
  end.

Record ranked_rr_array_entry := mk_entry {
  entry_qry_uid : Z;
  entry_rank : kr_vldrank;
  entry_yielded : bool;
  entry_to_wire : bool;
  entry_rr : knot_rrset
}.

Definition ranked_rr_array : Type := list ranked_rr_array_entry.

(** [entry->rank = r]. *)
Definition set_rank (e : ranked_rr_array_entry) (r : kr_vldrank) : ranked_rr_array_entry :=
  mk_entry (entry_qry_uid e) r (entry_yielded e) (entry_to_wire e) (entry_rr e).

(** What the layer reads of a parsed packet: header bits, the question
    and the three sections. *)
Record knot_pkt := mk_pkt {
  pkt_aa : bool;
  pkt_rcode : Z;
  pkt_has_dnssec : bool;
  pkt_qname : knot_dname;
  pkt_qtype : Z;
  pkt_answer : list knot_rrset;
  pkt_authority : list knot_rrset;
  pkt_additional : list knot_rrset
}.

Definition knot_pkt_section (pkt : knot_pkt) (section_id : Z) : list knot_rrset :=
  if section_id =? KNOT_ANSWER then pkt_answer pkt
  else if section_id =? KNOT_AUTHORITY then pkt_authority pkt
  else pkt_additional pkt.

(** The chain of [parent] pointers is finite: parents are strictly older. *)
#[local] Unset Elimination Schemes.
Inductive kr_zonecut := mk_zonecut {
  cut_name : knot_dname;
  cut_key : option knot_rrset;
  cut_trust_anchor : option knot_rrset;
  cut_parent : option kr_zonecut
}.

Definition cut_set_name (c : kr_zonecut) (n : knot_dname) : kr_zonecut :=
  mk_zonecut n (cut_key c) (cut_trust_anchor c) (cut_parent c).
Definition cut_set_key (c : kr_zonecut) (k : option knot_rrset) : kr_zonecut :=
  mk_zonecut (cut_name c) k (cut_trust_anchor c) (cut_parent c).
Definition cut_set_trust_anchor (c : kr_zonecut) (ta : option knot_rrset) : kr_zonecut :=
  mk_zonecut (cut_name c) (cut_key c) ta (cut_parent c).
Definition cut_set_parent (c : kr_zonecut) (p : option kr_zonecut) : kr_zonecut :=
  mk_zonecut (cut_name c) (cut_key c) (cut_trust_anchor c) p.

Inductive kr_query := mk_query {
  qry_sname : knot_dname;
  qry_stype : Z;
  qry_flags : Z;
  qry_zone_cut : kr_zonecut;
  qry_parent : option kr_query;
  qry_timestamp : Z;
  qry_id : Z
}.

#[local] Set Elimination Schemes.

Definition qry_set_flags (q : kr_query) (f : Z) : kr_query :=
  mk_query (qry_sname q) (qry_stype q) f (qry_zone_cut q) (qry_parent q)
           (qry_timestamp q) (qry_id q).
Definition qry_set_zone_cut (q : kr_query) (c : kr_zonecut) : kr_query :=
  mk_query (qry_sname q) (qry_stype q) (qry_flags q) c (qry_parent q)
           (qry_timestamp q) (qry_id q).
Definition qry_set_parent (q : kr_query) (p : option kr_query) : kr_query :=
  mk_query (qry_sname q) (qry_stype q) (qry_flags q) (qry_zone_cut q) p
           (qry_timestamp q) (qry_id q).

Record kr_request := mk_request {
  answ_selected : ranked_rr_array;
  auth_selected : ranked_rr_array;
  current_query : kr_query
}.

Definition req_set_answ (r : kr_request) (a : ranked_rr_array) : kr_request :=
  mk_request a (auth_selected r) (current_query r).
Definition req_set_auth (r : kr_request) (a : ranked_rr_array) : kr_request :=
  mk_request (answ_selected r) a (current_query r).
Definition req_set_query (r : kr_request) (q : kr_query) : kr_request :=
  mk_request (answ_selected r) (auth_selected r) q.

(** [qry->flags |= mask] and [qry->zone_cut = c] through [req->current_query]. *)
Definition req_set_flag (r : kr_request) (mask : Z) : kr_request :=
  req_set_query r (qry_set_flags (current_query r)
                                 (set_flag (qry_flags (current_query r)) mask)).
Definition req_set_cut (r : kr_request) (c : kr_zonecut) : kr_request :=
  req_set_query r (qry_set_zone_cut (current_query r) c).

(** The flags of the request's current query. *)
Definition req_flags (r : kr_request) : Z := qry_flags (current_query r).

Record kr_rrset_validation_ctx := mk_vctx {
  vc_pkt : knot_pkt;
  vc_rrs : ranked_rr_array;
  vc_section_id : Z;
  vc_keys : option knot_rrset;
  vc_zone_name : option knot_dname;
  vc_timestamp : Z;
  vc_has_nsec3 : bool;
  vc_flags : Z;
  vc_result : Z
}.

Definition vc_set_rrs (v : kr_rrset_validation_ctx) (a : ranked_rr_array) :=
  mk_vctx (vc_pkt v) a (vc_section_id v) (vc_keys v) (vc_zone_name v)
          (vc_timestamp v) (vc_has_nsec3 v) (vc_flags v) (vc_result v).
Definition vc_set_section_id (v : kr_rrset_validation_ctx) (s : Z) :=
  mk_vctx (vc_pkt v) (vc_rrs v) s (vc_keys v) (vc_zone_name v)
          (vc_timestamp v) (vc_has_nsec3 v) (vc_flags v) (vc_result v).
Definition vc_set_zone_name (v : kr_rrset_validation_ctx) (z : option knot_dname) :=
  mk_vctx (vc_pkt v) (vc_rrs v) (vc_section_id v) (vc_keys v) z
          (vc_timestamp v) (vc_has_nsec3 v) (vc_flags v) (vc_result v).
Definition vc_set_flags (v : kr_rrset_validation_ctx) (f : Z) :=
  mk_vctx (vc_pkt v) (vc_rrs v) (vc_section_id v) (vc_keys v) (vc_zone_name v)
          (vc_timestamp v) (vc_has_nsec3 v) f (vc_result v).
Definition vc_set_result (v : kr_rrset_validation_ctx) (r : Z) :=
  mk_vctx (vc_pkt v) (vc_rrs v) (vc_section_id v) (vc_keys v) (vc_zone_name v)
          (vc_timestamp v) (vc_has_nsec3 v) (vc_flags v) r.

(** ** The DNSSEC collaborator *)

(** Modelled from the spec: the routines of lib/dnssec.c, lib/dnssec/nsec.c
    and lib/dnssec/nsec3.c the layer calls, as an interface; the statements
    below hold for every implementation of it.  The two verifiers receive
    the validation context by pointer: besides their return code they hand
    back the context's flag word (the in/out flag word of the per-RRset
    verification), and [kr_rrset_validate] its running result as well. *)
Class Dnssec := {
  kr_rrset_validate : kr_rrset_validation_ctx -> knot_rrset -> Z * Z * Z;
  kr_dnskeys_trusted : kr_rrset_validation_ctx -> option knot_rrset -> Z * Z;
  kr_nsec_name_error_response_check : knot_pkt -> Z -> knot_dname -> Z;
  kr_nsec3_name_error_response_check : knot_pkt -> Z -> knot_dname -> Z;
  kr_nsec_existence_denial : knot_pkt -> Z -> knot_dname -> Z -> Z;
  kr_nsec3_no_data : knot_pkt -> Z -> knot_dname -> Z -> Z;
  kr_nsec_ref_to_unsigned : knot_pkt -> Z;
  kr_nsec3_ref_to_unsigned : knot_pkt -> Z
}.

(** ** The layer *)

Section Validate.

Context {D : Dnssec}.

(** Search in section for given type. *)
Fixpoint section_has_type (sec : list knot_rrset) (type : Z) : bool :=
  match sec with
  | [] => false
  | rr :: rest => if rr_type rr =? type then true else section_has_type rest type
  end.

Definition pkt_has_type (pkt : knot_pkt) (type : Z) : bool :=
  if section_has_type (knot_pkt_section pkt KNOT_ANSWER) type then true
  else if section_has_type (knot_pkt_section pkt KNOT_AUTHORITY) type then true
  else section_has_type (knot_pkt_section pkt KNOT_ADDITIONAL) type.

(** The rank that follows from the verifier's return code. *)
Definition rank_of_validation (validation_result : Z) : kr_vldrank :=
  if validation_result =? kr_ok then KR_VLDRANK_SECURE
  else if validation_result =? kr_error ENOENT then KR_VLDRANK_INSECURE
  else if validation_result =? kr_error EBADF then KR_VLDRANK_BAD
  else KR_VLDRANK_UNKNOWN.

(** The loop of [validate_section].  The array [vctx->rrs] is walked from
    index 0: [done] holds the entries already visited, [todo] the ones from
    the current index on, and [vc_rrs vctx] is [done ++ todo] throughout,
    so that the verifier sees the ranks written so far. *)
Fixpoint validate_section_loop (vctx : kr_rrset_validation_ctx)
    (done todo : ranked_rr_array) (rrsig_found : bool)
    : option (bool * kr_rrset_validation_ctx) :=
  match todo with
  | [] => Some (rrsig_found, vctx)
  | entry :: rest =>
      let rr := entry_rr entry in
      if rank_eqb (entry_rank entry) KR_VLDRANK_SECURE || entry_yielded entry then
        validate_section_loop vctx (done ++ [entry]) rest rrsig_found
      else if rr_type rr =? KNOT_RRTYPE_RRSIG then
        let signer_name := knot_rrsig_signer_name (rr_rrs rr) 0 in
        match vc_zone_name vctx with
        | None => None (* knot_dname_is_equal on a NULL name *)
        | Some zone_name =>
            let entry' :=
              if negb (knot_dname_is_equal zone_name signer_name)
              then set_rank entry KR_VLDRANK_MISMATCH
              else set_rank entry KR_VLDRANK_SECURE in
            validate_section_loop (vc_set_rrs vctx (done ++ entry' :: rest))
                                  (done ++ [entry']) rest true
        end
      else if (rr_type rr =? KNOT_RRTYPE_NS) && (vc_section_id vctx =? KNOT_AUTHORITY) then
        let entry' := set_rank entry KR_VLDRANK_SECURE in
        validate_section_loop (vc_set_rrs vctx (done ++ entry' :: rest))
                              (done ++ [entry']) rest rrsig_found
      else
        let '(validation_result, flags', result') := kr_rrset_validate vctx rr in
        let vctx1 := vc_set_result (vc_set_flags vctx flags') result' in
        let entry' := set_rank entry (rank_of_validation validation_result) in
        validate_section_loop (vc_set_rrs vctx1 (done ++ entry' :: rest))
                              (done ++ [entry']) rest rrsig_found
  end.

(** [vctx] is the address of a local of the caller: the EINVAL return for
    a NULL context is not modelled. *)
Definition validate_section (vctx : kr_rrset_validation_ctx)
    : option (Z * kr_rrset_validation_ctx) :=
  (* Can't use qry->zone_cut.name directly, as this name can
     change when updating cut information before validation. *)
  let vctx := vc_set_zone_name vctx (option_map rr_owner (vc_keys vctx)) in
  match validate_section_loop vctx [] (vc_rrs vctx) false with
  | None => None
  | Some (rrsig_found, vctx') =>
      Some (if rrsig_found then kr_ok else kr_error ENOENT, vctx')
  end.

(** The validation context [validate_records] initializes, for the answer
    section. *)
Definition answer_vctx (req : kr_request) (answer : knot_pkt) (has_nsec3 : bool)
    : kr_rrset_validation_ctx :=
  let qry := current_query req in {|
    vc_pkt := answer;
    vc_rrs := answ_selected req;
    vc_section_id := KNOT_ANSWER;
    vc_keys := cut_key (qry_zone_cut qry);
    vc_zone_name := Some (cut_name (qry_zone_cut qry));
    vc_timestamp := qry_timestamp qry;
    vc_has_nsec3 := has_nsec3;
    vc_flags := 0;
    vc_result := 0 |}.

(** The validation context [validate_records] hands to the authority pass:
    the context [vctx] the answer pass left, retargeted. *)
Definition authority_vctx (req : kr_request) (vctx : kr_rrset_validation_ctx)
    : kr_rrset_validation_ctx :=
  let qry := current_query req in
  let vctx := vc_set_rrs vctx (auth_selected req) in
  let vctx := vc_set_section_id vctx KNOT_AUTHORITY in
  (* zone_name can be changed by validate_section(), restore it *)
  let vctx := vc_set_zone_name vctx (Some (cut_name (qry_zone_cut qry))) in
  let vctx := vc_set_flags vctx 0 in
  vc_set_result vctx 0.

Definition validate_records (req : kr_request) (answer : knot_pkt) (has_nsec3 : bool)
    : option (Z * kr_request) :=
  let qry := current_query req in
  match cut_key (qry_zone_cut qry) with
  | None => Some (kr_error EBADMSG, req)
  | Some _ =>
      let vctx := answer_vctx req answer has_nsec3 in
      match validate_section vctx with
      | None => None
      | Some (ret, vctx) =>
          let req := req_set_answ req (vc_rrs vctx) in
          let an_rrsig_not_found := ret =? kr_error ENOENT in
          if negb (ret =? kr_ok) && negb an_rrsig_not_found then Some (ret, req)
          else
            let an_flags := vc_flags vctx in
            let vctx := authority_vctx req vctx in
            match validate_section vctx with
            | None => None
            | Some (ret, vctx) =>
                let req := req_set_auth req (vc_rrs vctx) in
                let flag_wexpand (ret : Z) :=
                  (* Records were validated.
                     If there is wildcard expansion in answer, flag the query. *)
                  if has_flag an_flags KR_DNSSEC_VFLG_WEXPAND
                  then Some (ret, req_set_flag req QUERY_DNSSEC_WEXPAND)
                  else Some (ret, req) in
                if (ret =? kr_error ENOENT) && negb an_rrsig_not_found then
                  flag_wexpand kr_ok
                else if negb (ret =? kr_ok) then Some (ret, req)
                else flag_wexpand ret
            end
      end
  end.

(** [knot_rrset_copy] on a pointer: NULL for NULL. *)
Definition knot_rrset_copy_ptr (src : option knot_rrset) : option knot_rrset :=
  option_map knot_rrset_copy src.

(** The merge loop of [validate_keyset]: the cut after it and [updated_key]. *)
Fixpoint keyset_merge (cut : kr_zonecut) (an : list knot_rrset) (updated_key : bool)
    : kr_zonecut * bool :=
  match an with
  | [] => (cut, updated_key)
  | rr :: rest =>
      if negb (rr_type rr =? KNOT_RRTYPE_DNSKEY) || negb (knot_dname_in (cut_name cut) (rr_owner rr))
      then keyset_merge cut rest updated_key
      else
        (* Merge with zone cut (or replace ancestor key). *)
        match cut_key cut with
        | Some key =>
            if negb (knot_dname_is_equal (rr_owner key) (rr_owner rr)) then
              keyset_merge (cut_set_key cut (knot_rrset_copy_ptr (Some rr))) rest true
            else
              let key' := mk_rrset (rr_owner key) (rr_type key)
                                   (knot_rdataset_merge (rr_rrs key) (rr_rrs rr)) in
              keyset_merge (cut_set_key cut (Some key')) rest true
        | None =>
            keyset_merge (cut_set_key cut (knot_rrset_copy_ptr (Some rr))) rest true
        end
  end.

Definition validate_keyset (req : kr_request) (answer : knot_pkt) (has_nsec3 : bool)
    : Z * kr_request :=
  (* Merge DNSKEY records from answer that are below/at current cut. *)
  let qry := current_query req in
  let an := knot_pkt_section answer KNOT_ANSWER in
  let '(cut, updated_key) := keyset_merge (qry_zone_cut qry) an false in
  let req := req_set_cut req cut in
  let qry := current_query req in
  (* Check if there's a key for current TA. *)
  if updated_key && negb (has_flag (qry_flags qry) QUERY_CACHED) then
    let vctx := {|
      vc_pkt := answer;
      vc_rrs := answ_selected req;
      vc_section_id := KNOT_ANSWER;
      vc_keys := cut_key (qry_zone_cut qry);
      vc_zone_name := Some (cut_name (qry_zone_cut qry));
      vc_timestamp := qry_timestamp qry;
      vc_has_nsec3 := has_nsec3;
      vc_flags := 0;
      vc_result := 0 |} in
    let '(ret, vflags) := kr_dnskeys_trusted vctx (cut_trust_anchor (qry_zone_cut qry)) in
    if negb (ret =? 0) then
      (ret, req_set_cut req (cut_set_key (qry_zone_cut qry) None))
    else if has_flag vflags KR_DNSSEC_VFLG_WEXPAND then
      (kr_ok, req_set_flag req QUERY_DNSSEC_WEXPAND)
    else (kr_ok, req)
  else (kr_ok, req).

(** Aggregate DS records (if using multiple keys). *)
Fixpoint update_ds_loop (new_ds : option knot_rrset) (sec : list knot_rrset)
    : option knot_rrset :=
  match sec with
  | [] => new_ds
  | rr :: rest =>
      if negb (rr_type rr =? KNOT_RRTYPE_DS) then update_ds_loop new_ds rest
      else
        match new_ds with
        | Some ds =>
            update_ds_loop
              (Some (mk_rrset (rr_owner ds) (rr_type ds)
                              (knot_rdataset_merge (rr_rrs ds) (rr_rrs rr)))) rest
        | None =>
            match knot_rrset_copy_ptr (Some rr) with
            | None => None
            | Some ds => update_ds_loop (Some ds) rest
            end
        end
  end.

Definition update_ds (cut : kr_zonecut) (sec : list knot_rrset) : option knot_rrset :=
  update_ds_loop None sec.

(** [assert(parent)]: no result without a parent query. *)
Definition update_parent_keys (qry : kr_query) (answer_type : Z) : option (Z * kr_query) :=
  match qry_parent qry with
  | None => None
  | Some parent =>
      if answer_type =? KNOT_RRTYPE_DNSKEY then
        let key := knot_rrset_copy_ptr (cut_key (qry_zone_cut qry)) in
        let parent := qry_set_zone_cut parent (cut_set_key (qry_zone_cut parent) key) in
        match key with
        | None => Some (KNOT_STATE_FAIL, qry_set_parent qry (Some parent))
        | Some _ => Some (kr_ok, qry_set_parent qry (Some parent))
        end
      else if answer_type =? KNOT_RRTYPE_DS then
        if has_flag (qry_flags qry) QUERY_DNSSEC_INSECURE then
          (* DS non-existence proven. *)
          let parent := qry_set_flags parent (clear_flag (qry_flags parent) QUERY_DNSSEC_WANT) in
          let parent := qry_set_flags parent (set_flag (qry_flags parent) QUERY_DNSSEC_INSECURE) in
          Some (kr_ok, qry_set_parent qry (Some parent))
        else
          (* DS existence proven. *)
          let ta := knot_rrset_copy_ptr (cut_trust_anchor (qry_zone_cut qry)) in
          let parent :=
            qry_set_zone_cut parent (cut_set_trust_anchor (qry_zone_cut parent) ta) in
          match ta with
          | None => Some (KNOT_STATE_FAIL, qry_set_parent qry (Some parent))
          | Some _ => Some (kr_ok, qry_set_parent qry (Some parent))
          end
      else Some (kr_ok, qry)
  end.

Definition update_delegation (qry : kr_query) (answer : knot_pkt) (has_nsec3 : bool)
    : Z * kr_query :=
  let cut := qry_zone_cut qry in
  let inspect (section : Z) : Z * kr_query :=
    let proved_name := pkt_qname answer in
    (* Aggregate DS records (if using multiple keys) *)
    match update_ds cut (knot_pkt_section answer section) with
    | None =>
        (* No DS provided, check for proof of non-existence. *)
        let ret :=
          if negb has_nsec3 then
            if negb (pkt_aa answer) then
              (* Referral, check if it is referral to unsigned, rfc4035 5.2 *)
              kr_nsec_ref_to_unsigned answer
            else
              (* No-data answer *)
              kr_nsec_existence_denial answer KNOT_AUTHORITY proved_name KNOT_RRTYPE_DS
          else
            let ret :=
              if negb (pkt_aa answer) then
                (* Referral, check if it is referral to unsigned, rfc5155 8.9 *)
                kr_nsec3_ref_to_unsigned answer
              else
                (* No-data answer, QTYPE is DS, rfc5155 8.6 *)
                kr_nsec3_no_data answer KNOT_AUTHORITY proved_name KNOT_RRTYPE_DS in
            (* Not bogus, going insecure due to optout *)
            if ret =? kr_error DNSSEC_NOT_FOUND then 0 else ret in
        if negb (ret =? 0) then
          (ret, qry_set_flags qry (set_flag (qry_flags qry) QUERY_DNSSEC_BOGUS))
        else
          let qry := qry_set_flags qry (clear_flag (qry_flags qry) QUERY_DNSSEC_WANT) in
          let qry := qry_set_flags qry (set_flag (qry_flags qry) QUERY_DNSSEC_INSECURE) in
          (ret, qry)
    | Some new_ds =>
        (* Extend trust anchor *)
        (0, qry_set_zone_cut qry (cut_set_trust_anchor cut (Some new_ds)))
    end in
  (* RFC4035 3.1.4. authoritative must send either DS or proof of non-existence.
     If it contains neither, the referral is bogus (or an attempted downgrade attack). *)
  if negb (pkt_aa answer) then (* Referral *) inspect KNOT_AUTHORITY
  else if pkt_qtype answer =? KNOT_RRTYPE_DS then (* Subrequest *) inspect KNOT_ANSWER
  else (* N/A *) (kr_ok, qry).

Fixpoint find_first_signer (arr : ranked_rr_array) : option knot_dname :=
  match arr with
  | [] => None
  | entry :: rest =>
      let rr := entry_rr entry in
      if entry_yielded entry || negb (rank_eqb (entry_rank entry) KR_VLDRANK_INITIAL) then
        find_first_signer rest
      else if rr_type rr =? KNOT_RRTYPE_RRSIG then
        Some (knot_rrsig_signer_name (rr_rrs rr) 0)
      else find_first_signer rest
  end.

Definition signature_authority (req : kr_request) : option knot_dname :=
  match find_first_signer (answ_selected req) with
  | Some signer_name => Some signer_name
  | None => find_first_signer (auth_selected req)
  end.

(** Modelled from the spec: the zone-cut helpers of lib/zonecut.c.
    [kr_zonecut_init] reinitializes a cut at a name, with no key, no trust
    anchor and no parent; [kr_zonecut_copy] copies the name-server set, which
    is not part of the data model; [kr_zonecut_copy_trust] copies key and
    trust anchor from another cut. *)
Definition kr_zonecut_init (name : knot_dname) : kr_zonecut :=
  mk_zonecut name None None None.
Definition kr_zonecut_copy (dst src : kr_zonecut) : kr_zonecut := dst.
Definition kr_zonecut_copy_trust (dst src : kr_zonecut) : kr_zonecut :=
  cut_set_trust_anchor (cut_set_key dst (knot_rrset_copy_ptr (cut_key src)))
                       (knot_rrset_copy_ptr (cut_trust_anchor src)).

(** Modelled from the spec: [kr_ranked_rrarray_set_wire] of lib/utils.c tags
    the records selected for query [qry_uid] for the final wire response. *)
Definition kr_ranked_rrarray_set_wire (arr : ranked_rr_array) (to_wire : bool) (qry_uid : Z)
    : ranked_rr_array :=
  map (fun e =>
         if entry_qry_uid e =? qry_uid
         then mk_entry (entry_qry_uid e) (entry_rank e) (entry_yielded e) to_wire (entry_rr e)
         else e) arr.

(** [n] times [knot_wire_next_label]. *)
Fixpoint next_labels (n : nat) (name : option knot_dname) : option knot_dname :=
  match n with
  | O => name
  | S n' => next_labels n' (knot_wire_next_label name)
  end.

(** [while (skip_labels--)] ends when the counter is 0 before a decrement.
    A counter that starts below zero never is: it is decremented past the
    root label, where [knot_wire_next_label] has no label to return, and
    past INT_MIN, which C leaves undefined. *)
Definition skip_leading_labels (skip_labels : Z) (name : knot_dname) : option knot_dname :=
  if skip_labels <? 0 then None
  else next_labels (Z.to_nat skip_labels) (Some name).

(** Try to find the name wanted among ancestors. *)
Fixpoint find_ancestor_cut (cut : kr_zonecut) (name : knot_dname) : option kr_zonecut :=
  match cut with
  | mk_zonecut _ _ _ (Some parent) =>
      if knot_dname_is_equal name (cut_name parent) then Some parent
      else find_ancestor_cut parent name
  | mk_zonecut _ _ _ None => None
  end.

Definition rrsig_not_found (state : Z) (req : kr_request) (rr : knot_rrset)
    : option (Z * kr_request) :=
  let qry := current_query req in
  if knot_dname_is_equal (rr_owner rr) (cut_name (qry_zone_cut qry))
     || (state =? KNOT_STATE_YIELD) then
    (* Already yielded for revalidation. *)
    Some (KNOT_STATE_FAIL, req_set_flag req QUERY_DNSSEC_BOGUS)
  else
    let owner_labels := knot_dname_labels (rr_owner rr) in
    let matched_labels :=
      knot_dname_matched_labels (cut_name (qry_zone_cut qry)) (rr_owner rr) in
    let skip_labels := owner_labels - matched_labels - 1 in
    match skip_leading_labels skip_labels (rr_owner rr) with
    | None => None
    | Some new_cut_name_start =>
        let cut := qry_zone_cut qry in
        if knot_dname_is_sub new_cut_name_start (cut_name cut) then
          let parent := cut in
          let cut := kr_zonecut_init new_cut_name_start in
          let cut := cut_set_key cut (cut_key parent) in
          let cut := cut_set_trust_anchor cut (cut_trust_anchor parent) in
          let cut := cut_set_parent cut (Some parent) in
          Some (KNOT_STATE_YIELD, req_set_flag (req_set_cut req cut) QUERY_AWAIT_CUT)
        else
          let cut_found := find_ancestor_cut cut new_cut_name_start in
          let req := req_set_cut req (kr_zonecut_init new_cut_name_start) in
          match cut_found with
          | Some ancestor =>
              let cut := kr_zonecut_copy (qry_zone_cut (current_query req)) ancestor in
              let cut := kr_zonecut_copy_trust cut ancestor in
              Some (KNOT_STATE_YIELD, req_set_cut req cut)
          | None =>
              Some (KNOT_STATE_YIELD, req_set_flag req QUERY_AWAIT_CUT)
          end
    end.

(** First search for a RRSIG which signer name is out of current zone. *)
Fixpoint find_mismatch (arr : ranked_rr_array) : option knot_rrset :=
  match arr with
  | [] => None
  | entry :: rest =>
      if entry_yielded entry then find_mismatch rest
      else if rank_eqb (entry_rank entry) KR_VLDRANK_MISMATCH then Some (entry_rr entry)
      else find_mismatch rest
  end.

(** Search for the other problematic records. *)
Fixpoint check_other_ranks (state : Z) (req : kr_request) (arr : ranked_rr_array)
    : option (Z * kr_request) :=
  match arr with
  | [] => Some (KNOT_STATE_DONE, req)
  | entry :: rest =>
      if entry_yielded entry then check_other_ranks state req rest
      else if rank_eqb (entry_rank entry) KR_VLDRANK_INSECURE then
        rrsig_not_found state req (entry_rr entry)
      else if negb (rank_eqb (entry_rank entry) KR_VLDRANK_SECURE) then
        Some (KNOT_STATE_FAIL, req_set_flag req QUERY_DNSSEC_BOGUS)
      else check_other_ranks state req rest
  end.

Definition check_validation_result (state : Z) (req : kr_request) (arr : ranked_rr_array)
    : option (Z * kr_request) :=
  match find_mismatch arr with
  | Some rr =>
      let signer_name := knot_rrsig_signer_name (rr_rrs rr) 0 in
      let cut := qry_zone_cut (current_query req) in
      Some (KNOT_STATE_YIELD, req_set_cut req (cut_set_name cut signer_name))
  | None => check_other_ranks state req arr
  end.

Definition check_signer (state : Z) (req : kr_request) : Z * kr_request :=
  let qry := current_query req in
  let cut := qry_zone_cut qry in
  let ta_name := option_map rr_owner (cut_trust_anchor cut) in
  let signer := signature_authority req in
  let changed :=
    match ta_name, signer with
    | Some ta, Some s => negb (knot_dname_is_equal ta s)
    | Some _, None => true
    | None, _ => false
    end in
  if changed then
    (* check all newly added RRSIGs *)
    if state =? KNOT_STATE_YIELD then (* Already yielded for revalidation. *)
      (KNOT_STATE_FAIL, req)
    else
      match signer with
      | None =>
          (* Not a DNSSEC-signed response, ask parent for DS to prove
             transition to INSECURE. *)
          (KNOT_STATE_YIELD, req)
      | Some signer =>
          if knot_dname_is_sub signer (cut_name cut) then
            (* Key signer is below current cut, advance and refetch keys. *)
            (KNOT_STATE_YIELD, req_set_cut req (cut_set_name cut signer))
          else if negb (knot_dname_is_equal signer (cut_name cut)) then
            (* Key signer is above the current cut: ascend to parent cut,
               and refetch authority for signer. *)
            match cut_parent cut with
            | Some parent =>
                (KNOT_STATE_YIELD, req_set_cut req (cut_set_name parent signer))
            | None =>
                (KNOT_STATE_YIELD,
                 req_set_cut (req_set_flag req QUERY_AWAIT_CUT) (cut_set_name cut signer))
            end
          else (* zone cut matches, but DS/DNSKEY doesn't => refetch. *)
            (KNOT_STATE_YIELD, req)
      end
  else (KNOT_STATE_DONE, req).

(** *** The entry point

    [validate] is one C function that returns from many places.  It is
    split at its comment blocks; a block either returns a state from
    [validate] ([Return]), hands over to the next block ([Continue]) or has
    no defined result ([Undefined]). *)
Inductive flow :=
  | Undefined
  | Return (state : Z) (req : kr_request)
  | Continue (req : kr_request).

Definition and_then (f : flow) (k : kr_request -> flow) : flow :=
  match f with
  | Continue req => k req
  | other => other
  end.

Notation "f >>> k" := (and_then f k) (at level 61, left associativity).

(** Guards: faulty or unprocessed responses, pass-through, and the check
    for the DNSSEC OK indicator. *)
Definition validate_guards (state : Z) (pkt : knot_pkt) (req : kr_request) : flow :=
  let qry := current_query req in
  (* Ignore faulty or unprocessed responses. *)
  if negb (Z.land state (Z.lor KNOT_STATE_FAIL KNOT_STATE_CONSUME) =? 0) then
    Return state req
  (* Pass-through if user doesn't want secure answer or stub. *)
  else if negb (has_flag (qry_flags qry) QUERY_DNSSEC_WANT)
          || has_flag (qry_flags qry) QUERY_STUB then
    Return state req
  else
    (* Answer for RRSIG may not set DO=1, but all records MUST still validate. *)
    let use_signatures := negb (pkt_qtype pkt =? KNOT_RRTYPE_RRSIG) in
    if negb (has_flag (qry_flags qry) QUERY_CACHED)
       && negb (pkt_has_dnssec pkt) && negb use_signatures then
      Return KNOT_STATE_FAIL (req_set_flag req QUERY_DNSSEC_BOGUS)
    else Continue req.

(** Check if this is a DNSKEY answer, check trust chain and store. *)
Definition validate_dnskey (state : Z) (pkt : knot_pkt) (req : kr_request) : flow :=
  let qtype := pkt_qtype pkt in
  let has_nsec3 := pkt_has_type pkt KNOT_RRTYPE_NSEC3 in
  if pkt_aa pkt && (qtype =? KNOT_RRTYPE_DNSKEY) then
    (* Track difference between current TA and signer name. *)
    let track_pc_change := negb (has_flag (req_flags req) QUERY_CACHED) in
    (if track_pc_change then
       let '(ret, req) := check_signer state req in
       if negb (ret =? KNOT_STATE_DONE) then Return ret req else Continue req
     else Continue req)
    >>> fun req =>
      let '(ret, req) := validate_keyset req pkt has_nsec3 in
      if ret =? kr_error EAGAIN then Return KNOT_STATE_YIELD req
      else if negb (ret =? 0) then
        Return KNOT_STATE_FAIL (req_set_flag req QUERY_DNSSEC_BOGUS)
      else Continue req
  else Continue req.

(** Validate non-existence proof if not positive answer: NXDOMAIN. *)
Definition validate_nxdomain (pkt : knot_pkt) (req : kr_request) : flow :=
  let qry := current_query req in
  let pkt_rcode := pkt_rcode pkt in
  let has_nsec3 := pkt_has_type pkt KNOT_RRTYPE_NSEC3 in
  if negb (has_flag (qry_flags qry) QUERY_CACHED) && (pkt_rcode =? KNOT_RCODE_NXDOMAIN) then
    let ret :=
      if negb has_nsec3
      then kr_nsec_name_error_response_check pkt KNOT_AUTHORITY (qry_sname qry)
      else kr_nsec3_name_error_response_check pkt KNOT_AUTHORITY (qry_sname qry) in
    if negb (ret =? 0) then
      Return KNOT_STATE_FAIL (req_set_flag req QUERY_DNSSEC_BOGUS)
    else Continue req
  else Continue req.

(** Non-existence proof for an authoritative NOERROR answer with an empty
    answer section. *)
Definition validate_nodata (pkt : knot_pkt) (req : kr_request) : flow :=
  let qry := current_query req in
  let pkt_rcode := pkt_rcode pkt in
  let has_nsec3 := pkt_has_type pkt KNOT_RRTYPE_NSEC3 in
  if negb (has_flag (qry_flags qry) QUERY_CACHED) then
    let an := knot_pkt_section pkt KNOT_ANSWER in
    if (pkt_rcode =? KNOT_RCODE_NOERROR) && (List.length an =? 0)%nat && pkt_aa pkt then
      let ret :=
        if negb has_nsec3
        then kr_nsec_existence_denial pkt KNOT_AUTHORITY (pkt_qname pkt) (pkt_qtype pkt)
        else kr_nsec3_no_data pkt KNOT_AUTHORITY (pkt_qname pkt) (pkt_qtype pkt) in
      if negb (ret =? 0) then
        if has_nsec3 && (ret =? kr_error DNSSEC_NOT_FOUND) then
          (* can't prove NODATA due to optout, going insecure *)
          let qry := qry_set_flags qry (clear_flag (qry_flags qry) QUERY_DNSSEC_WANT) in
          let qry := qry_set_flags qry (set_flag (qry_flags qry) QUERY_DNSSEC_INSECURE) in
          Continue (req_set_query req qry)
        else
          Return KNOT_STATE_FAIL (req_set_flag req QUERY_DNSSEC_BOGUS)
      else Continue req
    else Continue req
  else Continue req.

(** Lift a helper that returns a layer state: anything but DONE is returned. *)
Definition unless_done (r : option (Z * kr_request)) : flow :=
  match r with
  | None => Undefined
  | Some (ret, req) => if negb (ret =? KNOT_STATE_DONE) then Return ret req else Continue req
  end.

(** Validate all records, fail as bogus if it doesn't match.
    Do not revalidate data from cache, as it's already trusted. *)
Definition validate_positive (state : Z) (pkt : knot_pkt) (req : kr_request) : flow :=
  let has_nsec3 := pkt_has_type pkt KNOT_RRTYPE_NSEC3 in
  if negb (has_flag (req_flags req) QUERY_CACHED) then
    match validate_records req pkt has_nsec3 with
    | None => Undefined
    | Some (ret, req) =>
        if ret =? kr_error ENOENT then
          (* answer doesn't contain RRSIGs: ask parent for DS *)
          Return KNOT_STATE_YIELD req
        else if negb (ret =? 0) then
          (* something exceptional - no DNS key, empty pointers etc *)
          Return KNOT_STATE_FAIL (req_set_flag req QUERY_DNSSEC_BOGUS)
        else
          (* check validation state and spawn subrequests *)
          unless_done (check_validation_result state req (answ_selected req))
          >>> fun req => unless_done (check_validation_result state req (auth_selected req))
    end
  else Continue req.

(** Wildcard expansion of the final query, delegation update, parent update. *)
Definition validate_finish (pkt : knot_pkt) (req : kr_request) : flow :=
  let qry := current_query req in
  let qtype := pkt_qtype pkt in
  let has_nsec3 := pkt_has_type pkt KNOT_RRTYPE_NSEC3 in
  (* Check if wildcard expansion detected for final query. If yes, copy authority. *)
  let req :=
    match qry_parent qry with
    | None =>
        if has_flag (qry_flags qry) QUERY_DNSSEC_WEXPAND
        then req_set_auth req (kr_ranked_rrarray_set_wire (auth_selected req) true (qry_id qry))
        else req
    | Some _ => req
    end in
  (* Check and update current delegation point security status. *)
  let '(ret, qry) := update_delegation qry pkt has_nsec3 in
  let req := req_set_query req qry in
  if negb (ret =? 0) then Return KNOT_STATE_FAIL req
  else
    (* Update parent query zone cut *)
    match qry_parent qry with
    | Some _ =>
        match update_parent_keys qry qtype with
        | None => Undefined
        | Some (ret, qry) =>
            let req := req_set_query req qry in
            if negb (ret =? 0) then Return KNOT_STATE_FAIL req
            else Return KNOT_STATE_DONE req
        end
    | None => Return KNOT_STATE_DONE req
    end.

(** The blocks of [validate] up to, but not including, the one named. *)
Definition validate_until_nxdomain (state : Z) (req : kr_request) (pkt : knot_pkt) : flow :=
  validate_guards state pkt req >>> validate_dnskey state pkt.

Definition validate_until_nodata (state : Z) (req : kr_request) (pkt : knot_pkt) : flow :=
  validate_until_nxdomain state req pkt >>> validate_nxdomain pkt.

Definition validate_until_finish (state : Z) (req : kr_request) (pkt : knot_pkt) : flow :=
  validate_until_nodata state req pkt
  >>> validate_nodata pkt >>> validate_positive state pkt.

Definition validate_flow (state : Z) (req : kr_request) (pkt : knot_pkt) : flow :=
  validate_until_finish state req pkt >>> validate_finish pkt.

(** [validate(ctx, pkt)], with [ctx->state] and [ctx->data] as arguments:
    the state returned and the request as it is left. *)
Definition validate (state : Z) (req : kr_request) (pkt : knot_pkt)
    : option (Z * kr_request) :=
  match validate_flow state req pkt with
  | Return st req' => Some (st, req')
  | _ => None
  end.

End Validate.

(** ** Sample data

    Concrete collaborators, names, record sets and requests at which the
    statements below are exercised. *)

(** A collaborator for which every signature verifies and every denial
    proof holds. *)
Definition accepting_dnssec : Dnssec := {|
  kr_rrset_validate := fun vctx _ => (kr_ok, vc_flags vctx, kr_ok);
  kr_dnskeys_trusted := fun vctx _ => (kr_ok, vc_flags vctx);
  kr_nsec_name_error_response_check := fun _ _ _ => kr_ok;
  kr_nsec3_name_error_response_check := fun _ _ _ => kr_ok;
  kr_nsec_existence_denial := fun _ _ _ _ => kr_ok;
  kr_nsec3_no_data := fun _ _ _ _ => kr_ok;
  kr_nsec_ref_to_unsigned := fun _ => kr_ok;
  kr_nsec3_ref_to_unsigned := fun _ => kr_ok
|}.

(** A collaborator whose NSEC3 routines report "not found" (opt-out) and
    whose NSEC routines find no proof. *)
Definition optout_dnssec : Dnssec := {|
  kr_rrset_validate := fun vctx _ => (kr_ok, vc_flags vctx, kr_ok);
  kr_dnskeys_trusted := fun vctx _ => (kr_ok, vc_flags vctx);
  kr_nsec_name_error_response_check := fun _ _ _ => kr_error ENOENT;
  kr_nsec3_name_error_response_check := fun _ _ _ => kr_error DNSSEC_NOT_FOUND;
  kr_nsec_existence_denial := fun _ _ _ _ => kr_error ENOENT;
  kr_nsec3_no_data := fun _ _ _ _ => kr_error DNSSEC_NOT_FOUND;
  kr_nsec_ref_to_unsigned := fun _ => kr_error ENOENT;
  kr_nsec3_ref_to_unsigned := fun _ => kr_error DNSSEC_NOT_FOUND
|}.

Definition name_com : knot_dname := ["com"%string].
Definition name_example_com : knot_dname := ["example"%string; "com"%string].
Definition name_www_example_com : knot_dname :=
  ["www"%string; "example"%string; "com"%string].

Definition KNOT_RRTYPE_A : Z := 1.
Definition KNOT_RRTYPE_SOA : Z := 6.

Definition rr_a_example : knot_rrset :=
  mk_rrset name_example_com KNOT_RRTYPE_A ["address"%string].
Definition rr_sig_example : knot_rrset :=
  mk_rrset name_example_com KNOT_RRTYPE_RRSIG [rrsig_rdata name_example_com "sig"].
Definition rr_key_example : knot_rrset :=
  mk_rrset name_example_com KNOT_RRTYPE_DNSKEY ["key"%string].

Definition entry_of (rank : kr_vldrank) (rr : knot_rrset) : ranked_rr_array_entry :=
  mk_entry 1 rank false false rr.

Definition cut_example : kr_zonecut :=
  mk_zonecut name_example_com (Some rr_key_example) None None.

Definition qry_example (flags : Z) : kr_query :=
  mk_query name_example_com KNOT_RRTYPE_A flags cut_example None 0 1.

(** An authoritative answer to [example.com A] that carries the address
    record and its signature but no DNSSEC OK indicator. *)
Definition pkt_a_without_do : knot_pkt :=
  mk_pkt true KNOT_RCODE_NOERROR false name_example_com KNOT_RRTYPE_A
         [rr_a_example; rr_sig_example] [] [].

Definition req_a_example (flags : Z) : kr_request :=
  mk_request [entry_of KR_VLDRANK_INITIAL rr_a_example;
              entry_of KR_VLDRANK_INITIAL rr_sig_example]
             [] (qry_example flags).

(** The same request with the address record marked as yielded. *)
Definition req_a_yielded : kr_request :=
  mk_request [mk_entry 1 KR_VLDRANK_INITIAL true false rr_a_example;
              entry_of KR_VLDRANK_INITIAL rr_sig_example]
             [] (qry_example QUERY_DNSSEC_WANT).

(** A record the verdict does not skip is secure. *)
Definition secure_unless_yielded (e : ranked_rr_array_entry) : Prop :=
  entry_yielded e = false -> entry_rank e = KR_VLDRANK_SECURE.

(** A record the section loop inspects: neither secure already nor yielded. *)
Definition inspected (e : ranked_rr_array_entry) : bool :=
  negb (rank_eqb (entry_rank e) KR_VLDRANK_SECURE || entry_yielded e).

(** The section loop meets an RRSIG among the records it inspects. *)
Definition section_has_rrsig (arr : ranked_rr_array) : bool :=
  existsb (fun e => inspected e && (rr_type (entry_rr e) =? KNOT_RRTYPE_RRSIG)) arr.

(** The fields of a validation context the section loop only reads. *)
Definition same_inputs (v v' : kr_rrset_validation_ctx) : Prop :=
  vc_pkt v' = vc_pkt v /\ vc_section_id v' = vc_section_id v
  /\ vc_keys v' = vc_keys v /\ vc_zone_name v' = vc_zone_name v
  /\ vc_timestamp v' = vc_timestamp v /\ vc_has_nsec3 v' = vc_has_nsec3 v.

(** How the section loop ranks the record [e], giving [e'], when the
    validation context is [c] at the time the record is inspected and the
    zone name is [zone_name]. *)
Definition ranked_by (c : kr_rrset_validation_ctx) {D : Dnssec} (zone_name : knot_dname)
    (e e' : ranked_rr_array_entry) : Prop :=
  entry_rr e' = entry_rr e /\ entry_yielded e' = entry_yielded e
  /\ entry_qry_uid e' = entry_qry_uid e /\ entry_to_wire e' = entry_to_wire e
  /\ if negb (inspected e) then entry_rank e' = entry_rank e
     else if rr_type (entry_rr e) =? KNOT_RRTYPE_RRSIG then
       entry_rank e' =
         if knot_dname_is_equal zone_name (knot_rrsig_signer_name (rr_rrs (entry_rr e)) 0)
         then KR_VLDRANK_SECURE else KR_VLDRANK_MISMATCH
     else if (rr_type (entry_rr e) =? KNOT_RRTYPE_NS) && (vc_section_id c =? KNOT_AUTHORITY) then
       entry_rank e' = KR_VLDRANK_SECURE
     else
       (entry_rank e' = KR_VLDRANK_SECURE
        <-> fst (fst (kr_rrset_validate c (entry_rr e))) = kr_ok).

(** What the section loop has done when started in context [vctx] with
    [done] visited and [todo] ahead, and ending in context [vctx']: the
    array keeps its length, and the record at each position of [todo] is
    ranked by the rule, in a context that holds the ranks written before
    that position. *)
Definition loop_ranked {D : Dnssec} (vctx : kr_rrset_validation_ctx)
    (done todo : ranked_rr_array) (zone_name : knot_dname)
    (vctx' : kr_rrset_validation_ctx) : Prop :=
  exists todo',
    vc_rrs vctx' = done ++ todo'
    /\ same_inputs vctx vctx'
    /\ List.length todo' = List.length todo
    /\ forall j e, nth_error todo j = Some e ->
         exists e' c,
           nth_error todo' j = Some e'
           /\ same_inputs vctx c
           /\ vc_rrs c = done ++ firstn j todo' ++ skipn j todo
           /\ ranked_by c zone_name e e'.

(** [validate_records] as it would be without the line that restores
    [vctx.zone_name] between the two passes; for comparison only. *)
Definition authority_vctx_without_restore (req : kr_request)
    (vctx : kr_rrset_validation_ctx) : kr_rrset_validation_ctx :=
  let vctx := vc_set_rrs vctx (auth_selected req) in
  let vctx := vc_set_section_id vctx KNOT_AUTHORITY in
  let vctx := vc_set_flags vctx 0 in
  vc_set_result vctx 0.

Definition validate_records_without_restore {D : Dnssec}
    (req : kr_request) (answer : knot_pkt) (has_nsec3 : bool)
    : option (Z * kr_request) :=
  let qry := current_query req in
  match cut_key (qry_zone_cut qry) with
  | None => Some (kr_error EBADMSG, req)
  | Some _ =>
      let vctx := answer_vctx req answer has_nsec3 in
      match validate_section vctx with
      | None => None
      | Some (ret, vctx) =>
          let req := req_set_answ req (vc_rrs vctx) in
          let an_rrsig_not_found := ret =? kr_error ENOENT in
          if negb (ret =? kr_ok) && negb an_rrsig_not_found then Some (ret, req)
          else
            let an_flags := vc_flags vctx in
            let vctx := authority_vctx_without_restore req vctx in
            match validate_section vctx with
            | None => None
            | Some (ret, vctx) =>
                let req := req_set_auth req (vc_rrs vctx) in
                let flag_wexpand (ret : Z) :=
                  if has_flag an_flags KR_DNSSEC_VFLG_WEXPAND
                  then Some (ret, req_set_flag req QUERY_DNSSEC_WEXPAND)
                  else Some (ret, req) in
                if (ret =? kr_error ENOENT) && negb an_rrsig_not_found then
                  flag_wexpand kr_ok
                else if negb (ret =? kr_ok) then Some (ret, req)
                else flag_wexpand ret
            end
      end
  end.

(** A cut whose name has moved below the owner of its key set, and a
    request under it with one RRSIG made by the owner of the key set. *)
Definition cut_moved : kr_zonecut :=
  mk_zonecut name_www_example_com (Some rr_key_example) None None.

Definition req_sig_moved : kr_request :=
  mk_request [entry_of KR_VLDRANK_INITIAL rr_sig_example] []
             (mk_query name_www_example_com KNOT_RRTYPE_A QUERY_DNSSEC_WANT
                       cut_moved None 0 1).

(** A request whose answer section has no record and whose authority
    section has one RRSIG. *)
Definition req_auth_sig : kr_request :=
  mk_request [] [entry_of KR_VLDRANK_INITIAL rr_sig_example]
             (qry_example QUERY_DNSSEC_WANT).

Definition pkt_nodata : knot_pkt :=
  mk_pkt true KNOT_RCODE_NOERROR true name_example_com KNOT_RRTYPE_A
         [] [rr_sig_example] [].

(** Ranked records with a bad record, an insecure record and then an RRSIG
    whose signer is outside the zone. *)
Definition arr_mismatch_last : ranked_rr_array :=
  [entry_of KR_VLDRANK_BAD rr_a_example;
   entry_of KR_VLDRANK_INSECURE rr_a_example;
   entry_of KR_VLDRANK_MISMATCH rr_sig_example].

(** A record owned by [com], above the cut at [example.com]. *)
Definition rr_soa_com : knot_rrset :=
  mk_rrset name_com KNOT_RRTYPE_SOA ["soa"%string].

(** A record owned by [www.example.com], below the cut at [example.com]. *)
Definition rr_a_www : knot_rrset :=
  mk_rrset name_www_example_com KNOT_RRTYPE_A ["address"%string].

(** The owner with [skip_labels] leading labels stripped, where the source
    has [new_cut_name_start]. *)
Definition new_cut_name_start (cut_name owner : knot_dname) : option knot_dname :=
  skip_leading_labels
    (knot_dname_labels owner - knot_dname_matched_labels cut_name owner - 1) owner.

(** A referral from [com] to [example.com] that carries an NS record and no
    DS record, and a request in which the NS record was selected. *)
Definition rr_ns_example : knot_rrset :=
  mk_rrset name_example_com KNOT_RRTYPE_NS ["ns"%string].

Definition rr_sig_com : knot_rrset :=
  mk_rrset name_com KNOT_RRTYPE_RRSIG [rrsig_rdata name_com "sig"].

Definition rr_key_com : knot_rrset :=
  mk_rrset name_com KNOT_RRTYPE_DNSKEY ["key"%string].

Definition pkt_referral : knot_pkt :=
  mk_pkt false KNOT_RCODE_NOERROR true name_example_com KNOT_RRTYPE_A
         [] [rr_ns_example; rr_sig_com] [].

Definition req_referral : kr_request :=
  mk_request []
             [entry_of KR_VLDRANK_INITIAL rr_ns_example;
              entry_of KR_VLDRANK_INITIAL rr_sig_com]
             (mk_query name_example_com KNOT_RRTYPE_A QUERY_DNSSEC_WANT
                       (mk_zonecut name_com (Some rr_key_com) None None) None 0 1).

(** The section [update_delegation] inspects. *)
Definition delegation_section (answer : knot_pkt) : Z :=
  if negb (pkt_aa answer) then KNOT_AUTHORITY else KNOT_ANSWER.

(** Between two flag words: WANT, once cleared, stays cleared and
    INSECURE, once set, stays set. *)
Definition insecure_kept (f f' : Z) : Prop :=
  (has_flag f QUERY_DNSSEC_WANT = false -> has_flag f' QUERY_DNSSEC_WANT = false)
  /\ (has_flag f QUERY_DNSSEC_INSECURE = true -> has_flag f' QUERY_DNSSEC_INSECURE = true).

(** An authoritative NOERROR answer with an empty answer section, and a
    name error, both with an NSEC3 record and its signature in the
    authority section; and the request for them. *)
Definition rr_nsec3_example : knot_rrset :=
  mk_rrset ["hash"%string; "example"%string; "com"%string] KNOT_RRTYPE_NSEC3
           ["nsec3"%string].

Definition pkt_nodata_nsec3 : knot_pkt :=
  mk_pkt true KNOT_RCODE_NOERROR true name_example_com KNOT_RRTYPE_A
         [] [rr_nsec3_example; rr_sig_example] [].

Definition pkt_nxdomain_nsec3 : knot_pkt :=
  mk_pkt true KNOT_RCODE_NXDOMAIN true name_example_com KNOT_RRTYPE_A
         [] [rr_nsec3_example; rr_sig_example] [].

Definition req_nsec3 : kr_request :=
  mk_request []
             [entry_of KR_VLDRANK_INITIAL rr_nsec3_example;
              entry_of KR_VLDRANK_INITIAL rr_sig_example]
             (qry_example QUERY_DNSSEC_WANT).

(** *** The key set of a cut under the merge loop

    An rdataset as libknot builds it is sorted by [knot_rdata_cmp]; a record
    parsed from a packet holds a single rdata. *)
Fixpoint rdataset_sorted (rrs : knot_rdataset) : Prop :=
  match rrs with
  | [] => True
  | x :: rest => Forall (fun y => knot_rdata_cmp x y <> Gt) rest /\ rdataset_sorted rest
  end.

(** Adding [x] to [rrs] changes nothing. *)
Definition absorbed (rrs : knot_rdataset) (x : knot_rdata) : Prop :=
  knot_rdataset_add rrs x = rrs.

(** The records the merge loop of [validate_keyset] does not skip. *)
Definition key_relevant (cutn : knot_dname) (rr : knot_rrset) : bool :=
  (rr_type rr =? KNOT_RRTYPE_DNSKEY) && knot_dname_in cutn (rr_owner rr).

Definition key_merge (key rr : knot_rrset) : knot_rrset :=
  mk_rrset (rr_owner key) (rr_type key) (knot_rdataset_merge (rr_rrs key) (rr_rrs rr)).

(** One turn of the merge loop, on the key of the cut. *)
Definition key_step (cutn : knot_dname) (key : option knot_rrset) (rr : knot_rrset)
    : option knot_rrset :=
  if negb (key_relevant cutn rr) then key
  else match key with
       | Some k =>
           if negb (knot_dname_is_equal (rr_owner k) (rr_owner rr)) then Some rr
           else Some (key_merge k rr)
       | None => Some rr
       end.

Definition merged_key (cutn : knot_dname) (key : option knot_rrset) (an : list knot_rrset)
    : option knot_rrset :=
  fold_left (key_step cutn) an key.

(** The loop when every turn merges. *)
Definition merge_all (cutn : knot_dname) (k : knot_rrset) (an : list knot_rrset) : knot_rrset :=
  fold_left (fun k rr => if key_relevant cutn rr then key_merge k rr else k) an k.

(** Every rdata of [rr] is in the key [k] already. *)
Definition key_covers (k rr : knot_rrset) : Prop :=
  Forall (absorbed (rr_rrs k)) (rr_rrs rr).

(** Two DNSKEY records of [example.com] as an answer section, and a cut at
    [example.com] without a key yet. *)
Definition rr_key2_example : knot_rrset :=
  mk_rrset name_example_com KNOT_RRTYPE_DNSKEY ["another key"%string].

Definition an_two_keys : list knot_rrset := [rr_key_example; rr_key2_example; rr_sig_example].

Definition cut_without_key : kr_zonecut := mk_zonecut name_example_com None None None.

(** ** Further definitions for the properties of the layer *)

(** [validate_rrset], the map callback of the file: once the running result
    of the context is not zero it is returned and the verifier is not
    called. *)
Definition validate_rrset {D : Dnssec} (vctx : kr_rrset_validation_ctx) (rr : knot_rrset)
    : Z * Z * Z :=
  if negb (vc_result vctx =? 0) then (vc_result vctx, vc_flags vctx, vc_result vctx)
  else kr_rrset_validate vctx rr.

(** The blocks of [validate] up to, but not including, the positive
    validation. *)
Definition validate_until_positive {D : Dnssec} (state : Z) (req : kr_request)
    (pkt : knot_pkt) : flow :=
  and_then (validate_until_nodata state req pkt) (validate_nodata pkt).

(** What identifies a selected record apart from its rank and its wire tag. *)
Definition entry_id (e : ranked_rr_array_entry) : Z * bool * knot_rrset :=
  (entry_qry_uid e, entry_yielded e, entry_rr e).

(** Two arrays hold the same records in the same order. *)
Definition same_records (a a' : ranked_rr_array) : Prop :=
  map entry_id a' = map entry_id a.

(** [e'] is [e] with, at most, another rank; a record the section loop does
    not inspect is not touched. *)
Definition reranked (e e' : ranked_rr_array_entry) : Prop :=
  entry_id e' = entry_id e /\ entry_to_wire e' = entry_to_wire e
  /\ (inspected e = false -> e' = e).

(** A record is a fresh RRSIG for [find_first_signer]. *)
Definition fresh_rrsig (e : ranked_rr_array_entry) : bool :=
  negb (entry_yielded e || negb (rank_eqb (entry_rank e) KR_VLDRANK_INITIAL))
  && (rr_type (entry_rr e) =? KNOT_RRTYPE_RRSIG).

(** A request at [example.com] whose cut has no key. *)
Definition req_without_key : kr_request :=
  mk_request [entry_of KR_VLDRANK_INITIAL rr_a_example;
              entry_of KR_VLDRANK_INITIAL rr_sig_example]
             []
             (mk_query name_example_com KNOT_RRTYPE_A QUERY_DNSSEC_WANT
                       cut_without_key None 0 1).

(** The signed answer to [example.com A], with the DNSSEC OK indicator. *)
Definition pkt_a_with_do : knot_pkt :=
  mk_pkt true KNOT_RCODE_NOERROR true name_example_com KNOT_RRTYPE_A
         [rr_a_example; rr_sig_example] [] [].

(** Ranked records with a secure record, then a bad one, then an insecure
    one. *)
Definition arr_bad_first : ranked_rr_array :=
  [entry_of KR_VLDRANK_SECURE rr_sig_example;
   entry_of KR_VLDRANK_BAD rr_a_example;
   entry_of KR_VLDRANK_INSECURE rr_a_www].

(** No record that is not yielded has rank MISMATCH. *)
Definition no_mismatch (arr : ranked_rr_array) : Prop :=
  Forall (fun x => entry_yielded x = true \/ entry_rank x <> KR_VLDRANK_MISMATCH) arr.

(** An rdataset without duplicates, in increasing order: what an rdataset
    built with [knot_rdataset_add] is. *)
Fixpoint rdataset_strict (rrs : knot_rdataset) : Prop :=
  match rrs with
  | [] => True
  | x :: rest => Forall (fun y => knot_rdata_cmp x y = Lt) rest /\ rdataset_strict rest
  end.

(** The rdata of the DS records of a section, in order. *)
Definition ds_rdata (sec : list knot_rrset) : list knot_rdata :=
  flat_map rr_rrs (filter (fun rr => rr_type rr =? KNOT_RRTYPE_DS) sec).

(** Two DS records of [example.com], an NS record between them. *)
Definition rr_ds1 : knot_rrset :=
  mk_rrset name_example_com KNOT_RRTYPE_DS ["digest 2"%string].
Definition rr_ds2 : knot_rrset :=
  mk_rrset name_example_com KNOT_RRTYPE_DS ["digest 1"%string].
Definition sec_two_ds : list knot_rrset := [rr_ds1; rr_ns_example; rr_ds2].
Definition sec_two_ds_swapped : list knot_rrset := [rr_ds2; rr_ds1; rr_ns_example].

(** The denial routine [update_delegation] consults when no DS is found:
    that of the referral or that of the authoritative answer, for NSEC and
    for NSEC3. *)
Definition ds_denial_nsec {D : Dnssec} (answer : knot_pkt) : Z :=
  if negb (pkt_aa answer) then kr_nsec_ref_to_unsigned answer
  else kr_nsec_existence_denial answer KNOT_AUTHORITY (pkt_qname answer) KNOT_RRTYPE_DS.

Definition ds_denial_nsec3 {D : Dnssec} (answer : knot_pkt) : Z :=
  if negb (pkt_aa answer) then kr_nsec3_ref_to_unsigned answer
  else kr_nsec3_no_data answer KNOT_AUTHORITY (pkt_qname answer) KNOT_RRTYPE_DS.

(** [qry->flags &= ~QUERY_DNSSEC_WANT; qry->flags |= QUERY_DNSSEC_INSECURE]. *)
Definition qry_go_insecure (qry : kr_query) : kr_query :=
  qry_set_flags qry
    (set_flag (clear_flag (qry_flags qry) QUERY_DNSSEC_WANT) QUERY_DNSSEC_INSECURE).

(** A referral to [example.com] with a DS record, and a subquery for the
    DNSKEY of [example.com] under the query of [req_a_example]. *)
Definition pkt_referral_ds : knot_pkt :=
  mk_pkt false KNOT_RCODE_NOERROR true name_example_com KNOT_RRTYPE_A
         [] [rr_ns_example; rr_ds1; rr_sig_com] [].

Definition qry_sub_dnskey : kr_query :=
  mk_query name_example_com KNOT_RRTYPE_DNSKEY QUERY_DNSSEC_WANT cut_example
           (Some (mk_query name_www_example_com KNOT_RRTYPE_A QUERY_DNSSEC_WANT
                           cut_without_key None 0 1))
           0 2.

(** The signer found agrees with the trust anchor of the cut, or there is
    no trust anchor: the condition under which [check_signer] has nothing
    to do. *)
Definition signer_settled (req : kr_request) : bool :=
  match option_map rr_owner (cut_trust_anchor (qry_zone_cut (current_query req))),
        signature_authority req with
  | Some ta_name, Some signer => knot_dname_is_equal ta_name signer
  | Some _, None => false
  | None, _ => true
  end.

(** A DS record set of [example.com] as trust anchor, and requests whose
    first fresh RRSIG is signed by [www.example.com] (below the cut at
    [example.com]) and by [com] (above it). *)
Definition cut_example_ta : kr_zonecut :=
  mk_zonecut name_example_com (Some rr_key_example) (Some rr_ds1) None.

Definition rr_sig_www : knot_rrset :=
  mk_rrset name_www_example_com KNOT_RRTYPE_RRSIG [rrsig_rdata name_www_example_com "sig"].

Definition req_signed_by (sig : knot_rrset) : kr_request :=
  mk_request [entry_of KR_VLDRANK_SECURE rr_sig_example;
              entry_of KR_VLDRANK_INITIAL rr_key_example]
             [entry_of KR_VLDRANK_INITIAL sig]
             (mk_query name_example_com KNOT_RRTYPE_DNSKEY QUERY_DNSSEC_WANT
                       cut_example_ta None 0 1).

(** [e'] is the record [e]; its rank is the same unless the section loop
    inspects it. *)
Definition kept_record (e e' : ranked_rr_array_entry) : Prop :=
  entry_id e' = entry_id e /\ (inspected e = false -> entry_rank e' = entry_rank e).

(** What [validate] never changes of a query: the question, the id, the
    timestamp, and whether it is cached or a stub query. *)
Definition same_question (q q' : kr_query) : Prop :=
  qry_sname q' = qry_sname q /\ qry_stype q' = qry_stype q
  /\ qry_id q' = qry_id q /\ qry_timestamp q' = qry_timestamp q
  /\ has_flag (qry_flags q') QUERY_CACHED = has_flag (qry_flags q) QUERY_CACHED
  /\ has_flag (qry_flags q') QUERY_STUB = has_flag (qry_flags q) QUERY_STUB.

(** The states [validate] can return, given the state it is called in. *)
Definition layer_states (state st : Z) : Prop :=
  st = state \/ st = KNOT_STATE_DONE \/ st = KNOT_STATE_YIELD \/ st = KNOT_STATE_FAIL.

(** What holds between the request [r] before, and [r'] after, a part of
    [validate] that returns [st] (or goes on, [None]): the selected records
    are the same records, the question is the same, BOGUS changes only with
    FAIL, and for a cached answer no rank changes. *)
Definition block_kept (r : kr_request) (st : option Z) (r' : kr_request) : Prop :=
  Forall2 reranked (answ_selected r) (answ_selected r')
  /\ Forall2 kept_record (auth_selected r) (auth_selected r')
  /\ same_question (current_query r) (current_query r')
  /\ (st <> Some KNOT_STATE_FAIL ->
      has_flag (req_flags r') QUERY_DNSSEC_BOGUS = has_flag (req_flags r) QUERY_DNSSEC_BOGUS)
  /\ (has_flag (req_flags r) QUERY_CACHED = true ->
      map entry_rank (answ_selected r') = map entry_rank (answ_selected r)
      /\ map entry_rank (auth_selected r') = map entry_rank (auth_selected r)).

Definition flow_kept (state : Z) (r : kr_request) (f : flow) : Prop :=
  match f with
  | Undefined => True
  | Return st r' => block_kept r (Some st) r' /\ layer_states state st
  | Continue r' => block_kept r None r'
  end.

(** A collaborator as [accepting_dnssec], but for which no key set is
    trusted. *)
Definition distrusting_dnssec : Dnssec := {|
  kr_rrset_validate := fun vctx _ => (kr_ok, vc_flags vctx, kr_ok);
  kr_dnskeys_trusted := fun vctx _ => (kr_error ENOENT, vc_flags vctx);
  kr_nsec_name_error_response_check := fun _ _ _ => kr_ok;
  kr_nsec3_name_error_response_check := fun _ _ _ => kr_ok;
  kr_nsec_existence_denial := fun _ _ _ _ => kr_ok;
  kr_nsec3_no_data := fun _ _ _ _ => kr_ok;
  kr_nsec_ref_to_unsigned := fun _ => kr_ok;
  kr_nsec3_ref_to_unsigned := fun _ => kr_ok
|}.

(** An authoritative answer to [example.com DNSKEY]. *)
Definition pkt_dnskey : knot_pkt :=
  mk_pkt true KNOT_RCODE_NOERROR true name_example_com KNOT_RRTYPE_DNSKEY
         an_two_keys [] [].


(** The query is one [validate] validates an uncached answer for: the layer
    is not in a failed or unprocessed state, the query wants DNSSEC, is not
    a stub query and is not answered from the cache. *)
Definition validates_answer (state : Z) (req : kr_request) : Prop :=
  Z.land state (Z.lor KNOT_STATE_FAIL KNOT_STATE_CONSUME) = 0
  /\ has_flag (req_flags req) QUERY_DNSSEC_WANT = true
  /\ has_flag (req_flags req) QUERY_STUB = false
  /\ has_flag (req_flags req) QUERY_CACHED = false.

(** The name-error proof [validate] asks for, by the kind of denial records
    in the packet. *)
Definition name_error_proof {D : Dnssec} (pkt : knot_pkt) (sname : knot_dname) : Z :=
  if pkt_has_type pkt KNOT_RRTYPE_NSEC3
  then kr_nsec3_name_error_response_check pkt KNOT_AUTHORITY sname
  else kr_nsec_name_error_response_check pkt KNOT_AUTHORITY sname.

(** The no-data proof [validate] asks for. *)
Definition nodata_proof {D : Dnssec} (pkt : knot_pkt) : Z :=
  if pkt_has_type pkt KNOT_RRTYPE_NSEC3
  then kr_nsec3_no_data pkt KNOT_AUTHORITY (pkt_qname pkt) (pkt_qtype pkt)
  else kr_nsec_existence_denial pkt KNOT_AUTHORITY (pkt_qname pkt) (pkt_qtype pkt).

(** A name error with no NSEC3 record. *)
Definition pkt_nxdomain_nsec : knot_pkt :=
  mk_pkt true KNOT_RCODE_NXDOMAIN true name_example_com KNOT_RRTYPE_A
         [] [rr_sig_example] [].


(** ** Names and ranks *)

Lemma knot_dname_is_equal_iff d1 d2 : knot_dname_is_equal d1 d2 = true <-> d1 = d2.
Proof.
  revert d2; induction d1 as [|l1 t1 IH]; intros [|l2 t2]; simpl;
    try (split; [discriminate | discriminate]); try tauto.
  unfold label_is_equal. rewrite andb_true_iff, String.eqb_eq, IH.
  split; [intros [-> ->]; reflexivity | intros H; inversion H; auto].
Qed.

Lemma knot_dname_is_equal_refl d : knot_dname_is_equal d d = true.
Proof. apply knot_dname_is_equal_iff; reflexivity. Qed.

Lemma rank_eqb_eq a b : rank_eqb a b = true <-> a = b.
Proof. destruct a, b; simpl; split; congruence. Qed.

(** ** Flag words *)

Lemma testbit_shiftl_1 n m : 0 <= n -> 0 <= m ->
  Z.testbit (Z.shiftl 1 n) m = (m =? n).
Proof.
  intros Hn Hm. rewrite Z.shiftl_spec by assumption.
  destruct (Z.eqb_spec m n) as [->|Hne].
  - rewrite Z.sub_diag. reflexivity.
  - destruct (Z.lt_ge_cases m n).
    + apply Z.testbit_neg_r. lia.
    + apply Z.bits_above_log2; [lia | simpl; lia].
Qed.

Lemma has_flag_testbit f n : 0 <= n -> has_flag f (Z.shiftl 1 n) = Z.testbit f n.
Proof.
  intros Hn. unfold has_flag.
  destruct (Z.testbit f n) eqn:Hb.
  - apply negb_true_iff, Z.eqb_neq. intros H0.
    assert (Hc : Z.testbit (Z.land f (Z.shiftl 1 n)) n = true).
    { rewrite Z.land_spec, Hb, testbit_shiftl_1, Z.eqb_refl by lia. reflexivity. }
    rewrite H0, Z.testbit_0_l in Hc. discriminate.
  - apply negb_false_iff, Z.eqb_eq. apply Z.bits_inj'. intros m Hm.
    rewrite Z.land_spec, Z.testbit_0_l, testbit_shiftl_1 by lia.
    destruct (Z.eqb_spec m n) as [->|_]; [rewrite Hb|]; auto using andb_false_r.
Qed.

Lemma has_flag_set f n m : 0 <= n -> 0 <= m ->
  has_flag (set_flag f (Z.shiftl 1 n)) (Z.shiftl 1 m) = has_flag f (Z.shiftl 1 m) || (m =? n).
Proof.
  intros Hn Hm. rewrite !has_flag_testbit by assumption.
  unfold set_flag. rewrite Z.lor_spec, testbit_shiftl_1 by assumption. reflexivity.
Qed.

Lemma has_flag_clear f n m : 0 <= n -> 0 <= m ->
  has_flag (clear_flag f (Z.shiftl 1 n)) (Z.shiftl 1 m)
  = has_flag f (Z.shiftl 1 m) && negb (m =? n).
Proof.
  intros Hn Hm. rewrite !has_flag_testbit by assumption.
  unfold clear_flag. rewrite Z.land_spec, Z.lnot_spec, testbit_shiftl_1 by assumption.
  reflexivity.
Qed.

(** Rewrite a flag test over updated flag words down to the original word. *)
Ltac flag_simpl :=
  unfold QUERY_AWAIT_CUT, QUERY_CACHED, QUERY_DNSSEC_WANT, QUERY_DNSSEC_BOGUS,
         QUERY_DNSSEC_INSECURE, QUERY_STUB, QUERY_DNSSEC_WEXPAND in *;
  repeat first [rewrite has_flag_set by lia | rewrite has_flag_clear by lia];
  repeat match goal with
         | |- context [?a =? ?b] =>
             let v := eval vm_compute in (a =? b) in change (a =? b) with v
         end;
  simpl negb; rewrite ?orb_false_r, ?orb_true_r, ?andb_true_r, ?andb_false_r.


(** ** The guards of [validate] *)

(** The only FAIL the guards produce for a response that lacks the DNSSEC OK
    indicator is for a question of type RRSIG. *)
Lemma validate_guards_fail_is_rrsig state pkt req req' :
  Z.land state (Z.lor KNOT_STATE_FAIL KNOT_STATE_CONSUME) = 0 ->
  has_flag (req_flags req) QUERY_DNSSEC_WANT = true ->
  has_flag (req_flags req) QUERY_STUB = false ->
  validate_guards state pkt req = Return KNOT_STATE_FAIL req' ->
  pkt_qtype pkt = KNOT_RRTYPE_RRSIG.
Proof.
  intros Hst Hwant Hstub. unfold validate_guards, req_flags in *.
  rewrite Hst, Hwant, Hstub. simpl.
  destruct (Z.eqb_spec (pkt_qtype pkt) KNOT_RRTYPE_RRSIG) as [E|E]; [intros _; exact E|].
  simpl. rewrite !andb_false_r. discriminate.
Qed.

(** A question whose type is not RRSIG passes the guards whether or not the
    response has the DNSSEC OK indicator. *)
Lemma validate_guards_non_rrsig_passes state pkt req :
  Z.land state (Z.lor KNOT_STATE_FAIL KNOT_STATE_CONSUME) = 0 ->
  has_flag (req_flags req) QUERY_DNSSEC_WANT = true ->
  has_flag (req_flags req) QUERY_STUB = false ->
  pkt_qtype pkt <> KNOT_RRTYPE_RRSIG ->
  validate_guards state pkt req = Continue req.
Proof.
  intros Hst Hwant Hstub Hq. unfold validate_guards, req_flags in *.
  rewrite Hst, Hwant, Hstub. simpl.
  apply Z.eqb_neq in Hq. rewrite Hq. simpl. rewrite !andb_false_r. reflexivity.
Qed.

(** An answer to an RRSIG question without the indicator is what the guards
    reject. *)
Lemma validate_rrsig_without_do_fails `{Dnssec} state pkt req :
  Z.land state (Z.lor KNOT_STATE_FAIL KNOT_STATE_CONSUME) = 0 ->
  has_flag (req_flags req) QUERY_DNSSEC_WANT = true ->
  has_flag (req_flags req) QUERY_STUB = false ->
  has_flag (req_flags req) QUERY_CACHED = false ->
  pkt_has_dnssec pkt = false ->
  pkt_qtype pkt = KNOT_RRTYPE_RRSIG ->
  validate state req pkt = Some (KNOT_STATE_FAIL, req_set_flag req QUERY_DNSSEC_BOGUS).
Proof.
  intros Hst Hwant Hstub Hc Hdo Hq.
  unfold validate, validate_flow, validate_until_finish, validate_until_nodata,
    validate_until_nxdomain, validate_guards, req_flags in *.
  rewrite Hst, Hwant, Hstub, Hc, Hdo, Hq. reflexivity.
Qed.

(** C1 (the code departs from the specification).  Specified: a response to a query
    with DNSSEC_WANT, not in stub mode, not from cache, whose question type
    is not RRSIG and which lacks the DNSSEC OK indicator makes consume
    return FAIL with BOGUS set.  At the signed answer to [example.com A]
    without the indicator, consume returns DONE and BOGUS is not set. *)
Theorem validate_without_do_not_rejected :
  let req := req_a_example QUERY_DNSSEC_WANT in
  has_flag (req_flags req) QUERY_DNSSEC_WANT = true /\
  has_flag (req_flags req) QUERY_STUB = false /\
  has_flag (req_flags req) QUERY_CACHED = false /\
  pkt_qtype pkt_a_without_do <> KNOT_RRTYPE_RRSIG /\
  pkt_has_dnssec pkt_a_without_do = false /\
  exists req',
    validate (D:=accepting_dnssec) KNOT_STATE_DONE req pkt_a_without_do
      = Some (KNOT_STATE_DONE, req') /\
    has_flag (req_flags req') QUERY_DNSSEC_BOGUS = false.
Proof.
  repeat split; try reflexivity; try discriminate.
  eexists. split; [vm_compute; reflexivity | reflexivity].
Qed.

(** ** Verdict from ranks *)

Lemma rrsig_not_found_verdict state req rr st req' :
  rrsig_not_found state req rr = Some (st, req') ->
  (st = KNOT_STATE_FAIL \/ st = KNOT_STATE_YIELD)
  /\ answ_selected req' = answ_selected req
  /\ auth_selected req' = auth_selected req.
Proof.
  unfold rrsig_not_found.
  destruct (_ || _).
  - intros E; inversion E; subst; auto.
  - destruct (skip_leading_labels _ _) as [start|]; [|discriminate].
    destruct (knot_dname_is_sub _ _).
    + intros E; inversion E; subst; auto.
    + destruct (find_ancestor_cut _ _); intros E; inversion E; subst; auto.
Qed.

Lemma check_other_ranks_done state req arr req' :
  check_other_ranks state req arr = Some (KNOT_STATE_DONE, req') ->
  req' = req /\ Forall secure_unless_yielded arr.
Proof.
  induction arr as [|e rest IH]; simpl.
  - intros E; inversion E; auto.
  - destruct (entry_yielded e) eqn:Hy.
    + intros E. destruct (IH E) as [-> HF]. split; [reflexivity|].
      constructor; [|exact HF]. unfold secure_unless_yielded. congruence.
    + destruct (rank_eqb (entry_rank e) KR_VLDRANK_INSECURE).
      * intros E. apply rrsig_not_found_verdict in E.
        destruct E as [[E|E] _]; discriminate E.
      * destruct (rank_eqb (entry_rank e) KR_VLDRANK_SECURE) eqn:Hs; simpl.
        -- intros E. destruct (IH E) as [-> HF]. split; [reflexivity|].
           constructor; [|exact HF]. intros _. apply rank_eqb_eq; exact Hs.
        -- discriminate.
Qed.

Lemma check_validation_result_done state req arr req' :
  check_validation_result state req arr = Some (KNOT_STATE_DONE, req') ->
  req' = req /\ Forall secure_unless_yielded arr.
Proof.
  unfold check_validation_result. destruct (find_mismatch arr).
  - discriminate.
  - apply check_other_ranks_done.
Qed.

Lemma kr_ranked_rrarray_set_wire_secure arr to_wire uid :
  Forall secure_unless_yielded arr ->
  Forall secure_unless_yielded (kr_ranked_rrarray_set_wire arr to_wire uid).
Proof.
  unfold kr_ranked_rrarray_set_wire. intros HF. apply Forall_map.
  eapply Forall_impl; [|exact HF]. intros e He.
  destruct (entry_qry_uid e =? uid); exact He.
Qed.

(** ** The blocks of [validate] *)

Lemma and_then_return f k st r :
  and_then f k = Return st r ->
  f = Return st r \/ exists r0, f = Continue r0 /\ k r0 = Return st r.
Proof. destruct f; simpl; intros E; try discriminate; eauto. Qed.

Lemma and_then_continue f k r :
  and_then f k = Continue r -> exists r0, f = Continue r0 /\ k r0 = Continue r.
Proof. destruct f; simpl; intros E; try discriminate; eauto. Qed.

Lemma state_fail_not_done : KNOT_STATE_FAIL <> KNOT_STATE_DONE.
Proof. discriminate. Qed.

Lemma state_yield_not_done : KNOT_STATE_YIELD <> KNOT_STATE_DONE.
Proof. discriminate. Qed.

#[local] Hint Resolve state_fail_not_done state_yield_not_done : core.

Lemma validate_guards_return state pkt req st r :
  has_flag (req_flags req) QUERY_DNSSEC_WANT = true ->
  has_flag (req_flags req) QUERY_STUB = false ->
  validate_guards state pkt req = Return st r -> st <> KNOT_STATE_DONE.
Proof.
  intros Hw Hs. unfold validate_guards, req_flags in *. rewrite Hw, Hs. simpl.
  destruct (Z.land state _ =? 0) eqn:Hst; simpl.
  - destruct (_ && _); intros E; inversion E; subst; auto.
  - intros E; inversion E; subst. intros ->. discriminate Hst.
Qed.

Lemma validate_guards_continue state pkt req r :
  validate_guards state pkt req = Continue r -> r = req.
Proof.
  unfold validate_guards.
  repeat match goal with |- context [if ?c then _ else _] => destruct c end;
    intros E; inversion E; reflexivity.
Qed.

Lemma check_signer_done state req r :
  check_signer state req = (KNOT_STATE_DONE, r) -> r = req.
Proof.
  unfold check_signer.
  repeat match goal with
         | |- context [if ?c then _ else _] => destruct c
         | |- context [match ?c with Some _ => _ | None => _ end] => destruct c
         end; intros E; inversion E; reflexivity.
Qed.

(** The key-set updater leaves the selected records and the question alone
    and, of the query's flags, can only add WEXPAND. *)
Lemma validate_keyset_frame `{Dnssec} req pkt has_nsec3 ret r :
  validate_keyset req pkt has_nsec3 = (ret, r) ->
  answ_selected r = answ_selected req /\ auth_selected r = auth_selected req
  /\ qry_sname (current_query r) = qry_sname (current_query req)
  /\ (req_flags r = req_flags req
      \/ req_flags r = set_flag (req_flags req) QUERY_DNSSEC_WEXPAND).
Proof.
  unfold validate_keyset.
  destruct (keyset_merge _ _ _) as [cut updated].
  destruct (_ && _).
  - destruct (kr_dnskeys_trusted _ _) as [ret' vflags].
    destruct (negb _); [|destruct (has_flag vflags _)];
      intros E; inversion E; subst; simpl; auto.
  - intros E; inversion E; subst; simpl; auto.
Qed.

Lemma validate_dnskey_return `{Dnssec} state pkt req st r :
  validate_dnskey state pkt req = Return st r -> st <> KNOT_STATE_DONE.
Proof.
  unfold validate_dnskey. destruct (_ && _); [|discriminate].
  intros E. apply and_then_return in E. destruct E as [E|[r0 [_ E]]].
  - destruct (negb (has_flag _ _)); [|discriminate].
    destruct (check_signer state req) as [ret r1].
    destruct (ret =? KNOT_STATE_DONE) eqn:Hd; simpl in E; [discriminate|].
    inversion E; subst. apply Z.eqb_neq; exact Hd.
  - destruct (validate_keyset _ _ _) as [ret r1].
    destruct (ret =? kr_error EAGAIN); [inversion E; subst; auto|].
    destruct (negb _); inversion E; subst; auto.
Qed.

Lemma validate_dnskey_continue `{Dnssec} state pkt req r :
  validate_dnskey state pkt req = Continue r ->
  has_flag (req_flags r) QUERY_CACHED = has_flag (req_flags req) QUERY_CACHED
  /\ qry_sname (current_query r) = qry_sname (current_query req).
Proof.
  unfold validate_dnskey. destruct (_ && _); [|intros E; inversion E; auto].
  intros E. apply and_then_continue in E. destruct E as [r0 [E0 E]].
  assert (r0 = req) as ->.
  { destruct (negb (has_flag _ _)); [|inversion E0; reflexivity].
    destruct (check_signer state req) as [ret r1] eqn:Hc.
    destruct (ret =? KNOT_STATE_DONE) eqn:Hd; simpl in E0; [|discriminate].
    apply Z.eqb_eq in Hd; subst ret. inversion E0; subst.
    eapply check_signer_done; eassumption. }
  destruct (validate_keyset _ _ _) as [ret r1] eqn:Hk.
  destruct (ret =? kr_error EAGAIN); [discriminate|].
  destruct (negb _); [discriminate|]. inversion E; subst.
  apply validate_keyset_frame in Hk. destruct Hk as [_ [_ [Hs [Hf|Hf]]]];
    (split; [|exact Hs]); rewrite Hf.
  - reflexivity.
  - flag_simpl. reflexivity.
Qed.

Lemma validate_nxdomain_return `{Dnssec} pkt req st r :
  validate_nxdomain pkt req = Return st r ->
  st = KNOT_STATE_FAIL /\ r = req_set_flag req QUERY_DNSSEC_BOGUS.
Proof.
  unfold validate_nxdomain. destruct (_ && _); [|discriminate].
  destruct (negb _); intros E; inversion E; auto.
Qed.

Lemma validate_nxdomain_continue `{Dnssec} pkt req r :
  validate_nxdomain pkt req = Continue r -> r = req.
Proof.
  unfold validate_nxdomain. destruct (_ && _); [|intros E; inversion E; auto].
  destruct (negb _); intros E; inversion E; auto.
Qed.

Lemma validate_nodata_return `{Dnssec} pkt req st r :
  validate_nodata pkt req = Return st r ->
  st = KNOT_STATE_FAIL /\ r = req_set_flag req QUERY_DNSSEC_BOGUS.
Proof.
  unfold validate_nodata.
  repeat match goal with |- context [if ?c then _ else _] => destruct c end;
    intros E; inversion E; auto.
Qed.

Lemma validate_nodata_continue `{Dnssec} pkt req r :
  validate_nodata pkt req = Continue r ->
  answ_selected r = answ_selected req /\ auth_selected r = auth_selected req
  /\ has_flag (req_flags r) QUERY_CACHED = has_flag (req_flags req) QUERY_CACHED.
Proof.
  unfold validate_nodata.
  repeat match goal with |- context [if ?c then _ else _] => destruct c end;
    intros E; inversion E; subst; auto.
  unfold req_flags; simpl. repeat split. flag_simpl. reflexivity.
Qed.

Lemma unless_done_return r st req :
  unless_done r = Return st req -> st <> KNOT_STATE_DONE.
Proof.
  unfold unless_done. destruct r as [[ret r0]|]; [|discriminate].
  destruct (ret =? KNOT_STATE_DONE) eqn:Hd; simpl; [discriminate|].
  intros E; inversion E; subst. apply Z.eqb_neq; exact Hd.
Qed.

Lemma unless_done_continue r req :
  unless_done r = Continue req -> r = Some (KNOT_STATE_DONE, req).
Proof.
  unfold unless_done. destruct r as [[ret r0]|]; [|discriminate].
  destruct (ret =? KNOT_STATE_DONE) eqn:Hd; simpl; [|discriminate].
  intros E; inversion E; subst. apply Z.eqb_eq in Hd. congruence.
Qed.

Lemma validate_positive_return `{Dnssec} state pkt req st r :
  validate_positive state pkt req = Return st r -> st <> KNOT_STATE_DONE.
Proof.
  unfold validate_positive. destruct (negb _); [|discriminate].
  destruct (validate_records _ _ _) as [[ret r0]|]; [|discriminate].
  destruct (ret =? kr_error ENOENT); [intros E; inversion E; auto|].
  destruct (negb (ret =? 0)); [intros E; inversion E; auto|].
  intros E. apply and_then_return in E. destruct E as [E|[r1 [_ E]]];
    eapply unless_done_return; eassumption.
Qed.

(** When the positive validation of a response that is not from cache lets
    [validate] go on, no selected record is left that is neither secure
    nor yielded. *)
Lemma validate_positive_continue `{Dnssec} state pkt req r :
  has_flag (req_flags req) QUERY_CACHED = false ->
  validate_positive state pkt req = Continue r ->
  Forall secure_unless_yielded (answ_selected r)
  /\ Forall secure_unless_yielded (auth_selected r).
Proof.
  intros Hc. unfold validate_positive. rewrite Hc. simpl.
  destruct (validate_records _ _ _) as [[ret r0]|]; [|discriminate].
  destruct (ret =? kr_error ENOENT); [discriminate|].
  destruct (negb (ret =? 0)); [discriminate|].
  intros E. apply and_then_continue in E. destruct E as [r1 [E1 E2]].
  apply unless_done_continue, check_validation_result_done in E1.
  apply unless_done_continue, check_validation_result_done in E2.
  destruct E1 as [-> H1], E2 as [-> H2]. auto.
Qed.

Lemma update_delegation_frame `{Dnssec} qry pkt has_nsec3 :
  qry_parent (snd (update_delegation qry pkt has_nsec3)) = qry_parent qry.
Proof.
  unfold update_delegation.
  repeat match goal with
         | |- context [if ?c then _ else _] => destruct c
         | |- context [match ?c with Some _ => _ | None => _ end] => destruct c
         end; reflexivity.
Qed.

Lemma validate_finish_return `{Dnssec} pkt req st r :
  validate_finish pkt req = Return st r ->
  Forall secure_unless_yielded (answ_selected req) ->
  Forall secure_unless_yielded (auth_selected req) ->
  Forall secure_unless_yielded (answ_selected r)
  /\ Forall secure_unless_yielded (auth_selected r).
Proof.
  unfold validate_finish. intros E Han Hau.
  set (req1 := match qry_parent (current_query req) with
               | Some _ => req | None => _ end) in E.
  assert (H1 : Forall secure_unless_yielded (answ_selected req1)
               /\ Forall secure_unless_yielded (auth_selected req1)).
  { subst req1. destruct (qry_parent _); [auto|].
    destruct (has_flag _ _); simpl; auto using kr_ranked_rrarray_set_wire_secure. }
  clearbody req1. destruct H1 as [Ha1 Hu1].
  destruct (update_delegation _ _ _) as [ret qry].
  destruct (negb (ret =? 0)); [inversion E; subst; auto|].
  destruct (qry_parent qry); [|inversion E; subst; auto].
  destruct (update_parent_keys _ _) as [[ret' qry']|]; [|discriminate].
  destruct (negb _); inversion E; subst; auto.
Qed.

(** C2 (as amended).  For every invocation of consume on a query that wants
    DNSSEC, is not in stub mode and is not answered from cache: when consume
    returns DONE, every ranked record in the answer-selected and
    authority-selected arrays that is not marked yielded has rank SECURE. *)
Theorem validate_done_all_secure `{Dnssec} state req pkt req' :
  has_flag (req_flags req) QUERY_DNSSEC_WANT = true ->
  has_flag (req_flags req) QUERY_STUB = false ->
  has_flag (req_flags req) QUERY_CACHED = false ->
  validate state req pkt = Some (KNOT_STATE_DONE, req') ->
  forall e, In e (answ_selected req' ++ auth_selected req') ->
  entry_yielded e = false -> entry_rank e = KR_VLDRANK_SECURE.
Proof.
  intros Hw Hs Hc Hv.
  assert (HF : Forall secure_unless_yielded (answ_selected req')
               /\ Forall secure_unless_yielded (auth_selected req')).
  { unfold validate in Hv.
    destruct (validate_flow state req pkt) as [|st r|] eqn:Hf; try discriminate.
    inversion Hv; subst; clear Hv.
    unfold validate_flow, validate_until_finish, validate_until_nodata,
      validate_until_nxdomain in Hf.
    apply and_then_return in Hf. destruct Hf as [Hf|[r4 [Hf Hfin]]].
    - exfalso.
      apply and_then_return in Hf. destruct Hf as [Hf|[r3 [_ Hf]]];
        [|eapply validate_positive_return; eauto].
      apply and_then_return in Hf. destruct Hf as [Hf|[r2 [_ Hf]]];
        [|apply validate_nodata_return in Hf; destruct Hf; discriminate].
      apply and_then_return in Hf. destruct Hf as [Hf|[r1 [_ Hf]]];
        [|apply validate_nxdomain_return in Hf; destruct Hf; discriminate].
      apply and_then_return in Hf. destruct Hf as [Hf|[r0 [_ Hf]]];
        [|eapply validate_dnskey_return; eauto].
      eapply validate_guards_return; eauto.
    - apply and_then_continue in Hf. destruct Hf as [r3 [Hf Hpos]].
      apply and_then_continue in Hf. destruct Hf as [r2 [Hf Hnod]].
      apply and_then_continue in Hf. destruct Hf as [r1 [Hf Hnx]].
      apply and_then_continue in Hf. destruct Hf as [r0 [Hg Hdk]].
      apply validate_guards_continue in Hg; subst r0.
      apply validate_dnskey_continue in Hdk. destruct Hdk as [Hdk _].
      apply validate_nxdomain_continue in Hnx; subst r2.
      apply validate_nodata_continue in Hnod. destruct Hnod as [_ [_ Hnod]].
      apply validate_positive_continue in Hpos; [|congruence].
      destruct Hpos. eapply validate_finish_return; eauto. }
  destruct HF as [Han Hau]. intros e Hin Hy.
  apply in_app_or in Hin. rewrite Forall_forall in Han, Hau.
  destruct Hin as [Hin|Hin]; [apply (Han e Hin Hy) | apply (Hau e Hin Hy)].
Qed.

(** The signed answer to [example.com A], validated by an accepting
    collaborator, is an instance: consume returns DONE and both records are
    secure. *)
Lemma validate_done_all_secure_witness :
  let req := req_a_example QUERY_DNSSEC_WANT in
  exists req',
    validate (D:=accepting_dnssec) KNOT_STATE_DONE req pkt_a_without_do
      = Some (KNOT_STATE_DONE, req')
    /\ forall e, In e (answ_selected req' ++ auth_selected req') ->
                 entry_yielded e = false -> entry_rank e = KR_VLDRANK_SECURE.
Proof.
  eexists. split.
  - vm_compute. reflexivity.
  - apply (validate_done_all_secure (H:=accepting_dnssec) KNOT_STATE_DONE
             (req_a_example QUERY_DNSSEC_WANT) pkt_a_without_do);
      reflexivity.
Defined.

(** C2 (as specified, refuted).  An answer replayed from cache for a query that
    wants DNSSEC is not revalidated: consume returns DONE while both
    selected records still have rank INITIAL. *)
Lemma validate_done_cached_not_secure :
  let req := req_a_example (Z.lor QUERY_DNSSEC_WANT QUERY_CACHED) in
  exists req' e,
    validate (D:=accepting_dnssec) KNOT_STATE_DONE req pkt_a_without_do
      = Some (KNOT_STATE_DONE, req')
    /\ In e (answ_selected req' ++ auth_selected req')
    /\ entry_rank e <> KR_VLDRANK_SECURE.
Proof.
  exists (req_a_example (Z.lor QUERY_DNSSEC_WANT QUERY_CACHED)).
  exists (entry_of KR_VLDRANK_INITIAL rr_a_example).
  split; [vm_compute; reflexivity|].
  split; [left; reflexivity | discriminate].
Qed.

(** Two more ways to DONE past unsecured records: a query that does not
    want DNSSEC passes through, and a yielded record is skipped. *)
Lemma validate_done_pass_through_not_secure :
  validate (D:=accepting_dnssec) KNOT_STATE_DONE (req_a_example 0) pkt_a_without_do
  = Some (KNOT_STATE_DONE, req_a_example 0).
Proof. vm_compute. reflexivity. Qed.

Lemma validate_done_yielded_not_secure :
  exists req',
    validate (D:=accepting_dnssec) KNOT_STATE_DONE req_a_yielded pkt_a_without_do
      = Some (KNOT_STATE_DONE, req')
    /\ map entry_rank (answ_selected req') = [KR_VLDRANK_INITIAL; KR_VLDRANK_SECURE].
Proof. eexists. split; vm_compute; reflexivity. Qed.

(** ** Section validation *)

Lemma same_inputs_refl v : same_inputs v v.
Proof. unfold same_inputs; auto 10. Qed.

Lemma same_inputs_trans v1 v2 v3 :
  same_inputs v1 v2 -> same_inputs v2 v3 -> same_inputs v1 v3.
Proof. unfold same_inputs; intuition congruence. Qed.

Lemma rank_of_validation_secure r :
  rank_of_validation r = KR_VLDRANK_SECURE <-> r = kr_ok.
Proof.
  unfold rank_of_validation.
  destruct (Z.eqb_spec r kr_ok); [tauto|].
  repeat match goal with |- context [if ?c then _ else _] => destruct c end;
    split; (discriminate || contradiction).
Qed.

Lemma loop_ranked_cons `{Dnssec} vctx vctx1 vctx' done e e' rest zn :
  vc_rrs vctx = done ++ e :: rest ->
  same_inputs vctx vctx1 ->
  ranked_by vctx zn e e' ->
  loop_ranked vctx1 (done ++ [e']) rest zn vctx' ->
  loop_ranked vctx done (e :: rest) zn vctx'.
Proof.
  intros Hrrs Hs1 Hr [todo' [Hrrs' [Hs' [Hlen Hall]]]].
  exists (e' :: todo'). split; [|split; [|split]].
  - rewrite Hrrs', <- app_assoc. reflexivity.
  - eapply same_inputs_trans; eassumption.
  - simpl. congruence.
  - intros [|j] x Hx; simpl in Hx.
    + inversion Hx; subst x. exists e', vctx. simpl.
      auto using same_inputs_refl.
    + destruct (Hall j x Hx) as [x' [c [Hn [Hsc [Hc Hrc]]]]].
      exists x', c. simpl. split; [exact Hn|]. split; [|split].
      * eapply same_inputs_trans; eassumption.
      * rewrite Hc, <- app_assoc. reflexivity.
      * destruct Hrc as [? [? [? [? Hrc]]]]. unfold ranked_by.
        destruct Hs1 as [_ [Hsec _]], Hsc as [_ [Hsec' _]].
        repeat (split; [assumption|]).
        exact Hrc.
Qed.

Lemma validate_section_loop_spec `{Dnssec} todo :
  forall vctx done found zn,
    vc_zone_name vctx = Some zn ->
    vc_rrs vctx = done ++ todo ->
    exists vctx',
      validate_section_loop vctx done todo found
        = Some (found || section_has_rrsig todo, vctx')
      /\ loop_ranked vctx done todo zn vctx'.
Proof.
  induction todo as [|e rest IH]; intros vctx done found zn Hzn Hrrs.
  - exists vctx. simpl. rewrite orb_false_r. split; [reflexivity|].
    exists []. split; [|split; [|split]]; auto using same_inputs_refl.
    intros [|j] x Hx; discriminate Hx.
  - simpl validate_section_loop. unfold section_has_rrsig. simpl existsb.
    fold (section_has_rrsig rest). unfold inspected at 1.
    destruct (rank_eqb (entry_rank e) KR_VLDRANK_SECURE || entry_yielded e) eqn:Hskip.
    + destruct (IH vctx (done ++ [e]) found zn Hzn) as [vctx' [Hl Hp]].
      { rewrite Hrrs, <- app_assoc. reflexivity. }
      exists vctx'. split; [exact Hl|].
      eapply loop_ranked_cons; eauto using same_inputs_refl.
      unfold ranked_by, inspected. rewrite Hskip. simpl. auto.
    + simpl negb. rewrite andb_true_l.
      destruct (rr_type (entry_rr e) =? KNOT_RRTYPE_RRSIG) eqn:Hsig.
      * rewrite Hzn, orb_true_l, orb_true_r.
        match goal with
        | |- context [validate_section_loop ?v (done ++ [?x]) rest true] =>
            destruct (IH v (done ++ [x]) true zn) as [vctx' [Hl Hp]];
              [exact Hzn | simpl; rewrite <- app_assoc; reflexivity |];
              exists vctx'; split; [exact Hl|];
              eapply loop_ranked_cons; eauto
        end.
        -- unfold same_inputs; simpl; auto 10.
        -- unfold ranked_by, inspected. rewrite Hskip, Hsig. simpl.
           destruct (knot_dname_is_equal zn _); simpl; auto.
      * rewrite orb_false_l.
        destruct ((rr_type (entry_rr e) =? KNOT_RRTYPE_NS)
                  && (vc_section_id vctx =? KNOT_AUTHORITY)) eqn:Hns.
        -- match goal with
           | |- context [validate_section_loop ?v (done ++ [?x]) rest found] =>
               destruct (IH v (done ++ [x]) found zn) as [vctx' [Hl Hp]];
                 [exact Hzn | simpl; rewrite <- app_assoc; reflexivity |];
                 exists vctx'; split; [exact Hl|];
                 eapply loop_ranked_cons; eauto
           end.
           ++ unfold same_inputs; simpl; auto 10.
           ++ unfold ranked_by, inspected. rewrite Hskip, Hsig, Hns. simpl. auto.
        -- destruct (kr_rrset_validate vctx (entry_rr e)) as [[vr fl] rs] eqn:Hv.
           match goal with
           | |- context [validate_section_loop ?v (done ++ [?x]) rest found] =>
               destruct (IH v (done ++ [x]) found zn) as [vctx' [Hl Hp]];
                 [exact Hzn | simpl; rewrite <- app_assoc; reflexivity |];
                 exists vctx'; split; [exact Hl|];
                 eapply loop_ranked_cons; eauto
           end.
           ++ unfold same_inputs; simpl; auto 10.
           ++ unfold ranked_by, inspected. rewrite Hskip, Hsig, Hns, Hv. simpl.
              repeat split; auto; apply rank_of_validation_secure.
Qed.

(** With a key set, [validate_section] has a result: it reports whether it
    met an RRSIG, and has ranked every record by the rule, against the owner
    of the key set. *)
Lemma validate_section_spec `{Dnssec} vctx keys :
  vc_keys vctx = Some keys ->
  exists vctx',
    validate_section vctx
      = Some (if section_has_rrsig (vc_rrs vctx) then kr_ok else kr_error ENOENT, vctx')
    /\ loop_ranked (vc_set_zone_name vctx (Some (rr_owner keys))) []
                   (vc_rrs vctx) (rr_owner keys) vctx'.
Proof.
  intros Hk. unfold validate_section. rewrite Hk. simpl option_map.
  destruct (validate_section_loop_spec (vc_rrs vctx)
              (vc_set_zone_name vctx (Some (rr_owner keys))) [] false (rr_owner keys))
    as [vctx' [Hl Hp]]; [reflexivity | reflexivity |].
  exists vctx'. simpl vc_rrs. rewrite Hl. simpl. auto.
Qed.

Lemma validate_section_loop_zone_name `{Dnssec} todo :
  forall vctx done found found' vctx',
    validate_section_loop vctx done todo found = Some (found', vctx') ->
    vc_zone_name vctx' = vc_zone_name vctx.
Proof.
  induction todo as [|e rest IH]; intros vctx done found found' vctx'; simpl.
  - intros E; inversion E; reflexivity.
  - destruct (_ || _); [apply IH|].
    destruct (_ =? KNOT_RRTYPE_RRSIG).
    { destruct (vc_zone_name vctx) eqn:Hz; [|discriminate].
      intros E. apply IH in E. rewrite E. simpl. exact Hz. }
    destruct (_ && _).
    { intros E. apply IH in E. rewrite E. reflexivity. }
    destruct (kr_rrset_validate _ _) as [[vr fl] rs].
    intros E. apply IH in E. rewrite E. reflexivity.
Qed.

(** The zone name a caller puts into the context is not read. *)
Lemma validate_section_ignores_zone_name `{Dnssec} vctx z :
  validate_section (vc_set_zone_name vctx z) = validate_section vctx.
Proof. destruct vctx; reflexivity. Qed.

(** C8.  During section validation every record that is neither yielded nor
    already SECURE is ranked by the rule [ranked_by]: an RRSIG is SECURE if
    its signer name equals the zone name (the owner of the key set) and
    MISMATCH otherwise; an NS record in the authority section is SECURE
    without verification; any other record is SECURE exactly when the
    per-RRset verification, called in the context that holds the ranks
    written so far, returns OK.  Consequently a record that gets rank SECURE
    there is one of these three cases. *)
Theorem validate_section_ranks `{Dnssec} vctx keys :
  vc_keys vctx = Some keys ->
  exists ret vctx',
    validate_section vctx = Some (ret, vctx')
    /\ List.length (vc_rrs vctx') = List.length (vc_rrs vctx)
    /\ forall i e, nth_error (vc_rrs vctx) i = Some e ->
         exists e' c,
           nth_error (vc_rrs vctx') i = Some e'
           /\ same_inputs (vc_set_zone_name vctx (Some (rr_owner keys))) c
           /\ vc_rrs c = firstn i (vc_rrs vctx') ++ skipn i (vc_rrs vctx)
           /\ ranked_by c (rr_owner keys) e e'
           /\ (inspected e = true -> entry_rank e' = KR_VLDRANK_SECURE ->
               (rr_type (entry_rr e) = KNOT_RRTYPE_RRSIG
                /\ knot_dname_is_equal (rr_owner keys)
                     (knot_rrsig_signer_name (rr_rrs (entry_rr e)) 0) = true)
               \/ (rr_type (entry_rr e) = KNOT_RRTYPE_NS
                   /\ vc_section_id vctx = KNOT_AUTHORITY)
               \/ (rr_type (entry_rr e) <> KNOT_RRTYPE_RRSIG
                   /\ fst (fst (kr_rrset_validate c (entry_rr e))) = kr_ok)).
Proof.
  intros Hk. destruct (validate_section_spec vctx keys Hk) as [vctx' [Hv Hp]].
  destruct Hp as [todo' [Hrrs [Hs [Hlen Hall]]]]. simpl in Hrrs, Hall.
  eexists; exists vctx'. split; [exact Hv|].
  split; [rewrite Hrrs; exact Hlen|].
  intros i e Hi. destruct (Hall i e Hi) as [e' [c [Hn [Hsc [Hc Hr]]]]].
  exists e', c. rewrite Hrrs.
  split; [exact Hn|]. split; [exact Hsc|]. split; [exact Hc|]. split; [exact Hr|].
  intros Hin Hsec. destruct Hr as [_ [_ [_ [_ Hr]]]]. rewrite Hin in Hr. simpl in Hr.
  destruct (Z.eqb_spec (rr_type (entry_rr e)) KNOT_RRTYPE_RRSIG) as [Esig|Esig].
  - left. split; [exact Esig|].
    destruct (knot_dname_is_equal _ _); [reflexivity|congruence].
  - right.
    destruct (Z.eqb_spec (rr_type (entry_rr e)) KNOT_RRTYPE_NS) as [Ens|Ens]; simpl in Hr.
    + destruct (Z.eqb_spec (vc_section_id c) KNOT_AUTHORITY) as [Eau|Eau].
      * left. split; [exact Ens|]. destruct Hsc as [_ [Hsec' _]].
        simpl in Hsec'. congruence.
      * right. split; [exact Esig|]. apply Hr; exact Hsec.
    + right. split; [exact Esig|]. apply Hr; exact Hsec.
Qed.

(** An instance of C8: the answer section of the signed answer to
    [example.com A]. *)
Lemma validate_section_ranks_witness :
  let vctx := answer_vctx (req_a_example QUERY_DNSSEC_WANT) pkt_a_without_do false in
  vc_keys vctx = Some rr_key_example
  /\ exists ret vctx',
       validate_section (D:=accepting_dnssec) vctx = Some (ret, vctx')
       /\ List.length (vc_rrs vctx') = List.length (vc_rrs vctx).
Proof.
  split; [reflexivity|].
  destruct (validate_section_ranks (H:=accepting_dnssec)
              (answer_vctx (req_a_example QUERY_DNSSEC_WANT) pkt_a_without_do false)
              rr_key_example eq_refl) as [ret [vctx' [Hv [Hlen _]]]].
  exists ret, vctx'. split; assumption.
Defined.

(** ** Driving the two section passes *)

Lemma validate_records_restore_unused `{Dnssec} req answer has_nsec3 :
  validate_records req answer has_nsec3
  = validate_records_without_restore req answer has_nsec3.
Proof.
  unfold validate_records, validate_records_without_restore.
  destruct (cut_key _); [|reflexivity].
  destruct (validate_section _) as [[ret vctx]|]; [|reflexivity].
  destruct (_ && _); [reflexivity|]. cbv zeta.
  replace (validate_section (authority_vctx (req_set_answ req (vc_rrs vctx)) vctx))
    with (validate_section
            (authority_vctx_without_restore (req_set_answ req (vc_rrs vctx)) vctx));
    [reflexivity|].
  destruct vctx; reflexivity.
Qed.

(** With a key set at the cut, [validate_records] has a result, and its
    return code is ENOENT when neither pass met an RRSIG and OK otherwise. *)
Lemma validate_records_spec `{Dnssec} req answer has_nsec3 key :
  cut_key (qry_zone_cut (current_query req)) = Some key ->
  exists req',
    validate_records req answer has_nsec3
    = Some (if section_has_rrsig (answ_selected req) || section_has_rrsig (auth_selected req)
            then kr_ok else kr_error ENOENT, req').
Proof.
  intros Hk. unfold validate_records. rewrite Hk.
  destruct (validate_section_spec (answer_vctx req answer has_nsec3) key Hk)
    as [v1 [Hv1 Hp1]].
  rewrite Hv1. cbv zeta. simpl vc_rrs.
  assert (Hk1 : vc_keys v1 = Some key).
  { destruct Hp1 as [_ [_ [[_ [_ [Hkk _]]] _]]]. simpl in Hkk. congruence. }
  destruct (validate_section_spec (authority_vctx (req_set_answ req (vc_rrs v1)) v1) key Hk1)
    as [v2 [Hv2 Hp2]].
  rewrite Hv2. simpl vc_rrs. simpl auth_selected.
  destruct (section_has_rrsig (answ_selected req));
    destruct (section_has_rrsig (auth_selected req)); simpl;
    try destruct (has_flag _ _); eauto.
Qed.

(** [validate_records] in terms of the results of its two passes. *)
Lemma validate_records_passes `{Dnssec} req answer has_nsec3 key ret1 v1 ret2 v2 :
  cut_key (qry_zone_cut (current_query req)) = Some key ->
  validate_section (answer_vctx req answer has_nsec3) = Some (ret1, v1) ->
  validate_section (authority_vctx req v1) = Some (ret2, v2) ->
  ret1 = kr_ok \/ ret1 = kr_error ENOENT ->
  ret2 = kr_ok \/ ret2 = kr_error ENOENT ->
  exists req',
    validate_records req answer has_nsec3
    = Some (if (ret1 =? kr_error ENOENT) && (ret2 =? kr_error ENOENT)
            then kr_error ENOENT else kr_ok, req').
Proof.
  intros Hk H1 H2 Hr1 Hr2. unfold validate_records. rewrite Hk, H1. cbv zeta.
  change (authority_vctx (req_set_answ req (vc_rrs v1)) v1) with (authority_vctx req v1).
  rewrite H2.
  destruct Hr1 as [-> | ->], Hr2 as [-> | ->]; simpl;
    try destruct (has_flag _ _); eauto.
Qed.

(** C3 (as amended).  In validate_records, with a key set at the cut: when
    the answer-section pass reports that no RRSIGs were found (ENOENT) but
    the authority-section pass does find RRSIGs (OK), validate_records
    returns OK to its caller; it returns the ENOENT error when the
    authority-section pass reports ENOENT as well. *)
Theorem validate_records_rrsig_in_authority_only `{Dnssec} req answer has_nsec3 key v1 ret2 v2 :
  cut_key (qry_zone_cut (current_query req)) = Some key ->
  validate_section (answer_vctx req answer has_nsec3) = Some (kr_error ENOENT, v1) ->
  validate_section (authority_vctx req v1) = Some (ret2, v2) ->
  (ret2 = kr_ok ->
   exists req', validate_records req answer has_nsec3 = Some (kr_ok, req'))
  /\ (ret2 = kr_error ENOENT ->
      exists req', validate_records req answer has_nsec3 = Some (kr_error ENOENT, req')).
Proof.
  intros Hk H1 H2. split; intros ->.
  - destruct (validate_records_passes req answer has_nsec3 key _ _ _ _ Hk H1 H2)
      as [req' Hv]; auto.
    exists req'. exact Hv.
  - destruct (validate_records_passes req answer has_nsec3 key _ _ _ _ Hk H1 H2)
      as [req' Hv]; auto.
    exists req'. exact Hv.
Qed.

(** An instance of C3: no selected record in the answer section, one RRSIG
    in the authority section. *)
Lemma validate_records_rrsig_in_authority_only_witness :
  let v1 := vc_set_zone_name (answer_vctx req_auth_sig pkt_nodata false)
                             (Some name_example_com) in
  exists v2 req',
    cut_key (qry_zone_cut (current_query req_auth_sig)) = Some rr_key_example
    /\ validate_section (D:=accepting_dnssec) (answer_vctx req_auth_sig pkt_nodata false)
       = Some (kr_error ENOENT, v1)
    /\ validate_section (D:=accepting_dnssec) (authority_vctx req_auth_sig v1)
       = Some (kr_ok, v2)
    /\ validate_records (D:=accepting_dnssec) req_auth_sig pkt_nodata false
       = Some (kr_ok, req').
Proof.
  intros v1.
  assert (H1 : validate_section (D:=accepting_dnssec)
                 (answer_vctx req_auth_sig pkt_nodata false) = Some (kr_error ENOENT, v1))
    by reflexivity.
  assert (H2 : validate_section (D:=accepting_dnssec)
                 (authority_vctx req_auth_sig v1) = Some (kr_ok, _))
    by (vm_compute; reflexivity).
  destruct (proj1 (validate_records_rrsig_in_authority_only (H:=accepting_dnssec)
                     req_auth_sig pkt_nodata false rr_key_example _ _ _ eq_refl H1 H2)
              eq_refl) as [req' Hv].
  do 2 eexists. split; [reflexivity|]. split; [exact H1|]. split; [exact H2|exact Hv].
Defined.

(** C3 (as specified, refuted).  The answer-section pass over an empty array
    reports ENOENT, the authority-section pass meets an RRSIG and reports
    OK, and validate_records returns OK, not ENOENT. *)
Lemma validate_records_not_enoent :
  let v1 := vc_set_zone_name (answer_vctx req_auth_sig pkt_nodata false)
                             (Some name_example_com) in
  exists v2 ret req',
    validate_section (D:=accepting_dnssec) (answer_vctx req_auth_sig pkt_nodata false)
    = Some (kr_error ENOENT, v1)
    /\ validate_section (D:=accepting_dnssec) (authority_vctx req_auth_sig v1)
       = Some (kr_ok, v2)
    /\ validate_records (D:=accepting_dnssec) req_auth_sig pkt_nodata false
       = Some (ret, req')
    /\ ret = kr_ok /\ ret <> kr_error ENOENT.
Proof.
  intros v1. do 3 eexists.
  split; [reflexivity|].
  split; [vm_compute; reflexivity|].
  split; [vm_compute; reflexivity|].
  split; [reflexivity|discriminate].
Qed.

(** C10.  [validate_section] overwrites the zone name of the validation
    context with the owner of the key set before it classifies a record:
    its result does not depend on the zone name it is called with; with a
    key set, the zone name it leaves is the owner of the key set and every
    RRSIG it inspects is ranked SECURE or MISMATCH by comparing its signer
    with that owner; and validate_records computes the same with or without
    restoring the zone name to the name of the cut between its two passes. *)
Theorem validate_section_zone_name_is_key_owner `{Dnssec} :
  (forall vctx z, validate_section (vc_set_zone_name vctx z) = validate_section vctx)
  /\ (forall vctx keys,
        vc_keys vctx = Some keys ->
        exists ret vctx',
          validate_section vctx = Some (ret, vctx')
          /\ vc_zone_name vctx' = Some (rr_owner keys)
          /\ forall i e,
               nth_error (vc_rrs vctx) i = Some e ->
               inspected e = true ->
               rr_type (entry_rr e) = KNOT_RRTYPE_RRSIG ->
               exists e',
                 nth_error (vc_rrs vctx') i = Some e'
                 /\ entry_rank e' =
                      if knot_dname_is_equal (rr_owner keys)
                           (knot_rrsig_signer_name (rr_rrs (entry_rr e)) 0)
                      then KR_VLDRANK_SECURE else KR_VLDRANK_MISMATCH)
  /\ (forall req answer has_nsec3,
        validate_records req answer has_nsec3
        = validate_records_without_restore req answer has_nsec3).
Proof.
  split; [exact validate_section_ignores_zone_name|].
  split; [|exact validate_records_restore_unused].
  intros vctx keys Hk.
  destruct (validate_section_spec vctx keys Hk) as [vctx' [Hv Hp]].
  destruct Hp as [todo' [Hrrs [Hs [Hlen Hall]]]]. simpl in Hrrs, Hall.
  eexists; exists vctx'. split; [exact Hv|]. split.
  - destruct Hs as [_ [_ [_ [Hz _]]]]. exact Hz.
  - intros i e Hi Hin Hsig.
    destruct (Hall i e Hi) as [e' [c [Hn [_ [_ Hr]]]]].
    exists e'. rewrite Hrrs. split; [exact Hn|].
    destruct Hr as [_ [_ [_ [_ Hr]]]]. rewrite Hin, Hsig in Hr. exact Hr.
Qed.

(** An instance of C10: the cut has moved to [www.example.com] while its key
    set is owned by [example.com]; the RRSIG made by [example.com] is ranked
    SECURE. *)
Lemma validate_section_zone_name_is_key_owner_witness :
  let vctx := answer_vctx req_sig_moved pkt_a_without_do false in
  vc_keys vctx = Some rr_key_example
  /\ vc_zone_name vctx = Some name_www_example_com
  /\ exists ret vctx',
       validate_section (D:=accepting_dnssec) vctx = Some (ret, vctx')
       /\ vc_zone_name vctx' = Some name_example_com
       /\ map entry_rank (vc_rrs vctx') = [KR_VLDRANK_SECURE].
Proof.
  split; [reflexivity|]. split; [reflexivity|].
  destruct (proj1 (proj2 (validate_section_zone_name_is_key_owner (H:=accepting_dnssec)))
              (answer_vctx req_sig_moved pkt_a_without_do false) rr_key_example eq_refl)
    as [ret [vctx' [Hv [Hz _]]]].
  exists ret, vctx'. split; [exact Hv|]. split; [exact Hz|].
  vm_compute in Hv. inversion Hv. reflexivity.
Defined.

(** ** Re-entry *)

Lemma find_mismatch_first l1 e l2 :
  Forall (fun x => entry_yielded x = true \/ entry_rank x <> KR_VLDRANK_MISMATCH) l1 ->
  entry_yielded e = false ->
  entry_rank e = KR_VLDRANK_MISMATCH ->
  find_mismatch (l1 ++ e :: l2) = Some (entry_rr e).
Proof.
  intros HF Hy Hr. induction HF as [|x l1 Hx _ IH]; simpl.
  - rewrite Hy, Hr. reflexivity.
  - destruct Hx as [Hx|Hx].
    + rewrite Hx. exact IH.
    + destruct (entry_yielded x); [exact IH|].
      destruct (rank_eqb (entry_rank x) KR_VLDRANK_MISMATCH) eqn:E; [|exact IH].
      apply rank_eqb_eq in E. contradiction.
Qed.

(** C6.  In check_validation_result the first record, in array order, that
    is not yielded and has rank MISMATCH determines the outcome: the signer
    name of its RRSIG becomes the name of the query's zone cut and YIELD is
    returned, whatever the ranks of the other records; nothing else of the
    request changes (no flag is set for another rank problem). *)
Theorem check_validation_result_first_mismatch state req l1 e l2 :
  Forall (fun x => entry_yielded x = true \/ entry_rank x <> KR_VLDRANK_MISMATCH) l1 ->
  entry_yielded e = false ->
  entry_rank e = KR_VLDRANK_MISMATCH ->
  let signer_name := knot_rrsig_signer_name (rr_rrs (entry_rr e)) 0 in
  exists req',
    check_validation_result state req (l1 ++ e :: l2) = Some (KNOT_STATE_YIELD, req')
    /\ req' = req_set_cut req (cut_set_name (qry_zone_cut (current_query req)) signer_name)
    /\ cut_name (qry_zone_cut (current_query req')) = signer_name
    /\ req_flags req' = req_flags req.
Proof.
  intros HF Hy Hr signer_name. eexists. split; [|split; [reflexivity|split; reflexivity]].
  unfold check_validation_result. rewrite (find_mismatch_first l1 e l2 HF Hy Hr).
  reflexivity.
Qed.

(** An instance of C6: a bad and an insecure record come before the
    mismatching RRSIG; the verdict is YIELD and BOGUS is not set. *)
Lemma check_validation_result_first_mismatch_witness :
  exists req',
    check_validation_result KNOT_STATE_DONE
      (req_a_example QUERY_DNSSEC_WANT) arr_mismatch_last = Some (KNOT_STATE_YIELD, req')
    /\ cut_name (qry_zone_cut (current_query req')) = name_example_com
    /\ has_flag (req_flags req') QUERY_DNSSEC_BOGUS = false.
Proof.
  destruct (check_validation_result_first_mismatch KNOT_STATE_DONE
              (req_a_example QUERY_DNSSEC_WANT)
              [entry_of KR_VLDRANK_BAD rr_a_example;
               entry_of KR_VLDRANK_INSECURE rr_a_example]
              (entry_of KR_VLDRANK_MISMATCH rr_sig_example) [])
    as [req' [Hc [_ [Hn Hf]]]].
  - constructor; [right; discriminate|].
    constructor; [right; discriminate|]. constructor.
  - reflexivity.
  - reflexivity.
  - exists req'. split; [exact Hc|]. split; [exact Hn|]. rewrite Hf. reflexivity.
Defined.

(** The missing-RRSIG handler fails as bogus when the owner of the record is
    the name of the cut or the layer has yielded already. *)
Lemma rrsig_not_found_fails state req rr :
  knot_dname_is_equal (rr_owner rr) (cut_name (qry_zone_cut (current_query req))) = true
  \/ state = KNOT_STATE_YIELD ->
  rrsig_not_found state req rr
  = Some (KNOT_STATE_FAIL, req_set_flag req QUERY_DNSSEC_BOGUS).
Proof.
  intros Hc. unfold rrsig_not_found.
  destruct Hc as [-> | ->]; [reflexivity|].
  rewrite orb_true_r. reflexivity.
Qed.

(** In the other cases, provided the count of labels to skip is not
    negative, the handler yields; it sets AWAIT_CUT when the new start of
    the cut is a strict subname of the current cut or is the name of no
    ancestor cut, and leaves the flags alone when an ancestor is found. *)
Lemma rrsig_not_found_yields state req rr start :
  knot_dname_is_equal (rr_owner rr) (cut_name (qry_zone_cut (current_query req))) = false ->
  state <> KNOT_STATE_YIELD ->
  new_cut_name_start (cut_name (qry_zone_cut (current_query req))) (rr_owner rr)
    = Some start ->
  exists req',
    rrsig_not_found state req rr = Some (KNOT_STATE_YIELD, req')
    /\ cut_name (qry_zone_cut (current_query req')) = start
    /\ req_flags req' =
         if knot_dname_is_sub start (cut_name (qry_zone_cut (current_query req)))
         then set_flag (req_flags req) QUERY_AWAIT_CUT
         else match find_ancestor_cut (qry_zone_cut (current_query req)) start with
              | None => set_flag (req_flags req) QUERY_AWAIT_CUT
              | Some _ => req_flags req
              end.
Proof.
  intros Hne Hst Hstart. unfold rrsig_not_found, new_cut_name_start in *.
  rewrite Hne. apply Z.eqb_neq in Hst. rewrite Hst. simpl orb. cbv iota.
  rewrite Hstart.
  destruct (knot_dname_is_sub start _).
  - eexists. split; [reflexivity|]. split; reflexivity.
  - destruct (find_ancestor_cut _ start);
      eexists; (split; [reflexivity|]); split; reflexivity.
Qed.

(** C7 (the code departs from the specification).  Specified: the missing-RRSIG
    handler returns FAIL with BOGUS when the owner of the record is the name
    of the cut or the state is YIELD, and YIELD in every other case.  For
    the record owned by [com] under the cut at [example.com], in state DONE,
    neither condition of the first case holds, the count of labels to skip
    is [1 - 1 - 1 = -1], and the handler has no result. *)
Theorem rrsig_not_found_owner_above_cut :
  let req := req_a_example QUERY_DNSSEC_WANT in
  knot_dname_is_equal (rr_owner rr_soa_com)
    (cut_name (qry_zone_cut (current_query req))) = false
  /\ KNOT_STATE_DONE <> KNOT_STATE_YIELD
  /\ knot_dname_labels (rr_owner rr_soa_com)
     - knot_dname_matched_labels (cut_name (qry_zone_cut (current_query req)))
         (rr_owner rr_soa_com) - 1 = -1
  /\ rrsig_not_found KNOT_STATE_DONE req rr_soa_com = None.
Proof. repeat split; try reflexivity; discriminate. Qed.

(** For comparison, the handler on a record below the cut. *)
Lemma rrsig_not_found_owner_below_cut :
  exists req',
    rrsig_not_found KNOT_STATE_DONE
      (req_a_example QUERY_DNSSEC_WANT) rr_a_www = Some (KNOT_STATE_YIELD, req')
    /\ cut_name (qry_zone_cut (current_query req')) = name_www_example_com
    /\ has_flag (req_flags req') QUERY_AWAIT_CUT = true.
Proof. eexists. split; [vm_compute; reflexivity|]. split; reflexivity. Qed.

Lemma matched_chain_nonneg d1 : forall d2 m, 0 <= m -> 0 <= matched_chain d1 d2 m.
Proof.
  induction d1 as [|l1 t1 IH]; intros [|l2 t2] m Hm; simpl; auto.
  apply IH. destruct (label_is_equal l1 l2); lia.
Qed.

Lemma next_labels_skipn n : forall d,
  (n <= List.length d)%nat -> next_labels n (Some d) = Some (skipn n d).
Proof.
  induction n as [|n IH]; intros d Hn; [reflexivity|].
  destruct d as [|l t]; simpl in *; [lia|]. apply IH. lia.
Qed.

(** The new start of the cut is defined exactly when fewer labels match than
    the owner has, that is, when the count of labels to skip is not
    negative. *)
Lemma new_cut_name_start_defined cutn owner :
  knot_dname_matched_labels cutn owner < knot_dname_labels owner ->
  new_cut_name_start cutn owner
  = Some (skipn (Z.to_nat (knot_dname_labels owner
                           - knot_dname_matched_labels cutn owner - 1)) owner).
Proof.
  intros Hlt. unfold new_cut_name_start, skip_leading_labels.
  assert (H0 : 0 <= knot_dname_matched_labels cutn owner).
  { unfold knot_dname_matched_labels. destruct (knot_dname_align _ _).
    apply matched_chain_nonneg. lia. }
  destruct (Z.ltb_spec (knot_dname_labels owner
                        - knot_dname_matched_labels cutn owner - 1) 0); [lia|].
  apply next_labels_skipn. unfold knot_dname_labels in *. lia.
Qed.

Lemma new_cut_name_start_undefined cutn owner :
  knot_dname_labels owner <= knot_dname_matched_labels cutn owner ->
  new_cut_name_start cutn owner = None.
Proof.
  intros Hle. unfold new_cut_name_start, skip_leading_labels.
  destruct (Z.ltb_spec (knot_dname_labels owner
                        - knot_dname_matched_labels cutn owner - 1) 0); [reflexivity|lia].
Qed.

(** ** Delegation update *)

(** Without a DS aggregate in the inspected section, the delegation update
    either proves the absence of DS (returns 0, clears WANT, sets INSECURE)
    or marks the query bogus and returns the error. *)
Lemma update_delegation_without_ds `{Dnssec} qry pkt has_nsec3 :
  pkt_aa pkt = false \/ pkt_qtype pkt = KNOT_RRTYPE_DS ->
  update_ds (qry_zone_cut qry) (knot_pkt_section pkt (delegation_section pkt)) = None ->
  exists ret qry',
    update_delegation qry pkt has_nsec3 = (ret, qry')
    /\ qry_parent qry' = qry_parent qry
    /\ ((ret = 0
         /\ has_flag (qry_flags qry') QUERY_DNSSEC_INSECURE = true
         /\ has_flag (qry_flags qry') QUERY_DNSSEC_WANT = false)
        \/ (ret <> 0 /\ has_flag (qry_flags qry') QUERY_DNSSEC_BOGUS = true)).
Proof.
  intros Hsec Hds. unfold update_delegation, delegation_section in *.
  destruct (pkt_aa pkt) eqn:Haa; simpl negb in *; cbv iota in *.
  - destruct Hsec as [Hsec|Hsec]; [discriminate|]. rewrite Hsec. simpl Z.eqb. cbv iota.
    rewrite Hds.
    match goal with |- context [negb (?r =? 0)] => destruct (Z.eqb_spec r 0) as [E|E] end;
      simpl negb; cbv iota; do 2 eexists; (split; [reflexivity|]); split; try reflexivity.
    + left. split; [exact E|]. simpl. split; flag_simpl; reflexivity.
    + right. split; [exact E|]. simpl. flag_simpl. reflexivity.
  - rewrite Hds.
    match goal with |- context [negb (?r =? 0)] => destruct (Z.eqb_spec r 0) as [E|E] end;
      simpl negb; cbv iota; do 2 eexists; (split; [reflexivity|]); split; try reflexivity.
    + left. split; [exact E|]. simpl. split; flag_simpl; reflexivity.
    + right. split; [exact E|]. simpl. flag_simpl. reflexivity.
Qed.

Lemma update_parent_keys_frame `{Dnssec} qry answer_type parent :
  qry_parent qry = Some parent ->
  exists ret qry',
    update_parent_keys qry answer_type = Some (ret, qry')
    /\ qry_flags qry' = qry_flags qry.
Proof.
  intros Hp. unfold update_parent_keys. rewrite Hp.
  repeat match goal with
         | |- context [if ?c then _ else _] => destruct c
         | |- context [match knot_rrset_copy_ptr ?c with Some _ => _ | None => _ end] =>
             destruct (knot_rrset_copy_ptr c)
         end; do 2 eexists; split; reflexivity.
Qed.

(** C4.  When consume reaches the delegation update for a referral (or an
    authoritative answer to a DS question) whose inspected section yields
    no DS aggregate, consume has a result, and either the query's flags
    contain INSECURE and no longer contain WANT, or the query's flags
    contain BOGUS and consume returns FAIL. *)
Theorem validate_delegation_without_ds `{Dnssec} state req pkt r4 :
  validate_until_finish state req pkt = Continue r4 ->
  pkt_aa pkt = false \/ pkt_qtype pkt = KNOT_RRTYPE_DS ->
  update_ds (qry_zone_cut (current_query r4))
            (knot_pkt_section pkt (delegation_section pkt)) = None ->
  exists st req',
    validate state req pkt = Some (st, req')
    /\ ((has_flag (req_flags req') QUERY_DNSSEC_INSECURE = true
         /\ has_flag (req_flags req') QUERY_DNSSEC_WANT = false)
        \/ (has_flag (req_flags req') QUERY_DNSSEC_BOGUS = true
            /\ st = KNOT_STATE_FAIL)).
Proof.
  intros Hreach Hsec Hds.
  unfold validate, validate_flow. rewrite Hreach. simpl and_then.
  unfold validate_finish.
  destruct (update_delegation_without_ds (current_query r4) pkt
              (pkt_has_type pkt KNOT_RRTYPE_NSEC3) Hsec Hds)
    as [ret [qry' [Hu [Hpar Hcase]]]].
  rewrite Hu.
  destruct Hcase as [[-> [Hi Hw]]|[Hne Hb]].
  - simpl negb. cbv iota.
    destruct (qry_parent qry') as [parent|] eqn:Hp.
    + destruct (update_parent_keys_frame qry' (pkt_qtype pkt) parent Hp)
        as [ret' [qry'' [Hk Hfl]]].
      rewrite Hk.
      destruct (negb (ret' =? 0)); do 2 eexists; (split; [reflexivity|]);
        left; unfold req_flags; simpl; rewrite Hfl; auto.
    + do 2 eexists. split; [reflexivity|]. left. unfold req_flags; simpl; auto.
  - apply Z.eqb_neq in Hne. rewrite Hne. simpl negb. cbv iota.
    do 2 eexists. split; [reflexivity|]. right. unfold req_flags; simpl; auto.
Qed.

(** An instance of C4: the referral to [example.com] without DS, for which
    the collaborator proves the reference to unsigned. *)
Lemma validate_delegation_without_ds_witness :
  exists r4 st req',
    validate_until_finish (D:=accepting_dnssec) KNOT_STATE_DONE req_referral pkt_referral
      = Continue r4
    /\ pkt_aa pkt_referral = false
    /\ update_ds (qry_zone_cut (current_query r4))
                 (knot_pkt_section pkt_referral (delegation_section pkt_referral)) = None
    /\ validate (D:=accepting_dnssec) KNOT_STATE_DONE req_referral pkt_referral
       = Some (st, req')
    /\ ((has_flag (req_flags req') QUERY_DNSSEC_INSECURE = true
         /\ has_flag (req_flags req') QUERY_DNSSEC_WANT = false)
        \/ (has_flag (req_flags req') QUERY_DNSSEC_BOGUS = true
            /\ st = KNOT_STATE_FAIL)).
Proof.
  eexists.
  assert (Hreach : validate_until_finish (D:=accepting_dnssec) KNOT_STATE_DONE
                     req_referral pkt_referral = Continue _)
    by (vm_compute; reflexivity).
  destruct (validate_delegation_without_ds (H:=accepting_dnssec) KNOT_STATE_DONE
              req_referral pkt_referral _ Hreach (or_introl eq_refl) eq_refl)
    as [st [req' [Hv Hc]]].
  exists st, req'. split; [exact Hreach|]. split; [reflexivity|].
  split; [reflexivity|]. split; [exact Hv|exact Hc].
Defined.

(** ** Negative proofs *)

Lemma insecure_kept_refl f : insecure_kept f f.
Proof. unfold insecure_kept; auto. Qed.

Lemma insecure_kept_trans f1 f2 f3 :
  insecure_kept f1 f2 -> insecure_kept f2 f3 -> insecure_kept f1 f3.
Proof. unfold insecure_kept; intuition auto. Qed.

Lemma insecure_kept_set f n :
  0 <= n -> n <> 14 -> insecure_kept f (set_flag f (Z.shiftl 1 n)).
Proof.
  intros Hn Hne. unfold insecure_kept, QUERY_DNSSEC_WANT, QUERY_DNSSEC_INSECURE.
  rewrite !has_flag_set by lia. split; intros ->.
  - destruct (Z.eqb_spec 14 n); [congruence|reflexivity].
  - reflexivity.
Qed.

Lemma insecure_kept_insecure f :
  insecure_kept f (set_flag (clear_flag f QUERY_DNSSEC_WANT) QUERY_DNSSEC_INSECURE).
Proof. unfold insecure_kept. split; intros Hx; flag_simpl; reflexivity. Qed.

Create HintDb kept.
#[local] Hint Resolve insecure_kept_refl insecure_kept_insecure : kept.
#[local] Hint Extern 1 (insecure_kept _ (set_flag _ _)) =>
  apply insecure_kept_set; [vm_compute; discriminate | discriminate] : kept.

Lemma validate_records_flags `{Dnssec} req answer has_nsec3 ret r :
  validate_records req answer has_nsec3 = Some (ret, r) ->
  insecure_kept (req_flags req) (req_flags r).
Proof.
  unfold validate_records.
  destruct (cut_key _); [|intros E; inversion E; auto with kept].
  destruct (validate_section _) as [[ret1 v1]|]; [|discriminate].
  destruct (_ && _); [intros E; inversion E; auto with kept|].
  destruct (validate_section _) as [[ret2 v2]|]; [|discriminate].
  repeat match goal with |- context [if ?c then _ else _] => destruct c end;
    intros E; inversion E; unfold req_flags; simpl; auto with kept.
Qed.

Lemma rrsig_not_found_flags state req rr st r :
  rrsig_not_found state req rr = Some (st, r) ->
  insecure_kept (req_flags req) (req_flags r).
Proof.
  unfold rrsig_not_found.
  destruct (_ || _); [intros E; inversion E; unfold req_flags; simpl; auto with kept|].
  destruct (skip_leading_labels _ _); [|discriminate].
  destruct (knot_dname_is_sub _ _);
    [|destruct (find_ancestor_cut _ _)];
    intros E; inversion E; unfold req_flags; simpl; auto with kept.
Qed.

Lemma check_validation_result_flags state req arr st r :
  check_validation_result state req arr = Some (st, r) ->
  insecure_kept (req_flags req) (req_flags r).
Proof.
  unfold check_validation_result.
  destruct (find_mismatch arr); [intros E; inversion E; auto with kept|].
  induction arr as [|e rest IH]; simpl.
  - intros E; inversion E; auto with kept.
  - destruct (entry_yielded e); [exact IH|].
    destruct (rank_eqb _ KR_VLDRANK_INSECURE); [apply rrsig_not_found_flags|].
    destruct (negb _); [|exact IH].
    intros E; inversion E; unfold req_flags; simpl; auto with kept.
Qed.

Lemma unless_done_flags f r st req :
  (forall st' r', r = Some (st', r') -> insecure_kept f (req_flags r')) ->
  unless_done r = Return st req \/ unless_done r = Continue req ->
  insecure_kept f (req_flags req).
Proof.
  intros Hk. unfold unless_done. destruct r as [[ret r0]|].
  - specialize (Hk ret r0 eq_refl).
    destruct (negb _); intros [E|E]; inversion E; subst; exact Hk.
  - intros [E|E]; discriminate E.
Qed.

Lemma validate_positive_flags `{Dnssec} state pkt req st r :
  validate_positive state pkt req = Return st r
  \/ validate_positive state pkt req = Continue r ->
  insecure_kept (req_flags req) (req_flags r).
Proof.
  unfold validate_positive.
  destruct (negb _); [|intros [E|E]; inversion E; auto with kept].
  destruct (validate_records _ _ _) as [[ret r0]|] eqn:Hr;
    [|intros [E|E]; discriminate E].
  apply validate_records_flags in Hr.
  destruct (ret =? kr_error ENOENT);
    [intros [E|E]; inversion E; subst; exact Hr|].
  destruct (negb (ret =? 0)).
  { intros [E|E]; inversion E; subst.
    eapply insecure_kept_trans; [exact Hr|]. unfold req_flags; simpl. auto with kept. }
  intros HE. eapply insecure_kept_trans; [exact Hr|].
  destruct (unless_done (check_validation_result state r0 (answ_selected r0)))
    as [|st1 r1|r1] eqn:H1; simpl in HE.
  - destruct HE as [E|E]; discriminate E.
  - destruct HE as [E|E]; inversion E; subst.
    eapply unless_done_flags; [|left; exact H1].
    intros st' r' Hc. eapply check_validation_result_flags; exact Hc.
  - eapply insecure_kept_trans.
    + eapply (unless_done_flags _ _ KNOT_STATE_DONE); [|right; exact H1].
      intros st' r' Hc. eapply check_validation_result_flags; exact Hc.
    + eapply unless_done_flags; [|exact HE].
      intros st' r' Hc. eapply check_validation_result_flags; exact Hc.
Qed.

Lemma update_delegation_flags `{Dnssec} qry pkt has_nsec3 :
  insecure_kept (qry_flags qry) (qry_flags (snd (update_delegation qry pkt has_nsec3))).
Proof.
  unfold update_delegation.
  repeat match goal with
         | |- context [if ?c then _ else _] => destruct c
         | |- context [match update_ds ?c ?s with Some _ => _ | None => _ end] =>
             destruct (update_ds c s)
         end; simpl; auto with kept.
Qed.

Lemma validate_finish_flags `{Dnssec} pkt req st r :
  validate_finish pkt req = Return st r ->
  insecure_kept (req_flags req) (req_flags r).
Proof.
  unfold validate_finish.
  pose proof (update_delegation_flags (current_query req) pkt
                (pkt_has_type pkt KNOT_RRTYPE_NSEC3)) as Hk.
  pose proof (update_delegation_frame (current_query req) pkt
                (pkt_has_type pkt KNOT_RRTYPE_NSEC3)) as Hp.
  destruct (update_delegation _ _ _) as [ret qry]. simpl in Hk, Hp.
  destruct (negb (ret =? 0)); [intros E; inversion E; exact Hk|].
  destruct (qry_parent qry) as [parent|] eqn:Hpar; [|intros E; inversion E; exact Hk].
  destruct (update_parent_keys_frame qry (pkt_qtype pkt) parent Hpar)
    as [ret' [qry' [Hu Hf]]].
  rewrite Hu.
  destruct (negb _); intros E; inversion E; unfold req_flags; simpl;
    rewrite Hf; exact Hk.
Qed.

Lemma validate_until_nxdomain_continue `{Dnssec} state req pkt r1 :
  validate_until_nxdomain state req pkt = Continue r1 ->
  has_flag (req_flags r1) QUERY_CACHED = has_flag (req_flags req) QUERY_CACHED
  /\ qry_sname (current_query r1) = qry_sname (current_query req).
Proof.
  unfold validate_until_nxdomain. intros E.
  apply and_then_continue in E. destruct E as [r0 [Hg Hd]].
  apply validate_guards_continue in Hg. subst r0.
  apply validate_dnskey_continue in Hd. exact Hd.
Qed.

(** C5.  For a response that is not from cache and contains NSEC3 records:
    when consume reaches the no-data proof of an authoritative NOERROR
    answer with an empty answer section and the NSEC3 no-data proof returns
    NOT_FOUND, that block does not fail, it clears WANT and sets INSECURE
    (BOGUS is not touched), and the flags stay so in whatever consume
    returns; when consume reaches the name-error proof of an NXDOMAIN
    answer and the NSEC3 name-error proof returns anything but 0 (NOT_FOUND
    included), consume returns FAIL with BOGUS set. *)
Theorem validate_nsec3_not_found `{Dnssec} state req pkt :
  has_flag (req_flags req) QUERY_CACHED = false ->
  pkt_has_type pkt KNOT_RRTYPE_NSEC3 = true ->
  (forall r2,
     validate_until_nodata state req pkt = Continue r2 ->
     pkt_rcode pkt = KNOT_RCODE_NOERROR ->
     pkt_answer pkt = [] ->
     pkt_aa pkt = true ->
     kr_nsec3_no_data pkt KNOT_AUTHORITY (pkt_qname pkt) (pkt_qtype pkt)
       = kr_error DNSSEC_NOT_FOUND ->
     (exists r3,
        validate_nodata pkt r2 = Continue r3
        /\ has_flag (req_flags r3) QUERY_DNSSEC_WANT = false
        /\ has_flag (req_flags r3) QUERY_DNSSEC_INSECURE = true
        /\ has_flag (req_flags r3) QUERY_DNSSEC_BOGUS
           = has_flag (req_flags r2) QUERY_DNSSEC_BOGUS)
     /\ forall st req',
          validate state req pkt = Some (st, req') ->
          has_flag (req_flags req') QUERY_DNSSEC_WANT = false
          /\ has_flag (req_flags req') QUERY_DNSSEC_INSECURE = true)
  /\ (forall r1,
        validate_until_nxdomain state req pkt = Continue r1 ->
        pkt_rcode pkt = KNOT_RCODE_NXDOMAIN ->
        kr_nsec3_name_error_response_check pkt KNOT_AUTHORITY
          (qry_sname (current_query req)) <> 0 ->
        validate state req pkt
          = Some (KNOT_STATE_FAIL, req_set_flag r1 QUERY_DNSSEC_BOGUS)
        /\ has_flag (req_flags (req_set_flag r1 QUERY_DNSSEC_BOGUS))
             QUERY_DNSSEC_BOGUS = true).
Proof.
  intros Hc Hn3. split.
  - intros r2 Hreach Hrc Han Haa Hnf.
    assert (Hc2 : has_flag (req_flags r2) QUERY_CACHED = false).
    { unfold validate_until_nodata in Hreach.
      apply and_then_continue in Hreach. destruct Hreach as [r1 [H1 H2]].
      apply validate_nxdomain_continue in H2. subst r2.
      apply validate_until_nxdomain_continue in H1. destruct H1 as [H1 _].
      congruence. }
    assert (Hnod : exists r3,
               validate_nodata pkt r2 = Continue r3
               /\ has_flag (req_flags r3) QUERY_DNSSEC_WANT = false
               /\ has_flag (req_flags r3) QUERY_DNSSEC_INSECURE = true
               /\ has_flag (req_flags r3) QUERY_DNSSEC_BOGUS
                  = has_flag (req_flags r2) QUERY_DNSSEC_BOGUS).
    { unfold validate_nodata. unfold req_flags in Hc2. rewrite Hc2, Hrc, Hn3, Haa.
      unfold knot_pkt_section. simpl (KNOT_ANSWER =? KNOT_ANSWER). cbv iota.
      rewrite Han, Hnf. simpl.
      eexists. split; [reflexivity|]. unfold req_flags. simpl.
      repeat split; flag_simpl; reflexivity. }
    split; [exact Hnod|].
    destruct Hnod as [r3 [Hnod [Hw [Hi _]]]].
    intros st req' Hv. unfold validate, validate_flow, validate_until_finish in Hv.
    rewrite Hreach in Hv. simpl and_then in Hv. rewrite Hnod in Hv. simpl and_then in Hv.
    assert (Hk : insecure_kept (req_flags r3) (req_flags req')).
    { destruct (validate_positive state pkt r3) as [|st4 r4|r4] eqn:Hpos;
        simpl in Hv; try discriminate.
      - inversion Hv; subst. eapply validate_positive_flags. left; exact Hpos.
      - eapply insecure_kept_trans.
        + eapply (validate_positive_flags _ _ _ KNOT_STATE_DONE). right; exact Hpos.
        + destruct (validate_finish pkt r4) as [|st5 r5|r5] eqn:Hfin; try discriminate.
          inversion Hv; subst. eapply validate_finish_flags; exact Hfin. }
    destruct Hk as [Hk1 Hk2]. auto.
  - intros r1 Hreach Hrc Hne.
    destruct (validate_until_nxdomain_continue state req pkt r1 Hreach) as [Hc1 Hs1].
    split; [|unfold req_flags; simpl; flag_simpl; reflexivity].
    unfold validate, validate_flow, validate_until_finish, validate_until_nodata.
    rewrite Hreach. simpl and_then.
    unfold validate_nxdomain. unfold req_flags in Hc1, Hc. rewrite Hc1, Hc, Hrc, Hn3, Hs1.
    apply Z.eqb_neq in Hne. simpl. rewrite Hne. reflexivity.
Qed.

(** An instance of C5: an opt-out collaborator on an empty authoritative
    answer and on a name error. *)
Lemma validate_nsec3_not_found_witness :
  has_flag (req_flags req_nsec3) QUERY_CACHED = false
  /\ pkt_has_type pkt_nodata_nsec3 KNOT_RRTYPE_NSEC3 = true
  /\ pkt_has_type pkt_nxdomain_nsec3 KNOT_RRTYPE_NSEC3 = true
  /\ (exists req',
        validate (D:=optout_dnssec) KNOT_STATE_DONE req_nsec3 pkt_nodata_nsec3
          = Some (KNOT_STATE_DONE, req')
        /\ has_flag (req_flags req') QUERY_DNSSEC_WANT = false
        /\ has_flag (req_flags req') QUERY_DNSSEC_INSECURE = true)
  /\ (exists req',
        validate (D:=optout_dnssec) KNOT_STATE_DONE req_nsec3 pkt_nxdomain_nsec3
          = Some (KNOT_STATE_FAIL, req')
        /\ has_flag (req_flags req') QUERY_DNSSEC_BOGUS = true).
Proof.
  split; [reflexivity|]. split; [reflexivity|]. split; [reflexivity|]. split.
  - assert (Hreach : validate_until_nodata (D:=optout_dnssec) KNOT_STATE_DONE
                       req_nsec3 pkt_nodata_nsec3 = Continue req_nsec3)
      by (vm_compute; reflexivity).
    destruct (proj1 (validate_nsec3_not_found (H:=optout_dnssec) KNOT_STATE_DONE
                       req_nsec3 pkt_nodata_nsec3 eq_refl eq_refl)
                req_nsec3 Hreach eq_refl eq_refl eq_refl eq_refl) as [_ Hall].
    eexists. split; [vm_compute; reflexivity|].
    apply (Hall KNOT_STATE_DONE). vm_compute. reflexivity.
  - assert (Hreach : validate_until_nxdomain (D:=optout_dnssec) KNOT_STATE_DONE
                       req_nsec3 pkt_nxdomain_nsec3 = Continue req_nsec3)
      by (vm_compute; reflexivity).
    destruct (proj2 (validate_nsec3_not_found (H:=optout_dnssec) KNOT_STATE_DONE
                       req_nsec3 pkt_nxdomain_nsec3 eq_refl eq_refl)
                req_nsec3 Hreach eq_refl) as [Hv Hb].
    + discriminate.
    + eexists. split; [exact Hv|exact Hb].
Defined.

(** ** Merging rdata *)

Lemma knot_rdata_cmp_refl x : knot_rdata_cmp x x = Eq.
Proof. apply String_as_OT.cmp_eq. reflexivity. Qed.

Lemma knot_rdata_cmp_eq x y : knot_rdata_cmp x y = Eq -> x = y.
Proof. apply String_as_OT.cmp_eq. Qed.

Lemma knot_rdata_cmp_gt_lt x y : knot_rdata_cmp x y = Gt -> knot_rdata_cmp y x = Lt.
Proof.
  unfold knot_rdata_cmp. intros Hc.
  pose proof (String_as_OT.cmp_antisym y x) as Ha. unfold String_as_OT.cmp in Ha.
  rewrite Ha, Hc. reflexivity.
Qed.

Lemma knot_rdata_cmp_lt_trans x y z :
  knot_rdata_cmp x y = Lt -> knot_rdata_cmp y z = Lt -> knot_rdata_cmp x z = Lt.
Proof.
  unfold knot_rdata_cmp. intros Hxy Hyz.
  apply String_as_OT.cmp_lt. apply String_as_OT.cmp_lt in Hxy, Hyz.
  eapply String_as_OT.lt_trans; eassumption.
Qed.

Lemma add_absorbs_self rrs x : absorbed (knot_rdataset_add rrs x) x.
Proof.
  unfold absorbed. induction rrs as [|h t IH]; simpl.
  - rewrite knot_rdata_cmp_refl. reflexivity.
  - destruct (knot_rdata_cmp h x) eqn:Hc; simpl.
    + rewrite Hc. reflexivity.
    + rewrite Hc, IH. reflexivity.
    + rewrite knot_rdata_cmp_refl. reflexivity.
Qed.

Lemma add_keeps_absorbed rrs x y :
  absorbed rrs x -> absorbed (knot_rdataset_add rrs y) x.
Proof.
  unfold absorbed. induction rrs as [|h t IH]; simpl.
  - discriminate.
  - destruct (knot_rdata_cmp h x) eqn:Hx.
    + intros _. apply knot_rdata_cmp_eq in Hx. subst h.
      destruct (knot_rdata_cmp x y) eqn:Hy; simpl.
      * rewrite knot_rdata_cmp_refl. reflexivity.
      * rewrite knot_rdata_cmp_refl. reflexivity.
      * rewrite (knot_rdata_cmp_gt_lt _ _ Hy). simpl.
        rewrite knot_rdata_cmp_refl. reflexivity.
    + intros Ht. assert (Ht' : knot_rdataset_add t x = t) by congruence. clear Ht.
      destruct (knot_rdata_cmp h y) eqn:Hy; simpl.
      * rewrite Hx, Ht'. reflexivity.
      * rewrite Hx. f_equal. apply IH. exact Ht'.
      * rewrite (knot_rdata_cmp_lt_trans y h x (knot_rdata_cmp_gt_lt _ _ Hy) Hx).
        simpl. rewrite Hx, Ht'. reflexivity.
    + intros Ht. exfalso.
      apply (f_equal (@List.length knot_rdata)) in Ht. simpl in Ht. lia.
Qed.

Lemma sorted_absorbs rrs :
  rdataset_sorted rrs -> Forall (absorbed rrs) rrs.
Proof.
  unfold absorbed. induction rrs as [|h t IH]; simpl; [constructor|].
  intros [Hh Ht]. constructor.
  - rewrite knot_rdata_cmp_refl. reflexivity.
  - specialize (IH Ht). rewrite Forall_forall in *. intros x Hin.
    specialize (Hh x Hin). destruct (knot_rdata_cmp h x); try reflexivity.
    + rewrite (IH x Hin). reflexivity.
    + contradiction.
Qed.

Lemma merge_keeps_absorbed m : forall rrs x,
  absorbed rrs x -> absorbed (knot_rdataset_merge rrs m) x.
Proof.
  unfold knot_rdataset_merge.
  induction m as [|y m IH]; intros rrs x Hx; simpl; [exact Hx|].
  apply IH. apply add_keeps_absorbed. exact Hx.
Qed.

Lemma merge_absorbs m : forall rrs,
  Forall (absorbed (knot_rdataset_merge rrs m)) m.
Proof.
  induction m as [|y m IH]; intros rrs; [constructor|].
  constructor.
  - unfold knot_rdataset_merge. simpl.
    apply (merge_keeps_absorbed m). apply add_absorbs_self.
  - apply (IH (knot_rdataset_add rrs y)).
Qed.

Lemma merge_absorbed m : forall rrs,
  Forall (absorbed rrs) m -> knot_rdataset_merge rrs m = rrs.
Proof.
  unfold knot_rdataset_merge.
  induction m as [|y m IH]; intros rrs Hall; simpl; [reflexivity|].
  inversion Hall as [|? ? Hy Hm]; subst. rewrite Hy. apply IH. exact Hm.
Qed.

(** ** Merging the key set *)

Lemma key_step_irrelevant cutn k rr :
  key_relevant cutn rr = false -> key_step cutn k rr = k.
Proof. unfold key_step. intros ->. reflexivity. Qed.

Lemma key_step_none cutn rr :
  key_relevant cutn rr = true -> key_step cutn None rr = Some rr.
Proof. unfold key_step. intros ->. reflexivity. Qed.

Lemma key_step_replace cutn k rr :
  key_relevant cutn rr = true ->
  knot_dname_is_equal (rr_owner k) (rr_owner rr) = false ->
  key_step cutn (Some k) rr = Some rr.
Proof. unfold key_step. intros -> ->. reflexivity. Qed.

Lemma key_step_merge cutn k rr :
  key_relevant cutn rr = true ->
  knot_dname_is_equal (rr_owner k) (rr_owner rr) = true ->
  key_step cutn (Some k) rr = Some (key_merge k rr).
Proof. unfold key_step. intros -> ->. reflexivity. Qed.

Lemma cut_set_key_key cut : cut_set_key cut (cut_key cut) = cut.
Proof. destruct cut; reflexivity. Qed.

(** The merge loop changes the key of the cut only, as [merged_key] says. *)
Lemma keyset_merge_key an : forall cut updated,
  fst (keyset_merge cut an updated)
  = cut_set_key cut (merged_key (cut_name cut) (cut_key cut) an).
Proof.
  induction an as [|rr rest IH]; intros cut updated; simpl.
  - symmetry. apply cut_set_key_key.
  - unfold merged_key in *. simpl fold_left.
    rewrite <- negb_andb. fold (key_relevant (cut_name cut) rr).
    destruct (key_relevant (cut_name cut) rr) eqn:Hrel; simpl negb; cbv iota.
    + destruct (cut_key cut) as [key|] eqn:Hkey.
      * destruct (knot_dname_is_equal (rr_owner key) (rr_owner rr)) eqn:He;
          simpl negb; cbv iota; rewrite IH; simpl.
        -- rewrite key_step_merge by assumption. reflexivity.
        -- rewrite key_step_replace by assumption. reflexivity.
      * rewrite IH. simpl. rewrite key_step_none by assumption. reflexivity.
    + rewrite key_step_irrelevant by assumption. apply IH.
Qed.

Lemma merge_all_owner cutn an : forall k, rr_owner (merge_all cutn k an) = rr_owner k.
Proof.
  unfold merge_all. induction an as [|rr rest IH]; intros k; simpl; [reflexivity|].
  rewrite IH. destruct (key_relevant cutn rr); reflexivity.
Qed.

(** Two runs of the loop from keys with the same owner either meet, or
    both merge at every turn. *)
Lemma merged_key_sync cutn an : forall kx ky,
  rr_owner kx = rr_owner ky ->
  merged_key cutn (Some kx) an = merged_key cutn (Some ky) an
  \/ (merged_key cutn (Some kx) an = Some (merge_all cutn kx an)
      /\ merged_key cutn (Some ky) an = Some (merge_all cutn ky an)).
Proof.
  unfold merged_key, merge_all.
  induction an as [|rr rest IH]; intros kx ky Ho; simpl; [right; auto|].
  destruct (key_relevant cutn rr) eqn:Hrel.
  - destruct (knot_dname_is_equal (rr_owner kx) (rr_owner rr)) eqn:He.
    + rewrite !key_step_merge by (rewrite <- ?Ho; assumption).
      apply IH. exact Ho.
    + rewrite !key_step_replace by (rewrite <- ?Ho; assumption).
      left. reflexivity.
  - rewrite !key_step_irrelevant by assumption. apply IH. exact Ho.
Qed.

Lemma key_merge_covered k rr : key_covers k rr -> key_merge k rr = k.
Proof.
  unfold key_covers, key_merge. intros Hc.
  rewrite (merge_absorbed _ _ Hc). destruct k; reflexivity.
Qed.

Lemma key_merge_keeps_covered k rr rr' : key_covers k rr' -> key_covers (key_merge k rr) rr'.
Proof.
  unfold key_covers, key_merge. simpl. intros Hc.
  eapply Forall_impl; [|exact Hc]. intros x. apply merge_keeps_absorbed.
Qed.

Lemma merge_all_keeps_covered cutn an rr' : forall k,
  key_covers k rr' -> key_covers (merge_all cutn k an) rr'.
Proof.
  unfold merge_all. induction an as [|rr rest IH]; intros k Hc; simpl; [exact Hc|].
  apply IH. destruct (key_relevant cutn rr); [apply key_merge_keeps_covered|]; exact Hc.
Qed.

Lemma merge_all_covers cutn an : forall k,
  Forall (fun rr => key_relevant cutn rr = true -> key_covers (merge_all cutn k an) rr) an.
Proof.
  induction an as [|rr rest IH]; intros k; [constructor|].
  constructor.
  - intros Hr. unfold merge_all. simpl. rewrite Hr.
    apply (merge_all_keeps_covered cutn rest rr).
    unfold key_covers, key_merge. simpl. apply merge_absorbs.
  - unfold merge_all. simpl. apply IH.
Qed.

Lemma merge_all_covered cutn an : forall k,
  Forall (fun rr => key_relevant cutn rr = true -> key_covers k rr) an ->
  merge_all cutn k an = k.
Proof.
  unfold merge_all. induction an as [|rr rest IH]; intros k Hall; simpl; [reflexivity|].
  inversion Hall as [|? ? Hrr Hrest]; subst.
  destruct (key_relevant cutn rr).
  - rewrite (key_merge_covered k rr (Hrr eq_refl)). apply IH. exact Hrest.
  - apply IH. exact Hrest.
Qed.

(** A second run of the loop over the same records changes nothing. *)
Lemma merged_key_idempotent cutn an :
  Forall (fun rr => rdataset_sorted (rr_rrs rr)) an ->
  forall key, merged_key cutn (merged_key cutn key an) an = merged_key cutn key an.
Proof.
  induction 1 as [|rr rest Hs _ IH]; intros key; [reflexivity|].
  unfold merged_key in *. simpl fold_left.
  destruct (key_relevant cutn rr) eqn:Hrel.
  2:{ rewrite !key_step_irrelevant by assumption. apply IH. }
  (* the key after the first turn, owned by the owner of [rr], covering [rr] *)
  assert (Hstep : forall k, exists s,
             key_step cutn k rr = Some s /\ rr_owner s = rr_owner rr /\ key_covers s rr).
  { intros [k|].
    - destruct (knot_dname_is_equal (rr_owner k) (rr_owner rr)) eqn:He.
      + exists (key_merge k rr). split; [apply key_step_merge; assumption|]. split.
        * apply knot_dname_is_equal_iff in He. exact He.
        * unfold key_covers, key_merge. simpl. apply merge_absorbs.
      + exists rr. split; [apply key_step_replace; assumption|].
        split; [reflexivity|]. apply sorted_absorbs. exact Hs.
    - exists rr. split; [apply key_step_none; assumption|].
      split; [reflexivity|]. apply sorted_absorbs. exact Hs. }
  destruct (Hstep key) as [s [Es [Hos Hcs]]]. rewrite Es.
  destruct (Hstep (fold_left (key_step cutn) rest (Some s))) as [s' [Es' [Hos' _]]].
  rewrite Es'.
  destruct (merged_key_sync cutn rest s' s) as [Hsync|[Hx Hy]]; [congruence|exact Hsync|].
  unfold merged_key in Hx, Hy. rewrite Hx, Hy.
  (* every turn merges: the first run ends in [merge_all s rest] *)
  rewrite Hy in Es'.
  rewrite key_step_merge in Es'
    by (rewrite ?merge_all_owner, ?Hos; auto using knot_dname_is_equal_refl).
  rewrite key_merge_covered in Es' by (apply merge_all_keeps_covered; exact Hcs).
  inversion Es'; subst s'. f_equal.
  apply merge_all_covered. apply merge_all_covers.
Qed.

(** C9.  For every zone cut and every answer section (of rdatasets as
    libknot keeps them, sorted), running the key-set merge of
    validate_keyset a second time over the same answer section leaves the
    cut, and so cut.key.rrs, equal to its value after the first run. *)
Theorem keyset_merge_idempotent cut an updated updated' :
  Forall (fun rr => rdataset_sorted (rr_rrs rr)) an ->
  let cut1 := fst (keyset_merge cut an updated) in
  let cut2 := fst (keyset_merge cut1 an updated') in
  cut2 = cut1
  /\ option_map rr_rrs (cut_key cut2) = option_map rr_rrs (cut_key cut1).
Proof.
  intros Hs cut1 cut2.
  assert (E : cut2 = cut1); [|rewrite E; auto].
  subst cut2 cut1. rewrite !keyset_merge_key. destruct cut as [n k ta p]. simpl.
  unfold cut_set_key. simpl. rewrite merged_key_idempotent by exact Hs. reflexivity.
Qed.

(** An instance of C9: two DNSKEY records of [example.com] merged into a
    cut without a key. *)
Lemma keyset_merge_idempotent_witness :
  Forall (fun rr => rdataset_sorted (rr_rrs rr)) an_two_keys
  /\ option_map rr_rrs (cut_key (fst (keyset_merge cut_without_key an_two_keys false)))
     = Some ["another key"%string; "key"%string]
  /\ fst (keyset_merge (fst (keyset_merge cut_without_key an_two_keys false))
            an_two_keys false)
     = fst (keyset_merge cut_without_key an_two_keys false).
Proof.
  assert (Hs : Forall (fun rr => rdataset_sorted (rr_rrs rr)) an_two_keys).
  { repeat constructor. }
  split; [exact Hs|]. split; [reflexivity|].
  exact (proj1 (keyset_merge_idempotent cut_without_key an_two_keys false false Hs)).
Defined.

(** ** Further properties of the layer *)

(** *** Searching a packet for a type *)

Lemma section_has_type_iff sec type :
  section_has_type sec type = true <-> exists rr, In rr sec /\ rr_type rr = type.
Proof.
  induction sec as [|rr rest IH]; simpl.
  - split; [discriminate | intros [rr [[] _]]].
  - destruct (Z.eqb_spec (rr_type rr) type) as [E|E].
    + split; [intros _; exists rr; auto | reflexivity].
    + rewrite IH. split.
      * intros [x [Hin Hx]]. exists x; auto.
      * intros [x [[->|Hin] Hx]]; [contradiction | exists x; auto].
Qed.

(** X1.  [pkt_has_type] answers true exactly when a record of the type is
    in the answer, the authority or the additional section of the packet. *)
Theorem pkt_has_type_iff pkt type :
  pkt_has_type pkt type = true
  <-> exists rr,
        (In rr (pkt_answer pkt) \/ In rr (pkt_authority pkt) \/ In rr (pkt_additional pkt))
        /\ rr_type rr = type.
Proof.
  unfold pkt_has_type, knot_pkt_section. simpl.
  destruct (section_has_type (pkt_answer pkt) type) eqn:Han.
  { apply section_has_type_iff in Han. destruct Han as [rr [Hin Ht]].
    split; [intros _; exists rr; auto | reflexivity]. }
  destruct (section_has_type (pkt_authority pkt) type) eqn:Hau.
  { apply section_has_type_iff in Hau. destruct Hau as [rr [Hin Ht]].
    split; [intros _; exists rr; auto | reflexivity]. }
  rewrite section_has_type_iff. split.
  - intros [rr [Hin Ht]]. exists rr; auto.
  - intros [rr [[Hin|[Hin|Hin]] Ht]].
    + assert (section_has_type (pkt_answer pkt) type = true)
        by (apply section_has_type_iff; eauto). congruence.
    + assert (section_has_type (pkt_authority pkt) type = true)
        by (apply section_has_type_iff; eauto). congruence.
    + eauto.
Qed.

(** *** Pass-through *)

(** X2.  A response in a state with the FAIL or CONSUME bit, or for a query
    that does not want DNSSEC or is in stub mode, passes through: consume
    returns the state it was given and leaves the request as it is. *)
Theorem validate_pass_through `{Dnssec} state req pkt :
  Z.land state (Z.lor KNOT_STATE_FAIL KNOT_STATE_CONSUME) <> 0
  \/ has_flag (req_flags req) QUERY_DNSSEC_WANT = false
  \/ has_flag (req_flags req) QUERY_STUB = true ->
  validate state req pkt = Some (state, req).
Proof.
  intros Hc.
  assert (Hg : validate_guards state pkt req = Return state req).
  { unfold validate_guards, req_flags in *.
    destruct (Z.eqb_spec (Z.land state (Z.lor KNOT_STATE_FAIL KNOT_STATE_CONSUME)) 0)
      as [E|E]; simpl; [|reflexivity].
    destruct Hc as [Hc|[Hc|Hc]]; [contradiction| |]; rewrite Hc; simpl;
      rewrite ?orb_true_r; reflexivity. }
  unfold validate, validate_flow, validate_until_finish, validate_until_nodata,
    validate_until_nxdomain. rewrite Hg. reflexivity.
Qed.

(** An instance of X2: a response still in state CONSUME, and a stub query. *)
Lemma validate_pass_through_witness :
  validate (D:=accepting_dnssec) KNOT_STATE_CONSUME
    (req_a_example QUERY_DNSSEC_WANT) pkt_a_with_do
  = Some (KNOT_STATE_CONSUME, req_a_example QUERY_DNSSEC_WANT)
  /\ validate (D:=accepting_dnssec) KNOT_STATE_DONE
       (req_a_example (Z.lor QUERY_DNSSEC_WANT QUERY_STUB)) pkt_a_with_do
     = Some (KNOT_STATE_DONE, req_a_example (Z.lor QUERY_DNSSEC_WANT QUERY_STUB)).
Proof.
  split.
  - apply (validate_pass_through (H:=accepting_dnssec)). left. discriminate.
  - apply (validate_pass_through (H:=accepting_dnssec)). right. right. reflexivity.
Defined.

(** *** A cut without a key *)

Lemma validate_until_finish_positive `{Dnssec} state req pkt :
  validate_until_finish state req pkt
  = and_then (validate_until_positive state req pkt) (validate_positive state pkt).
Proof. reflexivity. Qed.

(** X3.  Without a DNSKEY at the cut nothing can be validated:
    validate_records returns EBADMSG and touches nothing, and when consume
    reaches the positive validation of a response that is not from cache it
    returns FAIL with BOGUS set, the request being otherwise as it was
    then. *)
Theorem validate_without_key `{Dnssec} state req pkt r3 :
  validate_until_positive state req pkt = Continue r3 ->
  has_flag (req_flags r3) QUERY_CACHED = false ->
  cut_key (qry_zone_cut (current_query r3)) = None ->
  validate_records r3 pkt (pkt_has_type pkt KNOT_RRTYPE_NSEC3)
    = Some (kr_error EBADMSG, r3)
  /\ validate state req pkt
     = Some (KNOT_STATE_FAIL, req_set_flag r3 QUERY_DNSSEC_BOGUS).
Proof.
  intros Hreach Hc Hk.
  assert (Hr : validate_records r3 pkt (pkt_has_type pkt KNOT_RRTYPE_NSEC3)
               = Some (kr_error EBADMSG, r3)).
  { unfold validate_records. rewrite Hk. reflexivity. }
  split; [exact Hr|].
  unfold validate, validate_flow. rewrite validate_until_finish_positive, Hreach.
  simpl and_then. unfold validate_positive. rewrite Hc, Hr. reflexivity.
Qed.

Lemma validate_without_key_witness :
  validate_until_positive (D:=accepting_dnssec) KNOT_STATE_DONE req_without_key pkt_a_with_do
  = Continue req_without_key
  /\ validate (D:=accepting_dnssec) KNOT_STATE_DONE req_without_key pkt_a_with_do
     = Some (KNOT_STATE_FAIL, req_set_flag req_without_key QUERY_DNSSEC_BOGUS).
Proof.
  assert (Hreach : validate_until_positive (D:=accepting_dnssec) KNOT_STATE_DONE
                     req_without_key pkt_a_with_do = Continue req_without_key)
    by (vm_compute; reflexivity).
  split; [exact Hreach|].
  exact (proj2 (validate_without_key (H:=accepting_dnssec) KNOT_STATE_DONE
                  req_without_key pkt_a_with_do req_without_key Hreach eq_refl eq_refl)).
Defined.

(** *** What section validation leaves alone *)

Lemma reranked_refl e : reranked e e.
Proof. unfold reranked; auto. Qed.

Lemma reranked_set_rank e r : inspected e = true -> reranked e (set_rank e r).
Proof.
  intros Hi. unfold reranked, entry_id. simpl. repeat split. congruence.
Qed.

Lemma validate_section_loop_reranked `{Dnssec} todo :
  forall vctx done found found' vctx',
    vc_rrs vctx = done ++ todo ->
    validate_section_loop vctx done todo found = Some (found', vctx') ->
    exists todo',
      vc_rrs vctx' = done ++ todo'
      /\ Forall2 reranked todo todo'
      /\ same_inputs vctx vctx'.
Proof.
  induction todo as [|e rest IH]; intros vctx done found found' vctx' Hrrs; simpl.
  - intros E; inversion E; subst. exists []. rewrite app_nil_r in *.
    auto using same_inputs_refl.
  - assert (Hstep : forall v1 e1 f1,
              same_inputs vctx v1 ->
              vc_rrs v1 = done ++ e1 :: rest ->
              reranked e e1 ->
              validate_section_loop v1 (done ++ [e1]) rest f1 = Some (found', vctx') ->
              exists todo',
                vc_rrs vctx' = done ++ todo'
                /\ Forall2 reranked (e :: rest) todo'
                /\ same_inputs vctx vctx').
    { intros v1 e1 f1 Hs1 Hr1 He1 Hl.
      apply IH in Hl; [|rewrite Hr1, <- app_assoc; reflexivity].
      destruct Hl as [todo' [Hrrs' [HF Hs']]].
      exists (e1 :: todo'). split; [rewrite Hrrs', <- app_assoc; reflexivity|].
      split; [constructor; assumption|].
      eapply same_inputs_trans; eassumption. }
    destruct (rank_eqb (entry_rank e) KR_VLDRANK_SECURE || entry_yielded e) eqn:Hskip.
    { apply Hstep; auto using same_inputs_refl, reranked_refl. }
    assert (Hi : inspected e = true) by (unfold inspected; rewrite Hskip; reflexivity).
    destruct (rr_type (entry_rr e) =? KNOT_RRTYPE_RRSIG).
    { destruct (vc_zone_name vctx); [|discriminate].
      apply Hstep; [unfold same_inputs; simpl; auto 10 | reflexivity |].
      destruct (negb _); apply reranked_set_rank; exact Hi. }
    destruct (_ && _).
    { apply Hstep; [unfold same_inputs; simpl; auto 10 | reflexivity |].
      apply reranked_set_rank; exact Hi. }
    destruct (kr_rrset_validate vctx (entry_rr e)) as [[vr fl] rs].
    apply Hstep; [unfold same_inputs; simpl; auto 10 | reflexivity |].
    apply reranked_set_rank; exact Hi.
Qed.

Lemma validate_section_loop_found `{Dnssec} todo :
  forall vctx done found found' vctx',
    validate_section_loop vctx done todo found = Some (found', vctx') ->
    found' = found || section_has_rrsig todo.
Proof.
  induction todo as [|e rest IH]; intros vctx done found found' vctx'; simpl.
  - intros E; inversion E. rewrite orb_false_r. reflexivity.
  - unfold section_has_rrsig. simpl existsb. fold (section_has_rrsig rest).
    unfold inspected at 1.
    destruct (rank_eqb (entry_rank e) KR_VLDRANK_SECURE || entry_yielded e); simpl;
      [apply IH|].
    destruct (rr_type (entry_rr e) =? KNOT_RRTYPE_RRSIG); simpl.
    { destruct (vc_zone_name vctx); [|discriminate].
      intros E. apply IH in E. rewrite E, orb_true_r. reflexivity. }
    destruct (_ && _); [apply IH|].
    destruct (kr_rrset_validate _ _) as [[vr fl] rs]. apply IH.
Qed.

Lemma validate_section_reranked `{Dnssec} vctx ret vctx' :
  validate_section vctx = Some (ret, vctx') ->
  (ret = kr_ok \/ ret = kr_error ENOENT)
  /\ Forall2 reranked (vc_rrs vctx) (vc_rrs vctx').
Proof.
  unfold validate_section.
  destruct (validate_section_loop _ _ _ _) as [[found v']|] eqn:Hl; [|discriminate].
  intros E; inversion E; subst; clear E.
  apply validate_section_loop_reranked in Hl; [|reflexivity].
  destruct Hl as [todo' [Hrrs [HF _]]]. simpl in Hrrs, HF.
  rewrite Hrrs. split; [destruct found; auto|exact HF].
Qed.

(** X4.  Whatever the verifier answers, validate_section reports only OK
    (an RRSIG was met among the records it inspects) or ENOENT (none was);
    a verification failure shows in a rank, never in the return code.  The
    array keeps its records in their order, each with at most another rank,
    and a record that is yielded or secure already is not touched. *)
Theorem validate_section_frame `{Dnssec} vctx ret vctx' :
  validate_section vctx = Some (ret, vctx') ->
  ret = (if section_has_rrsig (vc_rrs vctx) then kr_ok else kr_error ENOENT)
  /\ Forall2 reranked (vc_rrs vctx) (vc_rrs vctx')
  /\ vc_pkt vctx' = vc_pkt vctx
  /\ vc_keys vctx' = vc_keys vctx
  /\ vc_section_id vctx' = vc_section_id vctx.
Proof.
  unfold validate_section.
  destruct (validate_section_loop _ _ _ _) as [[found v']|] eqn:Hl; [|discriminate].
  intros E; inversion E; subst; clear E.
  pose proof (validate_section_loop_found _ _ _ _ _ _ Hl) as Hf. simpl in Hf.
  apply validate_section_loop_reranked in Hl; [|reflexivity].
  destruct Hl as [todo' [Hrrs [HF Hs]]]. simpl in Hrrs, HF.
  destruct Hs as [Hp [Hsec [Hk _]]]. simpl in Hp, Hsec, Hk.
  subst found. rewrite Hrrs. auto.
Qed.

Lemma validate_section_frame_witness :
  let vctx := answer_vctx (req_a_example QUERY_DNSSEC_WANT) pkt_a_with_do false in
  exists vctx',
    validate_section (D:=optout_dnssec) vctx = Some (kr_ok, vctx')
    /\ Forall2 reranked (vc_rrs vctx) (vc_rrs vctx').
Proof.
  intros vctx.
  assert (Hv : validate_section (D:=optout_dnssec) vctx = Some (kr_ok, _))
    by (vm_compute; reflexivity).
  eexists. split; [exact Hv|].
  exact (proj1 (proj2 (validate_section_frame (H:=optout_dnssec) _ _ _ Hv))).
Defined.

Lemma Forall2_reranked_same_records a a' :
  Forall2 reranked a a' -> same_records a a' /\ map entry_to_wire a' = map entry_to_wire a.
Proof.
  unfold same_records. induction 1 as [|e e' a a' [Hid [Hw _]] _ [IH1 IH2]]; simpl; [auto|].
  rewrite Hid, Hw, IH1, IH2. auto.
Qed.

Lemma validate_records_reranked `{Dnssec} req answer has_nsec3 ret req' :
  validate_records req answer has_nsec3 = Some (ret, req') ->
  Forall2 reranked (answ_selected req) (answ_selected req')
  /\ Forall2 reranked (auth_selected req) (auth_selected req')
  /\ (current_query req' = current_query req
      \/ current_query req'
         = qry_set_flags (current_query req)
             (set_flag (req_flags req) QUERY_DNSSEC_WEXPAND))
  /\ (ret = kr_ok \/ ret = kr_error ENOENT \/ ret = kr_error EBADMSG).
Proof.
  assert (Hrefl : forall a, Forall2 reranked a a).
  { induction a; constructor; auto using reranked_refl. }
  unfold validate_records.
  destruct (cut_key _); [|intros E; inversion E; subst; auto 10].
  destruct (validate_section (answer_vctx req answer has_nsec3))
    as [[ret1 v1]|] eqn:H1; [|discriminate].
  apply validate_section_reranked in H1. destruct H1 as [Hc1 HF1]. simpl in HF1.
  cbv zeta.
  destruct (negb (ret1 =? kr_ok) && negb (ret1 =? kr_error ENOENT)) eqn:Hb.
  { destruct Hc1 as [-> | ->]; discriminate Hb. }
  destruct (validate_section _) as [[ret2 v2]|] eqn:H2; [|discriminate].
  apply validate_section_reranked in H2. destruct H2 as [Hc2 HF2]. simpl in HF2.
  destruct Hc1 as [-> | ->], Hc2 as [-> | ->]; simpl;
    try destruct (has_flag _ _); intros E; inversion E; subst; simpl; auto 10.
Qed.

(** X5.  validate_records changes nothing but ranks and, at most, the
    WEXPAND flag of the query: both arrays keep their records in order (a
    yielded or secure record untouched), the zone cut, the question and the
    parent of the query stay, and the return code is OK, ENOENT or, without
    a key, EBADMSG. *)
Theorem validate_records_frame `{Dnssec} req answer has_nsec3 ret req' :
  validate_records req answer has_nsec3 = Some (ret, req') ->
  Forall2 reranked (answ_selected req) (answ_selected req')
  /\ Forall2 reranked (auth_selected req) (auth_selected req')
  /\ (current_query req' = current_query req
      \/ current_query req'
         = qry_set_flags (current_query req)
             (set_flag (req_flags req) QUERY_DNSSEC_WEXPAND))
  /\ (ret = kr_ok \/ ret = kr_error ENOENT \/ ret = kr_error EBADMSG).
Proof. apply validate_records_reranked. Qed.

Lemma validate_records_frame_witness :
  exists req',
    validate_records (D:=accepting_dnssec) (req_a_example QUERY_DNSSEC_WANT)
      pkt_a_with_do false = Some (kr_ok, req')
    /\ Forall2 reranked (answ_selected (req_a_example QUERY_DNSSEC_WANT))
                        (answ_selected req').
Proof.
  assert (Hv : validate_records (D:=accepting_dnssec) (req_a_example QUERY_DNSSEC_WANT)
                 pkt_a_with_do false = Some (kr_ok, _))
    by (vm_compute; reflexivity).
  eexists. split; [exact Hv|].
  exact (proj1 (validate_records_frame (H:=accepting_dnssec) _ _ _ _ _ Hv)).
Defined.

(** *** The verdict from ranks, second pass *)

Lemma find_mismatch_none arr : no_mismatch arr -> find_mismatch arr = None.
Proof.
  induction 1 as [|x arr Hx _ IH]; simpl; [reflexivity|].
  destruct (entry_yielded x); [exact IH|].
  destruct (rank_eqb (entry_rank x) KR_VLDRANK_MISMATCH) eqn:E; [|exact IH].
  apply rank_eqb_eq in E. destruct Hx as [Hx|Hx]; [discriminate|contradiction].
Qed.

Lemma secure_no_mismatch arr : Forall secure_unless_yielded arr -> no_mismatch arr.
Proof.
  unfold no_mismatch. intros HF. eapply Forall_impl; [|exact HF].
  intros x Hx. unfold secure_unless_yielded in Hx.
  destruct (entry_yielded x); [left; reflexivity|].
  right. rewrite Hx by reflexivity. discriminate.
Qed.

Lemma check_other_ranks_skip state req l1 rest :
  Forall secure_unless_yielded l1 ->
  check_other_ranks state req (l1 ++ rest) = check_other_ranks state req rest.
Proof.
  induction 1 as [|x l1 Hx _ IH]; simpl; [reflexivity|].
  unfold secure_unless_yielded in Hx.
  destruct (entry_yielded x); [exact IH|].
  rewrite Hx by reflexivity. simpl. exact IH.
Qed.

(** X6.  check_validation_result returns DONE exactly when every record of
    the array that is not yielded has rank SECURE, and then it changes
    nothing. *)
Theorem check_validation_result_done_iff state req arr :
  check_validation_result state req arr = Some (KNOT_STATE_DONE, req)
  <-> Forall secure_unless_yielded arr.
Proof.
  split.
  - intros E. apply check_validation_result_done in E. tauto.
  - intros HF. unfold check_validation_result.
    rewrite (find_mismatch_none arr (secure_no_mismatch arr HF)).
    rewrite <- (app_nil_r arr). rewrite check_other_ranks_skip by exact HF.
    reflexivity.
Qed.

(** X7.  When no record asks for another cut (no MISMATCH that is not
    yielded), the first record, in array order, that is neither yielded nor
    SECURE decides: a rank other than INSECURE (INITIAL, BAD or UNKNOWN)
    sets BOGUS and returns FAIL with nothing else changed, and rank
    INSECURE hands the record to the missing-RRSIG handler; the records
    after it are not looked at. *)
Theorem check_validation_result_first_problem state req l1 e l2 :
  Forall secure_unless_yielded l1 ->
  no_mismatch (e :: l2) ->
  entry_yielded e = false ->
  entry_rank e <> KR_VLDRANK_SECURE ->
  check_validation_result state req (l1 ++ e :: l2)
  = if rank_eqb (entry_rank e) KR_VLDRANK_INSECURE
    then rrsig_not_found state req (entry_rr e)
    else Some (KNOT_STATE_FAIL, req_set_flag req QUERY_DNSSEC_BOGUS).
Proof.
  intros H1 Hnm Hy Hr. unfold check_validation_result.
  rewrite find_mismatch_none.
  2:{ unfold no_mismatch in *. apply Forall_app. split; [|exact Hnm].
      apply secure_no_mismatch. exact H1. }
  rewrite check_other_ranks_skip by exact H1. simpl. rewrite Hy.
  destruct (rank_eqb (entry_rank e) KR_VLDRANK_INSECURE); [reflexivity|].
  destruct (rank_eqb (entry_rank e) KR_VLDRANK_SECURE) eqn:E; [|reflexivity].
  apply rank_eqb_eq in E. contradiction.
Qed.

Lemma check_validation_result_first_problem_witness :
  check_validation_result KNOT_STATE_DONE (req_a_example QUERY_DNSSEC_WANT) arr_bad_first
  = Some (KNOT_STATE_FAIL, req_set_flag (req_a_example QUERY_DNSSEC_WANT) QUERY_DNSSEC_BOGUS).
Proof.
  apply (check_validation_result_first_problem KNOT_STATE_DONE
           (req_a_example QUERY_DNSSEC_WANT)
           [entry_of KR_VLDRANK_SECURE rr_sig_example]
           (entry_of KR_VLDRANK_BAD rr_a_example)
           [entry_of KR_VLDRANK_INSECURE rr_a_www]).
  - constructor; [intros _; reflexivity | constructor].
  - constructor; [right; discriminate|].
    constructor; [right; discriminate | constructor].
  - reflexivity.
  - discriminate.
Defined.

(** *** Aggregating DS records *)

Lemma knot_rdata_cmp_lt_neq x y : knot_rdata_cmp x y = Lt -> x <> y.
Proof. intros Hlt ->. rewrite knot_rdata_cmp_refl in Hlt. discriminate. Qed.

Lemma knot_rdata_cmp_lt_asym x y :
  knot_rdata_cmp x y = Lt -> knot_rdata_cmp y x = Lt -> False.
Proof.
  intros H1 H2. pose proof (knot_rdata_cmp_lt_trans _ _ _ H1 H2) as H3.
  rewrite knot_rdata_cmp_refl in H3. discriminate.
Qed.

Lemma In_knot_rdataset_add rrs y x :
  In x (knot_rdataset_add rrs y) <-> In x rrs \/ x = y.
Proof.
  induction rrs as [|h t IH]; simpl.
  - intuition auto.
  - destruct (knot_rdata_cmp h y) eqn:Hc; simpl.
    + apply knot_rdata_cmp_eq in Hc. subst. intuition auto.
    + rewrite IH. intuition auto.
    + intuition auto.
Qed.

Lemma In_knot_rdataset_merge m : forall rrs x,
  In x (knot_rdataset_merge rrs m) <-> In x rrs \/ In x m.
Proof.
  unfold knot_rdataset_merge. induction m as [|y m IH]; intros rrs x; simpl.
  - intuition auto.
  - rewrite IH, In_knot_rdataset_add. intuition auto.
Qed.

Lemma rdataset_strict_add rrs y :
  rdataset_strict rrs -> rdataset_strict (knot_rdataset_add rrs y).
Proof.
  induction rrs as [|h t IH]; simpl.
  - intros _. split; [constructor|exact I].
  - intros [Hh Ht]. destruct (knot_rdata_cmp h y) eqn:Hc; simpl.
    + auto.
    + split; [|auto]. rewrite Forall_forall in *. intros x Hx.
      apply In_knot_rdataset_add in Hx. destruct Hx as [Hx| ->]; auto.
    + pose proof (knot_rdata_cmp_gt_lt _ _ Hc) as Hyh.
      split; [|split; assumption]. constructor; [exact Hyh|].
      rewrite Forall_forall in *. intros x Hx.
      eapply knot_rdata_cmp_lt_trans; [exact Hyh|auto].
Qed.

Lemma rdataset_strict_merge m : forall rrs,
  rdataset_strict rrs -> rdataset_strict (knot_rdataset_merge rrs m).
Proof.
  unfold knot_rdataset_merge. induction m as [|y m IH]; intros rrs Hs; simpl; [exact Hs|].
  apply IH. apply rdataset_strict_add. exact Hs.
Qed.

(** Two rdatasets in increasing order with the same rdata are the same. *)
Lemma rdataset_strict_ext l1 : forall l2,
  rdataset_strict l1 -> rdataset_strict l2 ->
  (forall x, In x l1 <-> In x l2) -> l1 = l2.
Proof.
  induction l1 as [|h1 t1 IH]; intros [|h2 t2] H1 H2 Hin.
  - reflexivity.
  - exfalso. apply (proj2 (Hin h2)). left; reflexivity.
  - exfalso. apply (proj1 (Hin h1)). left; reflexivity.
  - simpl in H1, H2. destruct H1 as [Hh1 Ht1], H2 as [Hh2 Ht2].
    rewrite Forall_forall in Hh1, Hh2.
    assert (Eh : h1 = h2).
    { destruct (proj1 (Hin h1) (or_introl eq_refl)) as [E|E1]; [auto|].
      destruct (proj2 (Hin h2) (or_introl eq_refl)) as [E|E2]; [auto|].
      exfalso. eapply knot_rdata_cmp_lt_asym; [apply Hh1; exact E2|apply Hh2; exact E1]. }
    subst h2. f_equal. apply IH; try assumption.
    intros x. split; intros Hx.
    + destruct (proj1 (Hin x) (or_intror Hx)) as [E|E]; [|exact E].
      subst x. exfalso. eapply knot_rdata_cmp_lt_neq; [apply Hh1; exact Hx|reflexivity].
    + destruct (proj2 (Hin x) (or_intror Hx)) as [E|E]; [|exact E].
      subst x. exfalso. eapply knot_rdata_cmp_lt_neq; [apply Hh2; exact Hx|reflexivity].
Qed.

(** The aggregate, once started, merges the rdata of every later DS record. *)
Lemma update_ds_loop_started sec : forall ds,
  update_ds_loop (Some ds) sec
  = Some (mk_rrset (rr_owner ds) (rr_type ds)
                   (knot_rdataset_merge (rr_rrs ds) (ds_rdata sec))).
Proof.
  unfold ds_rdata, knot_rdataset_merge.
  induction sec as [|rr rest IH]; intros ds; simpl.
  - destruct ds; reflexivity.
  - destruct (rr_type rr =? KNOT_RRTYPE_DS); simpl; [|apply IH].
    rewrite IH. simpl. rewrite fold_left_app. reflexivity.
Qed.

Lemma update_ds_loop_none sec :
  section_has_type sec KNOT_RRTYPE_DS = false -> update_ds_loop None sec = None.
Proof.
  induction sec as [|rr rest IH]; simpl; [reflexivity|].
  destruct (rr_type rr =? KNOT_RRTYPE_DS); [discriminate|exact IH].
Qed.

Lemma update_ds_loop_first l1 : forall rr l2,
  section_has_type l1 KNOT_RRTYPE_DS = false ->
  rr_type rr = KNOT_RRTYPE_DS ->
  update_ds_loop None (l1 ++ rr :: l2)
  = Some (mk_rrset (rr_owner rr) (rr_type rr)
                   (knot_rdataset_merge (rr_rrs rr) (ds_rdata l2))).
Proof.
  induction l1 as [|x l1 IH]; intros rr l2 Hno Hds; simpl in *.
  - assert (E : (rr_type rr =? KNOT_RRTYPE_DS) = true) by (apply Z.eqb_eq; exact Hds).
    rewrite E. simpl. apply update_ds_loop_started.
  - destruct (rr_type x =? KNOT_RRTYPE_DS); [discriminate|]. simpl. apply IH; assumption.
Qed.

(** X8.  update_ds returns NULL exactly when the section holds no DS
    record.  Otherwise the aggregate has the owner of the first DS record
    of the section, whatever the owners of the later ones, and holds the
    rdata of the first DS record and of every later DS record. *)
Theorem update_ds_aggregate cut sec :
  (update_ds cut sec = None <-> section_has_type sec KNOT_RRTYPE_DS = false)
  /\ forall l1 rr l2,
       sec = l1 ++ rr :: l2 ->
       section_has_type l1 KNOT_RRTYPE_DS = false ->
       rr_type rr = KNOT_RRTYPE_DS ->
       exists ds,
         update_ds cut sec = Some ds
         /\ rr_owner ds = rr_owner rr
         /\ rr_type ds = KNOT_RRTYPE_DS
         /\ forall x, In x (rr_rrs ds) <-> In x (rr_rrs rr) \/ In x (ds_rdata l2).
Proof.
  assert (Hfirst : forall l1 rr l2,
            sec = l1 ++ rr :: l2 ->
            section_has_type l1 KNOT_RRTYPE_DS = false ->
            rr_type rr = KNOT_RRTYPE_DS ->
            exists ds,
              update_ds cut sec = Some ds
              /\ rr_owner ds = rr_owner rr
              /\ rr_type ds = KNOT_RRTYPE_DS
              /\ forall x, In x (rr_rrs ds) <-> In x (rr_rrs rr) \/ In x (ds_rdata l2)).
  { intros l1 rr l2 -> Hno Hds. unfold update_ds.
    rewrite (update_ds_loop_first l1 rr l2 Hno Hds).
    eexists. split; [reflexivity|]. simpl. split; [reflexivity|]. split; [exact Hds|].
    intros x. apply In_knot_rdataset_merge. }
  split; [|exact Hfirst].
  split.
  - intros Hn. destruct (section_has_type sec KNOT_RRTYPE_DS) eqn:Hh; [|reflexivity].
    exfalso. clear Hfirst. unfold update_ds in Hn.
    induction sec as [|x sec IH]; simpl in *; [discriminate|].
    destruct (rr_type x =? KNOT_RRTYPE_DS); simpl in *.
    + rewrite update_ds_loop_started in Hn. discriminate.
    + auto.
  - apply update_ds_loop_none.
Qed.

Lemma update_ds_aggregate_witness :
  exists ds,
    update_ds cut_example (pkt_authority pkt_referral) = None
    /\ update_ds cut_example sec_two_ds = Some ds
    /\ rr_owner ds = name_example_com
    /\ rr_rrs ds = ["digest 1"%string; "digest 2"%string].
Proof.
  destruct (proj2 (update_ds_aggregate cut_example sec_two_ds)
              [] rr_ds1 [rr_ns_example; rr_ds2] eq_refl eq_refl eq_refl)
    as [ds [Hu [Ho _]]].
  exists ds. split; [reflexivity|]. split; [exact Hu|]. split; [exact Ho|].
  vm_compute in Hu. inversion Hu. reflexivity.
Defined.

Lemma In_ds_rdata sec x :
  In x (ds_rdata sec)
  <-> exists rr, In rr sec /\ rr_type rr = KNOT_RRTYPE_DS /\ In x (rr_rrs rr).
Proof.
  unfold ds_rdata. rewrite in_flat_map. split.
  - intros [rr [Hf Hx]]. apply filter_In in Hf. destruct Hf as [Hin Ht].
    apply Z.eqb_eq in Ht. eauto.
  - intros [rr [Hin [Ht Hx]]]. exists rr. split; [|exact Hx].
    apply filter_In. split; [exact Hin|]. apply Z.eqb_eq; exact Ht.
Qed.

Lemma first_ds_split sec :
  section_has_type sec KNOT_RRTYPE_DS = true ->
  exists l1 rr l2,
    sec = l1 ++ rr :: l2
    /\ section_has_type l1 KNOT_RRTYPE_DS = false
    /\ rr_type rr = KNOT_RRTYPE_DS.
Proof.
  induction sec as [|x sec IH]; simpl; [discriminate|].
  destruct (Z.eqb_spec (rr_type x) KNOT_RRTYPE_DS) as [E|E].
  - intros _. exists [], x, sec. auto.
  - intros Hh. destruct (IH Hh) as [l1 [rr [l2 [-> [Hno Hds]]]]].
    exists (x :: l1), rr, l2. simpl.
    apply Z.eqb_neq in E. rewrite E. auto.
Qed.

(** The rdata of the aggregate are the rdata of all DS records. *)
Lemma update_ds_rdata cut sec l1 rr l2 :
  sec = l1 ++ rr :: l2 ->
  section_has_type l1 KNOT_RRTYPE_DS = false ->
  rr_type rr = KNOT_RRTYPE_DS ->
  update_ds cut sec
  = Some (mk_rrset (rr_owner rr) KNOT_RRTYPE_DS
                   (knot_rdataset_merge (rr_rrs rr) (ds_rdata l2)))
  /\ forall x, In x (knot_rdataset_merge (rr_rrs rr) (ds_rdata l2)) <-> In x (ds_rdata sec).
Proof.
  intros -> Hno Hds. split.
  - unfold update_ds. rewrite (update_ds_loop_first l1 rr l2 Hno Hds), Hds. reflexivity.
  - intros x. rewrite In_knot_rdataset_merge, !In_ds_rdata. split.
    + intros [Hx|[r [Hin [Ht Hx]]]].
      * exists rr. split; [apply in_or_app; right; left; reflexivity|auto].
      * exists r. split; [apply in_or_app; right; right; exact Hin|auto].
    + intros [r [Hin [Ht Hx]]]. apply in_app_or in Hin.
      destruct Hin as [Hin|[->|Hin]]; [|auto|right; eauto].
      exfalso. assert (Hh : section_has_type l1 KNOT_RRTYPE_DS = true)
        by (apply section_has_type_iff; eauto). congruence.
Qed.

(** X9.  Aggregating DS records does not depend on their order: for two
    sections that hold the same records in any order, whose DS records have
    one owner and rdatasets in increasing order, update_ds yields the same
    RRset. *)
Theorem update_ds_order_independent cut cut' sec sec' owner :
  Permutation sec sec' ->
  (forall rr, In rr sec -> rr_type rr = KNOT_RRTYPE_DS ->
              rr_owner rr = owner /\ rdataset_strict (rr_rrs rr)) ->
  update_ds cut sec = update_ds cut' sec'.
Proof.
  intros Hperm Hds.
  assert (Hds' : forall rr, In rr sec' -> rr_type rr = KNOT_RRTYPE_DS ->
                            rr_owner rr = owner /\ rdataset_strict (rr_rrs rr)).
  { intros rr Hin. apply Hds. eapply Permutation_in; [apply Permutation_sym|]; eassumption. }
  assert (Hsame : forall x, In x (ds_rdata sec) <-> In x (ds_rdata sec')).
  { intros x. rewrite !In_ds_rdata. split; intros [rr [Hin Hr]]; exists rr; split; auto.
    - eapply Permutation_in; eassumption.
    - eapply Permutation_in; [apply Permutation_sym|]; eassumption. }
  destruct (section_has_type sec KNOT_RRTYPE_DS) eqn:Hh.
  - destruct (first_ds_split sec Hh) as [l1 [rr [l2 [Hs [Hno Ht]]]]].
    assert (Hh' : section_has_type sec' KNOT_RRTYPE_DS = true).
    { apply section_has_type_iff. exists rr. split; [|exact Ht].
      eapply Permutation_in; [exact Hperm|]. rewrite Hs. apply in_or_app.
      right; left; reflexivity. }
    destruct (first_ds_split sec' Hh') as [l1' [rr' [l2' [Hs' [Hno' Ht']]]]].
    destruct (update_ds_rdata cut sec l1 rr l2 Hs Hno Ht) as [Hu Hx].
    destruct (update_ds_rdata cut' sec' l1' rr' l2' Hs' Hno' Ht') as [Hu' Hx'].
    destruct (Hds rr) as [Ho Hst]; [rewrite Hs; apply in_or_app; right; left; reflexivity
                                   |exact Ht|].
    destruct (Hds' rr') as [Ho' Hst']; [rewrite Hs'; apply in_or_app; right; left; reflexivity
                                       |exact Ht'|].
    rewrite Hu, Hu', Ho, Ho'. do 2 f_equal.
    apply rdataset_strict_ext; try (apply rdataset_strict_merge; assumption).
    intros x. rewrite Hx, Hx'. apply Hsame.
  - assert (Hh' : section_has_type sec' KNOT_RRTYPE_DS = false).
    { destruct (section_has_type sec' KNOT_RRTYPE_DS) eqn:Hh'; [|reflexivity].
      apply section_has_type_iff in Hh'. destruct Hh' as [rr [Hin Ht]].
      assert (section_has_type sec KNOT_RRTYPE_DS = true).
      { apply section_has_type_iff. exists rr. split; [|exact Ht].
        eapply Permutation_in; [apply Permutation_sym; exact Hperm|exact Hin]. }
      congruence. }
    unfold update_ds. rewrite !update_ds_loop_none by assumption. reflexivity.
Qed.

Lemma update_ds_order_independent_witness :
  Permutation sec_two_ds sec_two_ds_swapped
  /\ update_ds cut_example sec_two_ds = update_ds cut_without_key sec_two_ds_swapped.
Proof.
  assert (Hp : Permutation sec_two_ds sec_two_ds_swapped).
  { unfold sec_two_ds, sec_two_ds_swapped.
    apply Permutation_trans with (l' := [rr_ds1; rr_ds2; rr_ns_example]).
    - apply perm_skip. apply perm_swap.
    - apply perm_swap. }
  split; [exact Hp|].
  apply (update_ds_order_independent cut_example cut_without_key
           sec_two_ds sec_two_ds_swapped name_example_com Hp).
  intros rr [<-|[<-|[<-|[]]]] Ht; try discriminate Ht;
    (split; [reflexivity | simpl; split; [constructor | exact I]]).
Defined.

(** *** The delegation update, with and without DS *)

(** X10.  A response that is neither a referral nor an authoritative answer
    to a DS question leaves the query as it is.  When the inspected section
    of a referral, or of an answer to a DS question, holds DS records, their
    aggregate becomes the trust anchor of the cut and 0 is returned: no
    denial routine decides, the flags and the rest of the cut stay. *)
Theorem update_delegation_with_ds `{Dnssec} qry pkt has_nsec3 :
  (pkt_aa pkt = true -> pkt_qtype pkt <> KNOT_RRTYPE_DS ->
   update_delegation qry pkt has_nsec3 = (kr_ok, qry))
  /\ (forall ds,
        pkt_aa pkt = false \/ pkt_qtype pkt = KNOT_RRTYPE_DS ->
        update_ds (qry_zone_cut qry) (knot_pkt_section pkt (delegation_section pkt)) = Some ds ->
        update_delegation qry pkt has_nsec3
        = (0, qry_set_zone_cut qry (cut_set_trust_anchor (qry_zone_cut qry) (Some ds)))).
Proof.
  unfold update_delegation, delegation_section. split.
  - intros Haa Hq. rewrite Haa. apply Z.eqb_neq in Hq. rewrite Hq. reflexivity.
  - intros ds Hsec Hds. destruct (pkt_aa pkt); simpl negb in *; cbv iota in *.
    + destruct Hsec as [Hsec|Hsec]; [discriminate|]. rewrite Hsec. simpl Z.eqb. cbv iota.
      rewrite Hds. reflexivity.
    + rewrite Hds. reflexivity.
Qed.

Lemma update_delegation_with_ds_witness :
  exists ds,
    update_ds (qry_zone_cut (current_query req_referral))
              (knot_pkt_section pkt_referral_ds (delegation_section pkt_referral_ds))
      = Some ds
    /\ update_delegation (D:=optout_dnssec) (current_query req_referral) pkt_referral_ds false
       = (0, qry_set_zone_cut (current_query req_referral)
               (cut_set_trust_anchor (qry_zone_cut (current_query req_referral)) (Some ds)))
    /\ update_delegation (D:=optout_dnssec) (current_query req_referral) pkt_a_with_do false
       = (kr_ok, current_query req_referral).
Proof.
  eexists. split; [reflexivity|]. split.
  - apply (proj2 (update_delegation_with_ds (H:=optout_dnssec)
                    (current_query req_referral) pkt_referral_ds false)).
    + left; reflexivity.
    + reflexivity.
  - apply (proj1 (update_delegation_with_ds (H:=optout_dnssec)
                    (current_query req_referral) pkt_a_with_do false)).
    + reflexivity.
    + discriminate.
Defined.

(** X11.  Without DS, it is the kind of denial in the response that decides
    what "not found" means: with NSEC3 in the response a proof that returns
    NOT_FOUND is an opt-out, 0 is returned and the query goes insecure;
    without NSEC3 the same code from the NSEC routine is an error, it is
    returned and the query is marked bogus. *)
Theorem update_delegation_not_found `{Dnssec} qry pkt has_nsec3 :
  pkt_aa pkt = false \/ pkt_qtype pkt = KNOT_RRTYPE_DS ->
  update_ds (qry_zone_cut qry) (knot_pkt_section pkt (delegation_section pkt)) = None ->
  (has_nsec3 = true ->
   ds_denial_nsec3 pkt = kr_error DNSSEC_NOT_FOUND ->
   update_delegation qry pkt has_nsec3 = (0, qry_go_insecure qry))
  /\ (has_nsec3 = false ->
      ds_denial_nsec pkt = kr_error DNSSEC_NOT_FOUND ->
      update_delegation qry pkt has_nsec3
      = (kr_error DNSSEC_NOT_FOUND,
         qry_set_flags qry (set_flag (qry_flags qry) QUERY_DNSSEC_BOGUS))).
Proof.
  intros Hsec Hds.
  assert (Hgo : update_delegation qry pkt has_nsec3
                = let ret := if negb has_nsec3 then ds_denial_nsec pkt
                             else if ds_denial_nsec3 pkt =? kr_error DNSSEC_NOT_FOUND
                                  then 0 else ds_denial_nsec3 pkt in
                  if negb (ret =? 0)
                  then (ret, qry_set_flags qry (set_flag (qry_flags qry) QUERY_DNSSEC_BOGUS))
                  else (ret, qry_go_insecure qry)).
  { unfold update_delegation, delegation_section, ds_denial_nsec, ds_denial_nsec3 in *.
    destruct (pkt_aa pkt); simpl negb in *; cbv iota in *.
    - destruct Hsec as [Hsec|Hsec]; [discriminate|]. rewrite Hsec. simpl Z.eqb. cbv iota.
      rewrite Hds. reflexivity.
    - rewrite Hds. reflexivity. }
  rewrite Hgo. split; intros -> ->; reflexivity.
Qed.

Lemma update_delegation_not_found_witness :
  update_delegation (D:=optout_dnssec) (current_query req_referral) pkt_referral true
  = (0, qry_go_insecure (current_query req_referral))
  /\ has_flag (qry_flags (qry_go_insecure (current_query req_referral)))
       QUERY_DNSSEC_INSECURE = true.
Proof.
  split; [|reflexivity].
  apply (proj1 (update_delegation_not_found (H:=optout_dnssec)
                  (current_query req_referral) pkt_referral true
                  (or_introl eq_refl) eq_refl)); reflexivity.
Defined.

(** *** Handing keys to the parent query *)

(** X12.  update_parent_keys changes the parent query only.  For a DNSKEY
    answer the key set of the cut becomes the parent's; for a DS answer of
    an insecure query the parent loses WANT and gains INSECURE and its cut
    stays, otherwise the trust anchor becomes the parent's; for any other
    type nothing changes.  It returns KNOT_STATE_FAIL exactly when there
    was no key set, or no trust anchor, to hand over, and 0 otherwise. *)
Theorem update_parent_keys_effect qry answer_type parent :
  qry_parent qry = Some parent ->
  exists ret parent',
    update_parent_keys qry answer_type = Some (ret, qry_set_parent qry (Some parent'))
    /\ (ret = KNOT_STATE_FAIL
        <-> (answer_type = KNOT_RRTYPE_DNSKEY /\ cut_key (qry_zone_cut qry) = None)
            \/ (answer_type = KNOT_RRTYPE_DS
                /\ has_flag (qry_flags qry) QUERY_DNSSEC_INSECURE = false
                /\ cut_trust_anchor (qry_zone_cut qry) = None))
    /\ (ret <> KNOT_STATE_FAIL -> ret = kr_ok)
    /\ parent' =
         if answer_type =? KNOT_RRTYPE_DNSKEY then
           qry_set_zone_cut parent
             (cut_set_key (qry_zone_cut parent) (cut_key (qry_zone_cut qry)))
         else if answer_type =? KNOT_RRTYPE_DS then
           if has_flag (qry_flags qry) QUERY_DNSSEC_INSECURE then qry_go_insecure parent
           else qry_set_zone_cut parent
                  (cut_set_trust_anchor (qry_zone_cut parent)
                                        (cut_trust_anchor (qry_zone_cut qry)))
         else parent.
Proof.
  intros Hp. unfold update_parent_keys. rewrite Hp.
  assert (Hq : qry_set_parent qry (Some parent) = qry)
    by (destruct qry as [a b c d e f g]; simpl in Hp; subst e; reflexivity).
  destruct (Z.eqb_spec answer_type KNOT_RRTYPE_DNSKEY) as [Ek|Ek].
  { subst answer_type. unfold knot_rrset_copy_ptr, knot_rrset_copy.
    destruct (cut_key (qry_zone_cut qry)) as [k|] eqn:Hk; simpl;
      do 2 eexists; (split; [reflexivity|]); (split; [|split; [|reflexivity]]).
    - split; [discriminate|]. intros [[_ E]|[E _]]; discriminate E.
    - intros _. reflexivity.
    - split; [auto|reflexivity].
    - intros Hne. contradiction. }
  destruct (Z.eqb_spec answer_type KNOT_RRTYPE_DS) as [Ed|Ed].
  { subst answer_type.
    destruct (has_flag (qry_flags qry) QUERY_DNSSEC_INSECURE) eqn:Hi.
    - do 2 eexists. split; [reflexivity|]. split; [|split; [reflexivity|reflexivity]].
      split; [discriminate|]. intros [[E _]|[_ [E _]]]; discriminate E.
    - unfold knot_rrset_copy_ptr, knot_rrset_copy.
      destruct (cut_trust_anchor (qry_zone_cut qry)) as [ta|] eqn:Hta; simpl;
        do 2 eexists; (split; [reflexivity|]); (split; [|split; [|reflexivity]]).
      + split; [discriminate|]. intros [[E _]|[_ [_ E]]]; discriminate E.
      + intros _. reflexivity.
      + split; [auto|reflexivity].
      + intros Hne. contradiction. }
  exists kr_ok, parent. rewrite Hq. split; [reflexivity|].
  split; [|split; [reflexivity|reflexivity]].
  split; [discriminate|]. intros [[E _]|[E _]]; contradiction.
Qed.

Lemma update_parent_keys_effect_witness :
  exists ret parent',
    update_parent_keys qry_sub_dnskey KNOT_RRTYPE_DNSKEY
      = Some (ret, qry_set_parent qry_sub_dnskey (Some parent'))
    /\ ret <> KNOT_STATE_FAIL
    /\ cut_key (qry_zone_cut parent') = Some rr_key_example.
Proof.
  destruct (update_parent_keys_effect qry_sub_dnskey KNOT_RRTYPE_DNSKEY _ eq_refl)
    as [ret [parent' [Hu [Hf [_ Hp]]]]].
  exists ret, parent'. split; [exact Hu|]. split.
  - intros E. apply Hf in E. destruct E as [[_ E]|[E _]]; discriminate E.
  - rewrite Hp. reflexivity.
Defined.

(** *** The signature authority *)

Lemma find_first_signer_none arr :
  existsb fresh_rrsig arr = false <-> find_first_signer arr = None.
Proof.
  induction arr as [|e rest IH]; simpl; [tauto|].
  unfold fresh_rrsig at 1.
  destruct (entry_yielded e || negb (rank_eqb (entry_rank e) KR_VLDRANK_INITIAL)); simpl;
    [exact IH|].
  destruct (rr_type (entry_rr e) =? KNOT_RRTYPE_RRSIG); simpl; [|exact IH].
  split; discriminate.
Qed.

Lemma find_first_signer_first l1 : forall e l2,
  existsb fresh_rrsig l1 = false ->
  fresh_rrsig e = true ->
  find_first_signer (l1 ++ e :: l2)
  = Some (knot_rrsig_signer_name (rr_rrs (entry_rr e)) 0).
Proof.
  induction l1 as [|x l1 IH]; intros e l2 Hno He; simpl in *.
  - unfold fresh_rrsig in He.
    destruct (entry_yielded e || negb (rank_eqb (entry_rank e) KR_VLDRANK_INITIAL));
      simpl in He; [discriminate|].
    rewrite He. reflexivity.
  - apply orb_false_iff in Hno. destruct Hno as [Hx Hno]. unfold fresh_rrsig in Hx.
    destruct (entry_yielded x || negb (rank_eqb (entry_rank x) KR_VLDRANK_INITIAL));
      simpl in Hx; [apply IH; assumption|].
    rewrite Hx. apply IH; assumption.
Qed.

Lemma find_first_signer_app a b :
  find_first_signer (a ++ b)
  = match find_first_signer a with
    | Some s => Some s
    | None => find_first_signer b
    end.
Proof.
  induction a as [|e a IH]; simpl; [reflexivity|].
  destruct (entry_yielded e || negb (rank_eqb (entry_rank e) KR_VLDRANK_INITIAL));
    [exact IH|].
  destruct (rr_type (entry_rr e) =? KNOT_RRTYPE_RRSIG); [reflexivity|exact IH].
Qed.

(** X13.  The signature authority is the signer of the first fresh RRSIG
    (not yielded, rank INITIAL) of the answer records followed by the
    authority records; it is absent exactly when there is no fresh RRSIG in
    either array.  Records that are ranked already do not count. *)
Theorem signature_authority_first req :
  (signature_authority req = None
   <-> existsb fresh_rrsig (answ_selected req ++ auth_selected req) = false)
  /\ forall l1 e l2,
       answ_selected req ++ auth_selected req = l1 ++ e :: l2 ->
       existsb fresh_rrsig l1 = false ->
       fresh_rrsig e = true ->
       signature_authority req = Some (knot_rrsig_signer_name (rr_rrs (entry_rr e)) 0).
Proof.
  assert (Hsa : signature_authority req
                = find_first_signer (answ_selected req ++ auth_selected req)).
  { unfold signature_authority. rewrite find_first_signer_app.
    destruct (find_first_signer (answ_selected req)); reflexivity. }
  rewrite Hsa. split.
  - symmetry. apply find_first_signer_none.
  - intros l1 e l2 -> Hno He. apply find_first_signer_first; assumption.
Qed.

Lemma signature_authority_first_witness :
  signature_authority (req_signed_by rr_sig_www) = Some name_www_example_com.
Proof.
  apply (proj2 (signature_authority_first (req_signed_by rr_sig_www))
           [entry_of KR_VLDRANK_SECURE rr_sig_example;
            entry_of KR_VLDRANK_INITIAL rr_key_example]
           (entry_of KR_VLDRANK_INITIAL rr_sig_www) []);
    reflexivity.
Defined.

(** *** The signer check *)

(** X14.  check_signer returns DONE when the cut has no trust anchor or the
    signature authority is the owner of the trust anchor, FAIL when the
    layer has yielded before, and YIELD otherwise.  With DONE and with FAIL
    the request is not touched (FAIL does not mark the query bogus); in
    every case the selected records stay and the only flag it can set is
    AWAIT_CUT. *)
Theorem check_signer_verdict state req :
  fst (check_signer state req)
  = (if signer_settled req then KNOT_STATE_DONE
     else if state =? KNOT_STATE_YIELD then KNOT_STATE_FAIL else KNOT_STATE_YIELD)
  /\ (signer_settled req = true \/ state = KNOT_STATE_YIELD ->
      snd (check_signer state req) = req)
  /\ answ_selected (snd (check_signer state req)) = answ_selected req
  /\ auth_selected (snd (check_signer state req)) = auth_selected req
  /\ (req_flags (snd (check_signer state req)) = req_flags req
      \/ req_flags (snd (check_signer state req))
         = set_flag (req_flags req) QUERY_AWAIT_CUT).
Proof.
  unfold check_signer, signer_settled.
  assert (Hcase : forall (P : Prop) (v st : Z) (r : kr_request),
            (P -> r = req) ->
            answ_selected r = answ_selected req ->
            auth_selected r = auth_selected req ->
            (req_flags r = req_flags req
             \/ req_flags r = set_flag (req_flags req) QUERY_AWAIT_CUT) ->
            st = v ->
            fst (st, r) = v
            /\ (P -> snd (st, r) = req)
            /\ answ_selected (snd (st, r)) = answ_selected req
            /\ auth_selected (snd (st, r)) = auth_selected req
            /\ (req_flags (snd (st, r)) = req_flags req
                \/ req_flags (snd (st, r)) = set_flag (req_flags req) QUERY_AWAIT_CUT)).
  { intros; simpl; auto. }
  assert (Hno : forall r : kr_request,
            state <> KNOT_STATE_YIELD -> false = true \/ state = KNOT_STATE_YIELD -> r = req).
  { intros r E [H|H]; [discriminate H|contradiction]. }
  destruct (option_map rr_owner _) as [ta|]; destruct (signature_authority req) as [s|];
    simpl negb; cbv iota.
  - destruct (knot_dname_is_equal ta s); simpl negb; cbv iota; [apply Hcase; auto|].
    destruct (Z.eqb_spec state KNOT_STATE_YIELD) as [E|E]; [apply Hcase; auto|].
    destruct (knot_dname_is_sub s _); [apply Hcase; auto|].
    destruct (negb (knot_dname_is_equal s _)); [|apply Hcase; auto].
    destruct (cut_parent _); apply Hcase; auto.
  - destruct (Z.eqb_spec state KNOT_STATE_YIELD) as [E|E]; apply Hcase; auto.
  - apply Hcase; auto.
  - apply Hcase; auto.
Qed.

(** X15.  When check_signer yields and there is a signature authority, the
    cut is left at the signer's name.  For a signer strictly below the cut
    only the name of the cut changes (keys, trust anchor and parent stay,
    AWAIT_CUT is not set); for a signer neither below nor at the cut, the
    cut becomes the parent cut renamed, or, without a parent, AWAIT_CUT is
    set. *)
Theorem check_signer_yield state req req' signer :
  check_signer state req = (KNOT_STATE_YIELD, req') ->
  signature_authority req = Some signer ->
  let cut := qry_zone_cut (current_query req) in
  cut_name (qry_zone_cut (current_query req')) = signer
  /\ (knot_dname_is_sub signer (cut_name cut) = true ->
      req' = req_set_cut req (cut_set_name cut signer))
  /\ (knot_dname_is_sub signer (cut_name cut) = false ->
      knot_dname_is_equal signer (cut_name cut) = false ->
      match cut_parent cut with
      | Some parent => req' = req_set_cut req (cut_set_name parent signer)
      | None => req' = req_set_cut (req_set_flag req QUERY_AWAIT_CUT)
                                   (cut_set_name cut signer)
      end).
Proof.
  intros Hc Hs cut. unfold check_signer in Hc. rewrite Hs in Hc. fold cut in Hc.
  destruct (option_map rr_owner (cut_trust_anchor cut)) as [ta|]; [|discriminate].
  destruct (negb (knot_dname_is_equal ta signer)); [|discriminate].
  destruct (state =? KNOT_STATE_YIELD); [discriminate|].
  destruct (knot_dname_is_sub signer (cut_name cut)) eqn:Hsub.
  { inversion Hc; subst. simpl. repeat split; auto. discriminate. }
  destruct (knot_dname_is_equal signer (cut_name cut)) eqn:Heq; simpl in Hc.
  { inversion Hc; subst. apply knot_dname_is_equal_iff in Heq.
    repeat split; auto; discriminate. }
  destruct (cut_parent cut); inversion Hc; subst; simpl; repeat split; auto; discriminate.
Qed.

Lemma check_signer_yield_witness :
  exists req',
    check_signer KNOT_STATE_DONE (req_signed_by rr_sig_www) = (KNOT_STATE_YIELD, req')
    /\ cut_name (qry_zone_cut (current_query req')) = name_www_example_com
    /\ has_flag (req_flags req') QUERY_AWAIT_CUT = false.
Proof.
  assert (Hc : check_signer KNOT_STATE_DONE (req_signed_by rr_sig_www)
               = (KNOT_STATE_YIELD, _)) by (vm_compute; reflexivity).
  destruct (check_signer_yield KNOT_STATE_DONE (req_signed_by rr_sig_www) _
              name_www_example_com Hc eq_refl) as [Hn [Hsub _]].
  eexists. split; [exact Hc|]. split; [exact Hn|]. reflexivity.
Defined.

(** *** Descending one label *)

Lemma knot_dname_is_sub_inv sub domain :
  knot_dname_is_sub sub domain = true ->
  (List.length domain < List.length sub)%nat
  /\ skipn (List.length sub - List.length domain) sub = domain.
Proof.
  unfold knot_dname_is_sub, knot_dname_align.
  destruct (Nat.leb_spec (List.length sub) (List.length domain)); [discriminate|].
  replace (List.length domain - List.length sub)%nat with 0%nat by lia. simpl skipn.
  intros He. apply knot_dname_is_equal_iff in He. auto.
Qed.

Lemma matched_chain_same d : forall m, matched_chain d d m = m + Z.of_nat (List.length d).
Proof.
  induction d as [|l t IH]; intros m; simpl; [lia|].
  unfold label_is_equal. rewrite String.eqb_refl, IH. lia.
Qed.

Lemma skipn_cons {A} (j : nat) : forall (l : list A),
  (j < List.length l)%nat -> exists x, skipn j l = x :: skipn (S j) l.
Proof.
  induction j as [|j IH]; intros [|a l] Hj; simpl in *; try lia.
  - exists a. reflexivity.
  - apply IH. lia.
Qed.

(** X16.  For an insecure record whose owner is strictly below the current
    cut (and a layer that has not yielded before), the missing-RRSIG
    handler descends by exactly one label: the new cut is the child of the
    current cut on the way to the owner, it inherits key set and trust
    anchor, the old cut becomes its parent, AWAIT_CUT is set and YIELD is
    returned. *)
Theorem rrsig_not_found_descends state req rr :
  let cut := qry_zone_cut (current_query req) in
  knot_dname_is_sub (rr_owner rr) (cut_name cut) = true ->
  state <> KNOT_STATE_YIELD ->
  exists label above,
    rr_owner rr = above ++ label :: cut_name cut
    /\ rrsig_not_found state req rr
       = Some (KNOT_STATE_YIELD,
               req_set_flag
                 (req_set_cut req
                    (mk_zonecut (label :: cut_name cut) (cut_key cut)
                                (cut_trust_anchor cut) (Some cut)))
                 QUERY_AWAIT_CUT).
Proof.
  intros cut Hsub Hst.
  destruct (knot_dname_is_sub_inv _ _ Hsub) as [Hlen Hsuf].
  set (owner := rr_owner rr) in *. set (dom := cut_name cut) in *.
  set (k := (List.length owner - List.length dom - 1)%nat).
  destruct (skipn_cons k owner) as [label Hk]; [subst k; lia|].
  replace (S k) with (List.length owner - List.length dom)%nat in Hk by (subst k; lia).
  rewrite Hsuf in Hk.
  exists label, (firstn k owner). split.
  { rewrite <- Hk. symmetry. apply firstn_skipn. }
  unfold rrsig_not_found. fold cut. fold owner. fold dom.
  assert (Hne : knot_dname_is_equal owner dom = false).
  { destruct (knot_dname_is_equal owner dom) eqn:E; [|reflexivity].
    apply knot_dname_is_equal_iff in E. rewrite E in Hlen. lia. }
  apply Z.eqb_neq in Hst. rewrite Hne, Hst. simpl orb. cbv iota.
  assert (Hm : knot_dname_matched_labels dom owner = Z.of_nat (List.length dom)).
  { unfold knot_dname_matched_labels, knot_dname_align.
    replace (List.length dom - List.length owner)%nat with 0%nat by lia.
    simpl skipn. rewrite Hsuf. rewrite matched_chain_same. lia. }
  assert (Hskip : skip_leading_labels
                    (knot_dname_labels owner - knot_dname_matched_labels dom owner - 1) owner
                  = Some (label :: dom)).
  { unfold skip_leading_labels, knot_dname_labels. rewrite Hm.
    destruct (Z.ltb_spec (Z.of_nat (List.length owner) - Z.of_nat (List.length dom) - 1) 0);
      [lia|].
    replace (Z.to_nat (Z.of_nat (List.length owner) - Z.of_nat (List.length dom) - 1))
      with k by (subst k; lia).
    rewrite next_labels_skipn by (subst k; lia). rewrite Hk. reflexivity. }
  rewrite Hskip.
  assert (Hs' : knot_dname_is_sub (label :: dom) dom = true).
  { unfold knot_dname_is_sub, knot_dname_align. simpl List.length.
    destruct (Nat.leb_spec (S (List.length dom)) (List.length dom)); [lia|].
    replace (S (List.length dom) - List.length dom)%nat with 1%nat by lia.
    replace (List.length dom - S (List.length dom))%nat with 0%nat by lia.
    simpl. apply knot_dname_is_equal_refl. }
  rewrite Hs'. reflexivity.
Qed.

Lemma rrsig_not_found_descends_witness :
  exists label above,
    rr_owner rr_a_www = above ++ label :: name_example_com
    /\ rrsig_not_found KNOT_STATE_DONE (req_a_example QUERY_DNSSEC_WANT) rr_a_www
       = Some (KNOT_STATE_YIELD,
               req_set_flag
                 (req_set_cut (req_a_example QUERY_DNSSEC_WANT)
                    (mk_zonecut (label :: name_example_com) (Some rr_key_example)
                                None (Some cut_example)))
                 QUERY_AWAIT_CUT).
Proof.
  apply (rrsig_not_found_descends KNOT_STATE_DONE (req_a_example QUERY_DNSSEC_WANT) rr_a_www).
  - reflexivity.
  - discriminate.
Defined.

(** *** What consume keeps *)

Lemma Forall2_same {A} (R : A -> A -> Prop) (l : list A) :
  (forall x, R x x) -> Forall2 R l l.
Proof. intros HR. induction l; constructor; auto. Qed.

Lemma Forall2_compose {A} (R : A -> A -> Prop) :
  (forall x y z, R x y -> R y z -> R x z) ->
  forall l1 l2 l3, Forall2 R l1 l2 -> Forall2 R l2 l3 -> Forall2 R l1 l3.
Proof.
  intros HR l1 l2 l3 H12. revert l3.
  induction H12 as [|x y l1 l2 Hxy _ IH]; intros l3 H23; inversion H23; subst;
    constructor; eauto.
Qed.

Lemma inspected_same_id e e' :
  entry_id e' = entry_id e -> entry_rank e' = entry_rank e -> inspected e' = inspected e.
Proof.
  unfold entry_id, inspected. intros Hid Hr. inversion Hid as [[Hu Hy Hrr]].
  rewrite Hr, Hy. reflexivity.
Qed.

Lemma kept_record_refl e : kept_record e e.
Proof. unfold kept_record; auto. Qed.

Lemma kept_record_trans e1 e2 e3 :
  kept_record e1 e2 -> kept_record e2 e3 -> kept_record e1 e3.
Proof.
  unfold kept_record. intros [Hid1 Hr1] [Hid2 Hr2]. split; [congruence|].
  intros Hi. specialize (Hr1 Hi).
  rewrite <- Hr1. apply Hr2. rewrite (inspected_same_id e1 e2 Hid1 Hr1). exact Hi.
Qed.

Lemma reranked_trans e1 e2 e3 : reranked e1 e2 -> reranked e2 e3 -> reranked e1 e3.
Proof.
  unfold reranked. intros [Hid1 [Hw1 He1]] [Hid2 [Hw2 He2]].
  split; [congruence|]. split; [congruence|].
  intros Hi. specialize (He1 Hi). subst e2. auto.
Qed.

Lemma reranked_kept e e' : reranked e e' -> kept_record e e'.
Proof.
  unfold reranked, kept_record. intros [Hid [_ He]]. split; [exact Hid|].
  intros Hi. rewrite (He Hi). reflexivity.
Qed.

Lemma Forall2_reranked_kept a a' : Forall2 reranked a a' -> Forall2 kept_record a a'.
Proof. induction 1; constructor; auto using reranked_kept. Qed.

Lemma same_question_refl q : same_question q q.
Proof. unfold same_question; auto 10. Qed.

Lemma same_question_trans q1 q2 q3 :
  same_question q1 q2 -> same_question q2 q3 -> same_question q1 q3.
Proof. unfold same_question. intuition congruence. Qed.

Lemma block_kept_refl r st : block_kept r st r.
Proof.
  unfold block_kept.
  auto 10 using Forall2_same, reranked_refl, kept_record_refl, same_question_refl.
Qed.

Lemma block_kept_trans r r1 r2 st :
  block_kept r None r1 -> block_kept r1 st r2 -> block_kept r st r2.
Proof.
  intros [Ha1 [Hu1 [Hq1 [Hb1 Hc1]]]] [Ha2 [Hu2 [Hq2 [Hb2 Hc2]]]].
  split; [eapply Forall2_compose; eauto using reranked_trans|].
  split; [eapply Forall2_compose; eauto using kept_record_trans|].
  split; [eapply same_question_trans; eassumption|].
  split.
  - intros Hst. rewrite (Hb2 Hst). apply Hb1. discriminate.
  - intros Hc. destruct (Hc1 Hc) as [E1 E2].
    assert (Hc' : has_flag (req_flags r1) QUERY_CACHED = true).
    { destruct Hq1 as [_ [_ [_ [_ [Hcc _]]]]]. unfold req_flags in *. congruence. }
    destruct (Hc2 Hc') as [E3 E4]. split; congruence.
Qed.

Lemma flow_kept_and_then state r f k :
  flow_kept state r f ->
  (forall r1, flow_kept state r1 (k r1)) ->
  flow_kept state r (and_then f k).
Proof.
  intros Hf Hk. destruct f as [|st r1|r1]; simpl in *; auto.
  specialize (Hk r1). destruct (k r1) as [|st r2|r2]; simpl in *; auto.
  - destruct Hk as [Hk Hs]. split; [eapply block_kept_trans; eassumption|exact Hs].
  - eapply block_kept_trans; eassumption.
Qed.

(** A part that leaves both arrays alone. *)
Lemma block_kept_query r st r' :
  answ_selected r' = answ_selected r ->
  auth_selected r' = auth_selected r ->
  same_question (current_query r) (current_query r') ->
  (st <> Some KNOT_STATE_FAIL ->
   has_flag (req_flags r') QUERY_DNSSEC_BOGUS = has_flag (req_flags r) QUERY_DNSSEC_BOGUS) ->
  block_kept r st r'.
Proof.
  intros Ha Hu Hq Hb. unfold block_kept. rewrite Ha, Hu.
  auto 10 using Forall2_same, reranked_refl, kept_record_refl.
Qed.

(** Close a leaf of a block: the arrays are untouched, the query differs by
    flags or by its cut. *)
Ltac kept_leaf :=
  apply block_kept_query;
  [ reflexivity
  | reflexivity
  | unfold same_question, req_flags; simpl;
    repeat (split; [reflexivity|]); split; flag_simpl; reflexivity
  | first [ intros _; unfold req_flags; simpl; first [reflexivity | flag_simpl; reflexivity]
          | intros Hne; exfalso; apply Hne; reflexivity ] ].

Ltac states_leaf :=
  unfold layer_states; first [left; reflexivity | right; left; reflexivity
                              | right; right; left; reflexivity
                              | right; right; right; reflexivity ].

Lemma validate_guards_kept state pkt req : flow_kept state req (validate_guards state pkt req).
Proof.
  unfold validate_guards.
  repeat match goal with |- context [if ?c then _ else _] => destruct c end; simpl;
    try (split; [|states_leaf]); try apply block_kept_refl; kept_leaf.
Qed.

Lemma check_signer_kept state req :
  block_kept req (Some (fst (check_signer state req))) (snd (check_signer state req))
  /\ (fst (check_signer state req) = KNOT_STATE_DONE
      \/ fst (check_signer state req) = KNOT_STATE_YIELD
      \/ fst (check_signer state req) = KNOT_STATE_FAIL).
Proof.
  unfold check_signer.
  repeat match goal with
         | |- context [if ?c then _ else _] => destruct c
         | |- context [match ?c with Some _ => _ | None => _ end] => destruct c
         end; simpl; (split; [first [apply block_kept_refl | kept_leaf] | auto]).
Qed.

Lemma validate_keyset_kept `{Dnssec} req pkt has_nsec3 :
  block_kept req None (snd (validate_keyset req pkt has_nsec3)).
Proof.
  unfold validate_keyset.
  destruct (keyset_merge _ _ _) as [cut updated].
  destruct (_ && _).
  - destruct (kr_dnskeys_trusted _ _) as [ret vflags].
    destruct (negb _); [|destruct (has_flag vflags _)]; simpl; kept_leaf.
  - simpl. kept_leaf.
Qed.

Lemma block_kept_any r st r' : block_kept r None r' -> block_kept r st r'.
Proof.
  intros [Ha [Hu [Hq [Hb Hc]]]]. repeat (split; [assumption|]).
  split; [|exact Hc]. intros _. apply Hb. discriminate.
Qed.

Lemma block_kept_weaken r st r' :
  st <> Some KNOT_STATE_FAIL -> block_kept r st r' -> block_kept r None r'.
Proof.
  intros Hst [Ha [Hu [Hq [Hb Hc]]]]. repeat (split; [assumption|]).
  split; [|exact Hc]. intros _. apply Hb. exact Hst.
Qed.

Lemma block_kept_bogus r : block_kept r (Some KNOT_STATE_FAIL) (req_set_flag r QUERY_DNSSEC_BOGUS).
Proof. kept_leaf. Qed.

Lemma validate_dnskey_kept `{Dnssec} state pkt req :
  flow_kept state req (validate_dnskey state pkt req).
Proof.
  unfold validate_dnskey. destruct (_ && _); [|apply block_kept_refl].
  apply flow_kept_and_then.
  - destruct (negb (has_flag _ _)); [|apply block_kept_refl].
    destruct (check_signer_kept state req) as [Hk Hs].
    destruct (check_signer state req) as [ret r1]. simpl in Hk, Hs.
    destruct (Z.eqb_spec ret KNOT_STATE_DONE) as [E|E]; simpl.
    + eapply block_kept_weaken; [|exact Hk]. subst ret. discriminate.
    + split; [exact Hk|]. unfold layer_states. tauto.
  - intros r1. pose proof (validate_keyset_kept r1 pkt (pkt_has_type pkt KNOT_RRTYPE_NSEC3)) as Hk.
    destruct (validate_keyset _ _ _) as [ret r2]. simpl in Hk.
    destruct (ret =? kr_error EAGAIN); simpl.
    { split; [apply block_kept_any; exact Hk|states_leaf]. }
    destruct (negb (ret =? 0)); simpl; [|exact Hk].
    split; [|states_leaf].
    eapply block_kept_trans; [exact Hk|apply block_kept_bogus].
Qed.

Lemma validate_nxdomain_kept `{Dnssec} state pkt req :
  flow_kept state req (validate_nxdomain pkt req).
Proof.
  unfold validate_nxdomain. destruct (_ && _); [|apply block_kept_refl].
  destruct (negb _); simpl; [|apply block_kept_refl].
  split; [apply block_kept_bogus|states_leaf].
Qed.

Lemma validate_nodata_kept `{Dnssec} state pkt req :
  flow_kept state req (validate_nodata pkt req).
Proof.
  unfold validate_nodata.
  repeat match goal with |- context [if ?c then _ else _] => destruct c end; simpl;
    try apply block_kept_refl.
  - kept_leaf.
  - split; [apply block_kept_bogus|states_leaf].
Qed.

Lemma rrsig_not_found_kept state req rr st r :
  rrsig_not_found state req rr = Some (st, r) ->
  block_kept req (Some st) r /\ (st = KNOT_STATE_FAIL \/ st = KNOT_STATE_YIELD).
Proof.
  unfold rrsig_not_found.
  destruct (_ || _); [intros E; inversion E; subst; split; [kept_leaf|auto]|].
  destruct (skip_leading_labels _ _); [|discriminate].
  destruct (knot_dname_is_sub _ _);
    [|destruct (find_ancestor_cut _ _)];
    intros E; inversion E; subst; (split; [kept_leaf|auto]).
Qed.

Lemma check_validation_result_kept state req arr st r :
  check_validation_result state req arr = Some (st, r) ->
  block_kept req (Some st) r
  /\ (st = KNOT_STATE_DONE \/ st = KNOT_STATE_YIELD \/ st = KNOT_STATE_FAIL).
Proof.
  unfold check_validation_result.
  destruct (find_mismatch arr); [intros E; inversion E; subst; split; [kept_leaf|auto]|].
  induction arr as [|e rest IH]; simpl.
  - intros E; inversion E; subst. split; [apply block_kept_refl|auto].
  - destruct (entry_yielded e); [exact IH|].
    destruct (rank_eqb _ KR_VLDRANK_INSECURE).
    { intros E. apply rrsig_not_found_kept in E. destruct E as [Hk [Hs|Hs]]; auto. }
    destruct (negb _); [|exact IH].
    intros E; inversion E; subst. split; [apply block_kept_bogus|auto].
Qed.

Lemma unless_done_kept state req res :
  (forall st r, res = Some (st, r) ->
     block_kept req (Some st) r
     /\ (st = KNOT_STATE_DONE \/ st = KNOT_STATE_YIELD \/ st = KNOT_STATE_FAIL)) ->
  flow_kept state req (unless_done res).
Proof.
  intros Hres. unfold unless_done. destruct res as [[st r]|]; [|exact I].
  destruct (Hres st r eq_refl) as [Hk Hs].
  destruct (Z.eqb_spec st KNOT_STATE_DONE) as [E|E]; simpl.
  - eapply block_kept_weaken; [|exact Hk]. subst st. discriminate.
  - split; [exact Hk|]. unfold layer_states. tauto.
Qed.

Lemma validate_records_kept `{Dnssec} req pkt has_nsec3 ret r :
  has_flag (req_flags req) QUERY_CACHED = false ->
  validate_records req pkt has_nsec3 = Some (ret, r) ->
  block_kept req None r.
Proof.
  intros Hc Hv. apply validate_records_reranked in Hv.
  destruct Hv as [Ha [Hu [Hq _]]].
  split; [exact Ha|]. split; [apply Forall2_reranked_kept; exact Hu|].
  split; [|split].
  - destruct Hq as [-> | ->]; [apply same_question_refl|].
    unfold same_question, req_flags; simpl.
    repeat (split; [reflexivity|]); split; flag_simpl; reflexivity.
  - intros _. unfold req_flags. destruct Hq as [-> | ->]; [reflexivity|].
    simpl. flag_simpl. reflexivity.
  - intros Hc'. congruence.
Qed.

Lemma validate_positive_kept `{Dnssec} state pkt req :
  flow_kept state req (validate_positive state pkt req).
Proof.
  unfold validate_positive.
  destruct (has_flag (req_flags req) QUERY_CACHED) eqn:Hc; simpl negb; cbv iota;
    [apply block_kept_refl|].
  destruct (validate_records _ _ _) as [[ret r0]|] eqn:Hr; [|exact I].
  apply validate_records_kept in Hr; [|exact Hc].
  destruct (ret =? kr_error ENOENT); simpl.
  { split; [apply block_kept_any; exact Hr|states_leaf]. }
  destruct (negb (ret =? 0)); simpl.
  { split; [|states_leaf]. eapply block_kept_trans; [exact Hr|apply block_kept_bogus]. }
  assert (Hgo : flow_kept state r0
            (and_then (unless_done (check_validation_result state r0 (answ_selected r0)))
               (fun req0 => unless_done
                              (check_validation_result state req0 (auth_selected req0))))).
  { apply flow_kept_and_then.
    - apply unless_done_kept. intros st r. apply check_validation_result_kept.
    - intros r1. apply unless_done_kept. intros st r. apply check_validation_result_kept. }
  destruct (and_then _ _) as [|st r2|r2]; simpl in *; auto.
  - destruct Hgo as [Hk Hs]. split; [eapply block_kept_trans; eassumption|exact Hs].
  - eapply block_kept_trans; eassumption.
Qed.

Lemma kr_ranked_rrarray_set_wire_kept arr to_wire uid :
  Forall2 kept_record arr (kr_ranked_rrarray_set_wire arr to_wire uid)
  /\ map entry_rank (kr_ranked_rrarray_set_wire arr to_wire uid) = map entry_rank arr.
Proof.
  unfold kr_ranked_rrarray_set_wire. induction arr as [|e arr [IH1 IH2]]; simpl.
  - split; [constructor|reflexivity].
  - split.
    + constructor; [|exact IH1].
      destruct (entry_qry_uid e =? uid); unfold kept_record, entry_id; simpl; auto.
    + rewrite IH2. destruct (entry_qry_uid e =? uid); reflexivity.
Qed.

Lemma update_delegation_kept `{Dnssec} qry pkt has_nsec3 :
  same_question qry (snd (update_delegation qry pkt has_nsec3))
  /\ (fst (update_delegation qry pkt has_nsec3) = 0 ->
      has_flag (qry_flags (snd (update_delegation qry pkt has_nsec3))) QUERY_DNSSEC_BOGUS
      = has_flag (qry_flags qry) QUERY_DNSSEC_BOGUS).
Proof.
  unfold update_delegation.
  repeat match goal with
         | |- context [if negb (?r =? 0) then _ else _] =>
             destruct (Z.eqb_spec r 0); simpl negb; cbv iota
         | |- context [if ?c then _ else _] => destruct c
         | |- context [match update_ds ?c ?s with Some _ => _ | None => _ end] =>
             destruct (update_ds c s)
         end; simpl;
    (split; [unfold same_question; simpl;
             repeat (split; [reflexivity|]); split; flag_simpl; reflexivity
            |first [intros E; contradiction | intros _; first [reflexivity|flag_simpl; reflexivity]]]).
Qed.

Lemma update_parent_keys_kept qry answer_type ret qry' :
  update_parent_keys qry answer_type = Some (ret, qry') ->
  same_question qry qry' /\ qry_flags qry' = qry_flags qry
  /\ (ret = 0 \/ ret = KNOT_STATE_FAIL).
Proof.
  unfold update_parent_keys. destruct (qry_parent qry); [|discriminate].
  repeat match goal with
         | |- context [if ?c then _ else _] => destruct c
         | |- context [match knot_rrset_copy_ptr ?c with Some _ => _ | None => _ end] =>
             destruct (knot_rrset_copy_ptr c)
         end; intros E; inversion E; subst;
    (split; [first [apply same_question_refl
                   | unfold same_question; simpl; repeat split; reflexivity]
            |split; [reflexivity|first [left; reflexivity | right; reflexivity]]]).
Qed.

Lemma validate_finish_kept `{Dnssec} state pkt req :
  flow_kept state req (validate_finish pkt req).
Proof.
  unfold validate_finish.
  set (req1 := match qry_parent (current_query req) with
               | Some _ => req | None => _ end).
  assert (H1 : answ_selected req1 = answ_selected req
               /\ Forall2 kept_record (auth_selected req) (auth_selected req1)
               /\ map entry_rank (auth_selected req1) = map entry_rank (auth_selected req)
               /\ current_query req1 = current_query req).
  { subst req1. destruct (qry_parent _).
    - auto using Forall2_same, kept_record_refl.
    - destruct (has_flag _ _); simpl.
      + destruct (kr_ranked_rrarray_set_wire_kept (auth_selected req) true
                    (qry_id (current_query req))); auto.
      + auto using Forall2_same, kept_record_refl. }
  clearbody req1. destruct H1 as [Ha [Hu [Hr Hq]]].
  destruct (update_delegation_kept (current_query req) pkt
              (pkt_has_type pkt KNOT_RRTYPE_NSEC3)) as [Hsq Hb].
  destruct (update_delegation _ _ _) as [ret qry]. simpl in Hsq, Hb.
  assert (Hblock : forall st q,
            same_question qry q ->
            (st <> Some KNOT_STATE_FAIL ->
             has_flag (qry_flags q) QUERY_DNSSEC_BOGUS
             = has_flag (qry_flags (current_query req)) QUERY_DNSSEC_BOGUS) ->
            block_kept req st (req_set_query req1 q)).
  { intros st q Hq' Hb'. unfold block_kept. simpl. rewrite Ha.
    split; [apply Forall2_same; apply reranked_refl|].
    split; [exact Hu|].
    split; [eapply same_question_trans; eassumption|].
    split; [exact Hb'|]. intros _. auto. }
  destruct (Z.eqb_spec ret 0) as [E|E]; simpl negb; cbv iota.
  2:{ split; [|states_leaf]. apply Hblock; [apply same_question_refl|].
      intros Hne. exfalso. apply Hne. reflexivity. }
  specialize (Hb E).
  destruct (qry_parent qry).
  - destruct (update_parent_keys qry (pkt_qtype pkt)) as [[ret' qry']|] eqn:Hu'; [|exact I].
    apply update_parent_keys_kept in Hu'. destruct Hu' as [Hq' [Hf' Hr']].
    destruct (negb (ret' =? 0)); simpl; (split; [|states_leaf]);
      apply Hblock; auto; intros _; rewrite Hf'; exact Hb.
  - simpl. split; [|states_leaf]. apply Hblock; [apply same_question_refl|].
    intros _. exact Hb.
Qed.

(** Every return of [validate] keeps what [block_kept] says. *)
Lemma validate_flow_kept `{Dnssec} state req pkt :
  flow_kept state req (validate_flow state req pkt).
Proof.
  unfold validate_flow, validate_until_finish, validate_until_nodata,
    validate_until_nxdomain.
  repeat apply flow_kept_and_then; intros;
    auto using validate_guards_kept, validate_dnskey_kept, validate_nxdomain_kept,
      validate_nodata_kept, validate_positive_kept, validate_finish_kept.
Qed.

Lemma validate_kept `{Dnssec} state req pkt st req' :
  validate state req pkt = Some (st, req') ->
  block_kept req (Some st) req' /\ layer_states state st.
Proof.
  unfold validate. pose proof (validate_flow_kept state req pkt) as Hk.
  destruct (validate_flow state req pkt); try discriminate.
  intros E; inversion E; subst. exact Hk.
Qed.

Lemma reranked_same_rank a a' :
  Forall2 reranked a a' -> map entry_rank a' = map entry_rank a -> a' = a.
Proof.
  induction 1 as [|e e' a a' [Hid [Hw _]] _ IH]; simpl; [reflexivity|].
  intros E. inversion E as [[Hr Hrest]]. rewrite (IH Hrest). f_equal.
  destruct e as [u r y w rr], e' as [u' r' y' w' rr'].
  unfold entry_id in Hid. simpl in *. inversion Hid. subst. reflexivity.
Qed.

(** X17.  validate marks the query BOGUS only together with the FAIL
    verdict: whenever it returns another state, the BOGUS flag of the query
    is what it was before the call. *)
Theorem validate_bogus_only_with_fail `{Dnssec} state req pkt st req' :
  validate state req pkt = Some (st, req') ->
  st <> KNOT_STATE_FAIL ->
  has_flag (req_flags req') QUERY_DNSSEC_BOGUS
  = has_flag (req_flags req) QUERY_DNSSEC_BOGUS.
Proof.
  intros Hv Hst. apply validate_kept in Hv.
  destruct Hv as [[_ [_ [_ [Hb _]]]] _]. apply Hb. congruence.
Qed.

Lemma validate_bogus_only_with_fail_witness :
  exists req',
    validate (D:=accepting_dnssec) KNOT_STATE_DONE (req_a_example QUERY_DNSSEC_WANT)
      pkt_a_with_do = Some (KNOT_STATE_DONE, req')
    /\ has_flag (req_flags req') QUERY_DNSSEC_BOGUS = false.
Proof.
  assert (Hv : validate (D:=accepting_dnssec) KNOT_STATE_DONE
                 (req_a_example QUERY_DNSSEC_WANT) pkt_a_with_do
               = Some (KNOT_STATE_DONE, _))
    by (vm_compute; reflexivity).
  eexists. split; [exact Hv|].
  rewrite (validate_bogus_only_with_fail (H:=accepting_dnssec) _ _ _ _ _ Hv);
    [reflexivity | discriminate].
Defined.

(** X18.  validate neither adds, drops nor reorders a selected record, and
    never touches the question.  The answer records keep everything but,
    at most, their rank, and a record that is yielded or secure already is
    kept as it is; the authority records keep their identity, and their rank
    unless inspected; the name, type, id and timestamp of the query and its
    CACHED and STUB flags stay. *)
Theorem validate_keeps_records `{Dnssec} state req pkt st req' :
  validate state req pkt = Some (st, req') ->
  Forall2 reranked (answ_selected req) (answ_selected req')
  /\ Forall2 kept_record (auth_selected req) (auth_selected req')
  /\ same_question (current_query req) (current_query req').
Proof.
  intros Hv. apply validate_kept in Hv.
  destruct Hv as [[Ha [Hu [Hq _]]] _]. auto.
Qed.

Lemma validate_keeps_records_witness :
  exists st req',
    validate (D:=optout_dnssec) KNOT_STATE_DONE (req_a_example QUERY_DNSSEC_WANT)
      pkt_a_with_do = Some (st, req')
    /\ same_records (answ_selected (req_a_example QUERY_DNSSEC_WANT)) (answ_selected req')
    /\ qry_sname (current_query req') = name_example_com.
Proof.
  assert (Hv : validate (D:=optout_dnssec) KNOT_STATE_DONE
                 (req_a_example QUERY_DNSSEC_WANT) pkt_a_with_do
               = Some (_, _))
    by (vm_compute; reflexivity).
  do 2 eexists. split; [exact Hv|].
  destruct (validate_keeps_records (H:=optout_dnssec) _ _ _ _ _ Hv) as [Ha [_ Hq]].
  split.
  - exact (proj1 (Forall2_reranked_same_records _ _ Ha)).
  - rewrite (proj1 Hq). reflexivity.
Defined.

(** X19.  Records of a cached answer are not validated again: for a query
    with the CACHED flag validate leaves the selected answer records exactly
    as they are and changes no rank among the authority records, whatever
    it returns. *)
Theorem validate_cached_keeps_ranks `{Dnssec} state req pkt st req' :
  has_flag (req_flags req) QUERY_CACHED = true ->
  validate state req pkt = Some (st, req') ->
  answ_selected req' = answ_selected req
  /\ map entry_rank (auth_selected req') = map entry_rank (auth_selected req).
Proof.
  intros Hc Hv. apply validate_kept in Hv.
  destruct Hv as [[Ha [_ [_ [_ Hr]]]] _]. destruct (Hr Hc) as [Hr1 Hr2].
  split; [apply reranked_same_rank; assumption | exact Hr2].
Qed.

Lemma validate_cached_keeps_ranks_witness :
  let req := req_a_example (Z.lor QUERY_DNSSEC_WANT QUERY_CACHED) in
  exists req',
    validate (D:=accepting_dnssec) KNOT_STATE_DONE req pkt_a_without_do
      = Some (KNOT_STATE_DONE, req')
    /\ answ_selected req' = answ_selected req.
Proof.
  intros req.
  assert (Hv : validate (D:=accepting_dnssec) KNOT_STATE_DONE req pkt_a_without_do
               = Some (KNOT_STATE_DONE, _))
    by (vm_compute; reflexivity).
  eexists. split; [exact Hv|].
  assert (Hc : has_flag (req_flags req) QUERY_CACHED = true) by reflexivity.
  exact (proj1 (validate_cached_keeps_ranks (H:=accepting_dnssec) _ _ _ _ _ Hc Hv)).
Defined.

(** X20.  validate returns the state it was called in, DONE, YIELD or FAIL,
    and nothing else: no error code of a callee ever leaves it as a state. *)
Theorem validate_states `{Dnssec} state req pkt st req' :
  validate state req pkt = Some (st, req') ->
  st = state \/ st = KNOT_STATE_DONE \/ st = KNOT_STATE_YIELD \/ st = KNOT_STATE_FAIL.
Proof.
  intros Hv. apply validate_kept in Hv. exact (proj2 Hv).
Qed.

Lemma validate_states_witness :
  exists st req',
    validate (D:=accepting_dnssec) KNOT_STATE_PRODUCE req_without_key pkt_a_with_do
      = Some (st, req')
    /\ (st = KNOT_STATE_PRODUCE \/ st = KNOT_STATE_DONE
        \/ st = KNOT_STATE_YIELD \/ st = KNOT_STATE_FAIL).
Proof.
  assert (Hv : validate (D:=accepting_dnssec) KNOT_STATE_PRODUCE req_without_key
                 pkt_a_with_do = Some (_, _))
    by (vm_compute; reflexivity).
  do 2 eexists. split; [exact Hv|].
  exact (validate_states (H:=accepting_dnssec) _ _ _ _ _ Hv).
Defined.

(** *** The key set of the cut *)

Lemma merged_key_irrelevant cutn an : forall key,
  existsb (key_relevant cutn) an = false -> merged_key cutn key an = key.
Proof.
  unfold merged_key. induction an as [|rr rest IH]; intros key; simpl; [reflexivity|].
  intros E. apply orb_false_iff in E. destruct E as [Hr Hrest].
  rewrite key_step_irrelevant by exact Hr. apply IH. exact Hrest.
Qed.

Lemma keyset_merge_flag an : forall cut updated,
  snd (keyset_merge cut an updated)
  = updated || existsb (key_relevant (cut_name cut)) an.
Proof.
  induction an as [|rr rest IH]; intros cut updated; simpl.
  - rewrite orb_false_r. reflexivity.
  - rewrite <- negb_andb. fold (key_relevant (cut_name cut) rr).
    destruct (key_relevant (cut_name cut) rr); simpl negb; cbv iota.
    + destruct (cut_key cut) as [key|];
        [destruct (negb (knot_dname_is_equal (rr_owner key) (rr_owner rr)))|];
        rewrite IH; simpl; rewrite orb_true_r; reflexivity.
    + rewrite IH. reflexivity.
Qed.

Lemma merged_key_last cutn key l1 rr l2 :
  key_relevant cutn rr = true ->
  existsb (key_relevant cutn) l2 = false ->
  exists k,
    merged_key cutn key (l1 ++ rr :: l2) = Some k
    /\ rr_owner k = rr_owner rr
    /\ forall x, In x (rr_rrs rr) -> In x (rr_rrs k).
Proof.
  intros Hr Hl2. unfold merged_key. rewrite fold_left_app. simpl.
  fold (merged_key cutn (key_step cutn (fold_left (key_step cutn) l1 key) rr) l2).
  rewrite merged_key_irrelevant by exact Hl2.
  destruct (fold_left (key_step cutn) l1 key) as [k0|].
  - destruct (knot_dname_is_equal (rr_owner k0) (rr_owner rr)) eqn:He.
    + rewrite key_step_merge by assumption.
      exists (key_merge k0 rr). split; [reflexivity|]. simpl.
      split; [apply knot_dname_is_equal_iff; exact He|].
      intros x Hx. apply In_knot_rdataset_merge. right. exact Hx.
    + rewrite key_step_replace by assumption. exists rr. auto.
  - rewrite key_step_none by assumption. exists rr. auto.
Qed.


(** X22.  After the merge loop the key of the cut is owned by the last
    DNSKEY record set of the answer that lies at or below the cut, and holds
    every rdata of that record set; the loop reports the change. *)
Theorem keyset_merge_last_owner cut l1 rr l2 updated :
  key_relevant (cut_name cut) rr = true ->
  existsb (key_relevant (cut_name cut)) l2 = false ->
  exists k,
    cut_key (fst (keyset_merge cut (l1 ++ rr :: l2) updated)) = Some k
    /\ rr_owner k = rr_owner rr
    /\ (forall x, In x (rr_rrs rr) -> In x (rr_rrs k))
    /\ snd (keyset_merge cut (l1 ++ rr :: l2) updated) = true.
Proof.
  intros Hr Hl2.
  destruct (merged_key_last (cut_name cut) (cut_key cut) l1 rr l2 Hr Hl2)
    as [k [Hk [Ho Hin]]].
  exists k. rewrite keyset_merge_key, keyset_merge_flag. simpl. rewrite Hk.
  repeat (split; [auto|]).
  rewrite existsb_app. simpl. rewrite Hr, orb_true_r, orb_true_r. reflexivity.
Qed.

Lemma keyset_merge_last_owner_witness :
  exists k,
    cut_key (fst (keyset_merge cut_without_key an_two_keys false)) = Some k
    /\ rr_owner k = name_example_com
    /\ In "another key"%string (rr_rrs k).
Proof.
  destruct (keyset_merge_last_owner cut_without_key [rr_key_example] rr_key2_example
              [rr_sig_example] false eq_refl eq_refl) as [k [Hk [Ho [Hin _]]]].
  exists k. split; [exact Hk|]. split; [exact Ho|].
  apply Hin. left. reflexivity.
Defined.

Lemma req_set_cut_same req : req_set_cut req (qry_zone_cut (current_query req)) = req.
Proof. destruct req as [a u q]. destruct q. reflexivity. Qed.

(** X23.  validate_keyset returns an error only from the trust check of
    the merged key set, which it runs only for a query that is not cached
    and an answer with a DNSKEY record set at or below the cut; it then
    leaves the cut without a key.  The selected records and the flags of
    the query are as before. *)
Theorem validate_keyset_untrusted `{Dnssec} req pkt has_nsec3 ret req' :
  validate_keyset req pkt has_nsec3 = (ret, req') ->
  ret <> 0 ->
  cut_key (qry_zone_cut (current_query req')) = None
  /\ has_flag (req_flags req) QUERY_CACHED = false
  /\ existsb (key_relevant (cut_name (qry_zone_cut (current_query req))))
       (knot_pkt_section pkt KNOT_ANSWER) = true
  /\ req_flags req' = req_flags req
  /\ answ_selected req' = answ_selected req
  /\ auth_selected req' = auth_selected req.
Proof.
  unfold validate_keyset.
  pose proof (keyset_merge_flag (knot_pkt_section pkt KNOT_ANSWER)
                (qry_zone_cut (current_query req)) false) as Hf.
  destruct (keyset_merge _ _ _) as [cut updated]. simpl in Hf.
  destruct (updated && _) eqn:Hb.
  - apply andb_true_iff in Hb. destruct Hb as [Hu Hc].
    destruct (kr_dnskeys_trusted _ _) as [ret' vflags].
    destruct (Z.eqb_spec ret' 0) as [E|E]; simpl negb; cbv iota.
    + destruct (has_flag vflags _); intros E'; inversion E'; subst; contradiction.
    + intros E'; inversion E'; subst. simpl.
      split; [reflexivity|]. split.
      { unfold req_flags. simpl in Hc. apply negb_true_iff in Hc. exact Hc. }
      split; [congruence|]. auto.
  - intros E'; inversion E'; subst. contradiction.
Qed.

Lemma validate_keyset_untrusted_witness :
  exists ret req',
    validate_keyset (D:=distrusting_dnssec) (req_a_example QUERY_DNSSEC_WANT)
      pkt_dnskey false = (ret, req')
    /\ ret <> 0
    /\ cut_key (qry_zone_cut (current_query req')) = None.
Proof.
  assert (Hv : validate_keyset (D:=distrusting_dnssec) (req_a_example QUERY_DNSSEC_WANT)
                 pkt_dnskey false = (kr_error ENOENT, _))
    by (vm_compute; reflexivity).
  assert (Hne : kr_error ENOENT <> 0) by discriminate.
  do 2 eexists. split; [exact Hv|]. split; [exact Hne|].
  exact (proj1 (validate_keyset_untrusted (H:=distrusting_dnssec) _ _ _ _ _ Hv Hne)).
Defined.

(** X24.  An answer without a DNSKEY record set at or below the cut leaves
    validate_keyset nothing to do: it returns OK and the request is
    untouched, the trust check is not run. *)
Theorem validate_keyset_without_dnskey `{Dnssec} req pkt has_nsec3 :
  existsb (key_relevant (cut_name (qry_zone_cut (current_query req))))
    (knot_pkt_section pkt KNOT_ANSWER) = false ->
  validate_keyset req pkt has_nsec3 = (kr_ok, req).
Proof.
  intros Hn. unfold validate_keyset.
  pose proof (keyset_merge_flag (knot_pkt_section pkt KNOT_ANSWER)
                (qry_zone_cut (current_query req)) false) as Hf.
  pose proof (keyset_merge_key (knot_pkt_section pkt KNOT_ANSWER)
                (qry_zone_cut (current_query req)) false) as Hk.
  rewrite merged_key_irrelevant, cut_set_key_key in Hk by exact Hn.
  destruct (keyset_merge _ _ _) as [cut updated]. simpl in Hf, Hk.
  rewrite Hn in Hf. subst updated cut. simpl.
  rewrite req_set_cut_same. reflexivity.
Qed.

Lemma validate_keyset_without_dnskey_witness :
  validate_keyset (D:=distrusting_dnssec) (req_a_example QUERY_DNSSEC_WANT)
    pkt_a_with_do false = (kr_ok, req_a_example QUERY_DNSSEC_WANT).
Proof.
  apply (validate_keyset_without_dnskey (H:=distrusting_dnssec)). reflexivity.
Defined.

(** *** Denial proofs that fail *)

Lemma validate_until_nxdomain_reached `{Dnssec} state req pkt :
  validates_answer state req ->
  pkt_aa pkt && (pkt_qtype pkt =? KNOT_RRTYPE_DNSKEY) = false ->
  validate_until_nxdomain state req pkt = Continue req
  \/ validate_until_nxdomain state req pkt
     = Return KNOT_STATE_FAIL (req_set_flag req QUERY_DNSSEC_BOGUS).
Proof.
  intros [Hs [Hw [Hst Hc]]] Hk. unfold req_flags in *.
  unfold validate_until_nxdomain, validate_guards.
  rewrite Hs, Hw, Hst, Hc. simpl.
  destruct (negb (pkt_has_dnssec pkt) && _); simpl; [right; reflexivity|].
  left. unfold validate_dnskey. rewrite Hk. reflexivity.
Qed.

Lemma validate_of_return `{Dnssec} state req pkt st r :
  validate_until_finish state req pkt = Return st r ->
  validate state req pkt = Some (st, r).
Proof. unfold validate, validate_flow. intros ->. reflexivity. Qed.

(** X25.  A name error whose denial proof fails is bogus.  When validate
    validates an uncached NXDOMAIN answer (not an authoritative DNSKEY
    answer) and the name-error proof, NSEC or NSEC3 as the packet has it,
    returns anything but 0, validate returns FAIL and changes the request
    in one thing only: the query is marked BOGUS. *)
Theorem validate_bad_name_error `{Dnssec} state req pkt :
  validates_answer state req ->
  pkt_aa pkt && (pkt_qtype pkt =? KNOT_RRTYPE_DNSKEY) = false ->
  pkt_rcode pkt = KNOT_RCODE_NXDOMAIN ->
  name_error_proof pkt (qry_sname (current_query req)) <> 0 ->
  validate state req pkt
  = Some (KNOT_STATE_FAIL, req_set_flag req QUERY_DNSSEC_BOGUS).
Proof.
  intros Hv Hk Hr Hp. apply validate_of_return.
  unfold validate_until_finish, validate_until_nodata.
  destruct (validate_until_nxdomain_reached state req pkt Hv Hk) as [-> | ->];
    [|reflexivity].
  simpl and_then at 3. unfold validate_nxdomain.
  destruct Hv as [_ [_ [_ Hc]]]. unfold req_flags in Hc. rewrite Hc, Hr. simpl.
  unfold name_error_proof in Hp.
  destruct (pkt_has_type pkt KNOT_RRTYPE_NSEC3); simpl;
    match goal with
    | |- context [?r =? 0] => destruct (Z.eqb_spec r 0); [contradiction|reflexivity]
    end.
Qed.

Lemma validate_bad_name_error_witness :
  validate (D:=optout_dnssec) KNOT_STATE_DONE req_auth_sig pkt_nxdomain_nsec
  = Some (KNOT_STATE_FAIL, req_set_flag req_auth_sig QUERY_DNSSEC_BOGUS).
Proof.
  apply (validate_bad_name_error (H:=optout_dnssec)).
  - repeat split; reflexivity.
  - reflexivity.
  - reflexivity.
  - discriminate.
Defined.

(** X26.  An empty answer whose denial proof fails is bogus.  When validate
    validates an uncached, authoritative NOERROR answer with an empty answer
    section (the question not for DNSKEY) and the no-data proof returns
    anything but 0, validate returns FAIL with the query marked BOGUS and
    nothing else changed; the one exception is NOT_FOUND from the NSEC3
    proof.  From the NSEC proof NOT_FOUND fails as every other error. *)
Theorem validate_bad_nodata `{Dnssec} state req pkt :
  validates_answer state req ->
  pkt_qtype pkt <> KNOT_RRTYPE_DNSKEY ->
  pkt_rcode pkt = KNOT_RCODE_NOERROR ->
  knot_pkt_section pkt KNOT_ANSWER = [] ->
  pkt_aa pkt = true ->
  nodata_proof pkt <> 0 ->
  ~ (pkt_has_type pkt KNOT_RRTYPE_NSEC3 = true
     /\ nodata_proof pkt = kr_error DNSSEC_NOT_FOUND) ->
  validate state req pkt
  = Some (KNOT_STATE_FAIL, req_set_flag req QUERY_DNSSEC_BOGUS).
Proof.
  intros Hv Hq Hr Han Haa Hp Hnf. apply validate_of_return.
  assert (Hk : pkt_aa pkt && (pkt_qtype pkt =? KNOT_RRTYPE_DNSKEY) = false).
  { apply andb_false_iff. right. apply Z.eqb_neq. exact Hq. }
  unfold validate_until_finish, validate_until_nodata.
  destruct (validate_until_nxdomain_reached state req pkt Hv Hk) as [-> | ->];
    [|reflexivity].
  destruct Hv as [_ [_ [_ Hc]]]. unfold req_flags in Hc.
  assert (Hx : validate_nxdomain pkt req = Continue req).
  { unfold validate_nxdomain. rewrite Hc, Hr. reflexivity. }
  simpl and_then at 3. rewrite Hx. simpl and_then at 2.
  assert (Hn : validate_nodata pkt req
               = Return KNOT_STATE_FAIL (req_set_flag req QUERY_DNSSEC_BOGUS)).
  { unfold validate_nodata. rewrite Hc, Hr, Han, Haa. simpl.
    unfold nodata_proof in Hp, Hnf.
    destruct (pkt_has_type pkt KNOT_RRTYPE_NSEC3); simpl.
    - destruct (Z.eqb_spec (kr_nsec3_no_data pkt KNOT_AUTHORITY (pkt_qname pkt)
                              (pkt_qtype pkt)) 0); [contradiction|]. simpl.
      destruct (Z.eqb_spec (kr_nsec3_no_data pkt KNOT_AUTHORITY (pkt_qname pkt)
                              (pkt_qtype pkt)) (kr_error DNSSEC_NOT_FOUND));
        [exfalso; apply Hnf; auto | reflexivity].
    - destruct (Z.eqb_spec (kr_nsec_existence_denial pkt KNOT_AUTHORITY (pkt_qname pkt)
                              (pkt_qtype pkt)) 0); [contradiction|reflexivity]. }
  rewrite Hn. reflexivity.
Qed.

Lemma validate_bad_nodata_witness :
  validate (D:=optout_dnssec) KNOT_STATE_DONE req_auth_sig pkt_nodata
  = Some (KNOT_STATE_FAIL, req_set_flag req_auth_sig QUERY_DNSSEC_BOGUS).
Proof.
  apply (validate_bad_nodata (H:=optout_dnssec)).
  - repeat split; reflexivity.
  - discriminate.
  - reflexivity.
  - reflexivity.
  - reflexivity.
  - discriminate.
  - intros [Hn _]. discriminate Hn.
Defined.

(** *** A DNSKEY answer with keys that are not trusted *)

Lemma validate_keyset_error_key `{Dnssec} req pkt has_nsec3 ret r :
  validate_keyset req pkt has_nsec3 = (ret, r) ->
  ret <> 0 ->
  cut_key (qry_zone_cut (current_query r)) = None.
Proof.
  unfold validate_keyset. destruct (keyset_merge _ _ _) as [cut updated].
  destruct (_ && _).
  - destruct (kr_dnskeys_trusted _ _) as [ret' vflags].
    destruct (Z.eqb_spec ret' 0) as [E|E]; simpl negb; cbv iota.
    + destruct (has_flag vflags _); intros E'; inversion E'; subst; contradiction.
    + intros E'; inversion E'; subst. reflexivity.
  - intros E'; inversion E'; subst. contradiction.
Qed.

(** X27.  An authoritative DNSKEY answer with keys that do not check out
    ends validation.  When validate validates such an uncached answer, the
    signer check lets it pass and validate_keyset returns an error, then
    validate returns YIELD if the error is EAGAIN and FAIL with the query
    marked BOGUS otherwise; either way the cut is left without a key. *)
Theorem validate_untrusted_keys `{Dnssec} state req pkt ret r1 :
  validates_answer state req ->
  pkt_aa pkt = true ->
  pkt_qtype pkt = KNOT_RRTYPE_DNSKEY ->
  fst (check_signer state req) = KNOT_STATE_DONE ->
  validate_keyset req pkt (pkt_has_type pkt KNOT_RRTYPE_NSEC3) = (ret, r1) ->
  ret <> 0 ->
  validate state req pkt
  = Some (if ret =? kr_error EAGAIN
          then (KNOT_STATE_YIELD, r1)
          else (KNOT_STATE_FAIL, req_set_flag r1 QUERY_DNSSEC_BOGUS))
  /\ cut_key (qry_zone_cut (current_query r1)) = None.
Proof.
  intros [Hs [Hw [Hst Hc]]] Haa Hq Hsig Hk Hne.
  split; [|eapply validate_keyset_error_key; eassumption].
  assert (Hd : validate_until_nxdomain state req pkt
               = if ret =? kr_error EAGAIN
                 then Return KNOT_STATE_YIELD r1
                 else Return KNOT_STATE_FAIL (req_set_flag r1 QUERY_DNSSEC_BOGUS)).
  { unfold validate_until_nxdomain, validate_guards. unfold req_flags in *.
    rewrite Hs, Hw, Hst, Hc, Hq. simpl. rewrite andb_false_r. simpl.
    unfold validate_dnskey, req_flags. rewrite Haa, Hq, Hc. simpl.
    destruct (check_signer state req) as [st r0] eqn:Hcs. simpl in Hsig. subst st.
    apply check_signer_done in Hcs. subst r0. simpl.
    rewrite Hk. destruct (ret =? kr_error EAGAIN); [reflexivity|].
    destruct (Z.eqb_spec ret 0); [contradiction|reflexivity]. }
  unfold validate, validate_flow, validate_until_finish, validate_until_nodata.
  rewrite Hd. destruct (ret =? kr_error EAGAIN); reflexivity.
Qed.

Lemma validate_untrusted_keys_witness :
  exists r1,
    validate (D:=distrusting_dnssec) KNOT_STATE_DONE (req_a_example QUERY_DNSSEC_WANT)
      pkt_dnskey
    = Some (KNOT_STATE_FAIL, req_set_flag r1 QUERY_DNSSEC_BOGUS)
    /\ cut_key (qry_zone_cut (current_query r1)) = None.
Proof.
  assert (Hk : validate_keyset (D:=distrusting_dnssec) (req_a_example QUERY_DNSSEC_WANT)
                 pkt_dnskey (pkt_has_type pkt_dnskey KNOT_RRTYPE_NSEC3)
               = (kr_error ENOENT, _))
    by (vm_compute; reflexivity).
  assert (Hv : validates_answer KNOT_STATE_DONE (req_a_example QUERY_DNSSEC_WANT))
    by (repeat split; reflexivity).
  assert (Hne : kr_error ENOENT <> 0) by discriminate.
  eexists.
  exact (validate_untrusted_keys (H:=distrusting_dnssec) KNOT_STATE_DONE
           (req_a_example QUERY_DNSSEC_WANT) pkt_dnskey _ _ Hv eq_refl eq_refl eq_refl
           Hk Hne).
Defined.
